(** * The catalog creation and initialization pipeline of the manage server

    A shallow embedding of [manage/server/catalogservice.go] and
    [manage/server/server.go]: the HTTP handlers of the control plane, the
    per-catalog config mutators and the versioned config store they are
    built on, followed by the properties the specification states about
    them.

    The handlers are written in a state monad over a [World] that holds
    the metadata DB, the container platform, the in-memory init-task
    registry and the response writer.  Every call that leaves the process
    (DB, container platform, manage service) is recorded in a trace and may
    fail: the world carries a schedule of injected faults, one entry
    consumed per call.  A Go panic (index out of range, nil dereference) is
    a third outcome next to a normal return. *)

From stdpp Require Import gmap strings list fin_maps.
From Stdlib Require Import ZArith Lia Ascii.

Set Default Proof Using "Type".

(** ** HTTP status codes (net/http) *)

Definition StatusOK : Z := 200.
Definition StatusBadRequest : Z := 400.
Definition StatusNotFound : Z := 404.
Definition StatusRequestTimeout : Z := 408.
Definition StatusConflict : Z := 409.
Definition StatusInternalServerError : Z := 500.
Definition StatusNotImplemented : Z := 501.

Definition StatusText (code : Z) : string :=
  if bool_decide (code = StatusOK) then "OK"
  else if bool_decide (code = StatusBadRequest) then "Bad Request"
  else if bool_decide (code = StatusNotFound) then "Not Found"
  else if bool_decide (code = StatusRequestTimeout) then "Request Timeout"
  else if bool_decide (code = StatusConflict) then "Conflict"
  else if bool_decide (code = StatusInternalServerError) then "Internal Server Error"
  else if bool_decide (code = StatusNotImplemented) then "Not Implemented"
  else "".

(** ** Errors *)

(** Modelled from the spec: the typed errors of packages [common] and [db]
    (section 7, the error taxonomy), whose declarations are not part of the
    sources at hand.  [ErrOther] stands for an [errors.New] value of a
    validator, a generator or a driver. *)
Inductive error :=
| ErrDBInvalidRequest
| ErrDBRecordNotFound
| ErrDBConditionalCheckFailed
| ErrDBInternal
| ErrServiceExist
| ErrConfigMismatch
| ErrTimeout
| ErrInternal
| ErrOther (msg : string).

#[global] Instance error_eq_dec : EqDecision error.
Proof. solve_decision. Defined.

Definition Error (e : error) : string :=
  match e with
  | ErrDBInvalidRequest => "DB invalid request"
  | ErrDBRecordNotFound => "DB record not found"
  | ErrDBConditionalCheckFailed => "DB conditional check failed"
  | ErrDBInternal => "DB internal error"
  | ErrServiceExist => "service exists"
  | ErrConfigMismatch => "config mismatch"
  | ErrTimeout => "timeout"
  | ErrInternal => "internal error"
  | ErrOther msg => msg
  end.

(** Modelled from the spec: [manage.ConvertToHTTPError] (section 7), the
    one mapping of typed errors to HTTP codes; it is declared outside the
    sources at hand. *)
Definition ConvertToHTTPError (e : error) : string * Z :=
  match e with
  | ErrDBInvalidRequest => (Error e, StatusBadRequest)
  | ErrDBRecordNotFound => (Error e, StatusNotFound)
  | ErrServiceExist => (Error e, StatusConflict)
  | ErrTimeout => (Error e, StatusRequestTimeout)
  | _ => (Error e, StatusInternalServerError)
  end.

(** A Go result [(T, error)]. *)
Inductive res (A : Type) :=
| Success (a : A)
| Failure (e : error).
Arguments Success {A} a.
Arguments Failure {A} e.

(** ** Data model (package [common], [manage], [containersvc]) *)

Inductive ServiceStatus :=
| ServiceStatusCreating
| ServiceStatusInitializing
| ServiceStatusActive
| ServiceStatusDeleting.

#[global] Instance ServiceStatus_eq_dec : EqDecision ServiceStatus.
Proof. solve_decision. Defined.

Module Service.
Record t := mk {
  ServiceUUID : string;
  ClusterName : string;
  ServiceName : string }.
End Service.

Module ServiceAttr.
Record t := mk {
  ServiceUUID : string;
  ServiceStatus : ServiceStatus;
  Replicas : Z;
  ClusterName : string;
  ServiceName : string;
  DomainName : string }.
End ServiceAttr.

Module MemberConfig.
Record t := mk {
  FileName : string;
  FileID : string;
  FileMD5 : string }.
#[global] Instance eq_dec : EqDecision t.
Proof. solve_decision. Defined.
End MemberConfig.

Module ServiceMember.
Record t := mk {
  ServiceUUID : string;
  MemberName : string;
  StaticIP : string;
  Configs : list MemberConfig.t }.
#[global] Instance eq_dec : EqDecision t.
Proof. solve_decision. Defined.
End ServiceMember.

Module ConfigFile.
Record t := mk {
  ServiceUUID : string;
  FileID : string;
  FileMD5 : string;
  FileName : string;
  FileMode : Z;
  Content : string }.
End ConfigFile.

(** [manage.ReplicaConfigFile]: a config file as a generator hands it over. *)
Module ReplicaConfigFile.
Record t := mk {
  FileName : string;
  FileMode : Z;
  Content : string }.
End ReplicaConfigFile.

Module ServiceCommonRequest.
Record t := mk {
  Region : string;
  Cluster : string;
  ServiceName : string }.
End ServiceCommonRequest.

(** [common.Resources], container images, ports and the like are only
    copied by this package; they are kept as opaque tokens. *)
Abbreviation Resources := string (only parsing).

Module CreateServiceRequest.
Record t := mk {
  Service : ServiceCommonRequest.t;
  Resource : Resources;
  ContainerImage : string;
  Replicas : Z;
  ContainerPath : string;
  Port : Z;
  ReplicaConfigs : list (list ReplicaConfigFile.t) }.
End CreateServiceRequest.

Module CommonOptions.
Record t := mk {
  Cluster : string;
  ServiceName : string;
  ServiceUUID : string;
  ContainerImage : string;
  Resource : Resources }.
End CommonOptions.

Module CreateServiceOptions.
Record t := mk {
  Common : CommonOptions.t;
  ContainerPath : string;
  Port : Z;
  Replicas : Z }.
End CreateServiceOptions.

Module RunTaskOptions.
Record t := mk {
  Common : CommonOptions.t;
  TaskType : string;
  Envkvs : list (string * string) }.
End RunTaskOptions.

(** [common.ServiceStatus] of the container platform and [common.TaskStatus]. *)
Module PlatformStatus.
Record t := mk {
  RunningCount : Z;
  DesiredCount : Z }.
End PlatformStatus.

Abbreviation TaskStatus := string (only parsing).

(** The entry of the init-task registry ([serviceTask] plus the status
    message the runner keeps for it). *)
Module serviceTask.
Record t := mk {
  serviceUUID : string;
  serviceName : string;
  serviceType : string;
  opts : RunTaskOptions.t;
  statusMessage : string }.
End serviceTask.

(** ** Request and response bodies (package [manage]) *)

Module CatalogCheckServiceInitRequest.
Record t := mk {
  ServiceType : string;
  Service : ServiceCommonRequest.t;
  Admin : string;
  AdminPasswd : string;
  Shards : Z;
  ReplicasPerShard : Z }.
End CatalogCheckServiceInitRequest.

Module CatalogSetServiceInitRequest.
Record t := mk {
  Region : string;
  Cluster : string;
  ServiceName : string;
  ServiceType : string }.
End CatalogSetServiceInitRequest.

Module CatalogSetRedisInitRequest.
Record t := mk {
  Region : string;
  Cluster : string;
  ServiceName : string;
  NodeIds : list string }.
End CatalogSetRedisInitRequest.

(** The eleven [CatalogCreate...Request] types share one shape; of the
    options only the fields this package reads are kept. *)
Module CatalogCreateRequest.
Record t (O : Type) := mk {
  Service : ServiceCommonRequest.t;
  Resource : Resources;
  Options : O }.
Arguments mk {O} _ _ _.
Arguments Service {O} _.
Arguments Resource {O} _.
Arguments Options {O} _.
End CatalogCreateRequest.

Module AdminOptions.
Record t := mk {
  Replicas : Z;
  Admin : string;
  AdminPasswd : string }.
End AdminOptions.

Module RedisOptions.
Record t := mk {
  Shards : Z;
  ReplicasPerShard : Z }.
End RedisOptions.

Module KafkaOptions.
Record t := mk { ZkServiceName : string }.
End KafkaOptions.

Module KibanaOptions.
Record t := mk { ESServiceName : string }.
End KibanaOptions.

Abbreviation PlainOptions := string (only parsing).

Module ListServiceRequest.
Record t := mk {
  Region : string;
  Cluster : string;
  Prefix : string }.
End ListServiceRequest.

Module ListVolumeRequest.
Record t := mk { Service : ServiceCommonRequest.t }.
End ListVolumeRequest.

Module RunTaskRequest.
Record t := mk {
  Service : ServiceCommonRequest.t;
  Resource : Resources;
  ContainerImage : string;
  TaskType : string;
  Envkvs : list (string * string) }.
End RunTaskRequest.

Module GetTaskStatusRequest.
Record t := mk {
  Service : ServiceCommonRequest.t;
  TaskID : string }.
End GetTaskStatusRequest.

Module DeleteTaskRequest.
Record t := mk {
  Service : ServiceCommonRequest.t;
  TaskType : string }.
End DeleteTaskRequest.

(** What a handler marshals into the response.  [json.Marshal] cannot fail
    on these plain structs, so the body is kept as the typed value. *)
Inductive Body :=
| CatalogCheckServiceInitResponse (Initialized : bool) (StatusMessage : string)
| CatalogCreateConsulResponse (ConsulServerIPs : list string)
| ListServiceResponse (Services : list ServiceAttr.t)
| ListVolumeResponse (Volumes : list ServiceMember.t)
| GetServiceAttributesResponse (Service : ServiceAttr.t)
| ServiceStatusResponse (RunningCount DesiredCount : Z)
| RunTaskResponse (TaskID : string)
| GetTaskStatusResponse (Status : TaskStatus).

(** The calls on the [http.ResponseWriter]. *)
Inductive Output :=
| WriteHeader (code : Z)
| Write (b : Body).

(** ** The world *)

(** The metadata DB: (cluster, serviceName) to Service; serviceUUID to
    ServiceAttr; serviceUUID to its members, in the order
    ListServiceMembers returns them; (serviceUUID, fileID) to ConfigFile. *)
Record DB := mkDB {
  services : gmap (string * string) Service.t;
  attrs : gmap string ServiceAttr.t;
  members : gmap string (list ServiceMember.t);
  cfgfiles : gmap (string * string) ConfigFile.t }.

(** A call that leaves the process. *)
Inductive Event :=
| DBGetService (cluster name : string)
| DBGetServiceAttr (uuid : string)
| DBListServices (cluster : string)
| DBDeleteService (cluster name : string)
| DBListServiceMembers (uuid : string)
| DBListVolumes (uuid : string)
| DBUpdateServiceMember (old new : ServiceMember.t)
| DBGetConfigFile (uuid fileID : string)
| DBCreateConfigFile (cf : ConfigFile.t)
| DBDeleteConfigFile (uuid fileID : string)
| SvcCreateService (req : CreateServiceRequest.t) (domain vpcID : string)
| SvcSetServiceInitialized (cluster name : string)
| CsIsServiceExist (cluster name : string)
| CsCreateService (opts : CreateServiceOptions.t)
| CsRestartService (cluster name : string) (replicas : Z)
| CsGetServiceStatus (cluster name : string)
| CsRunTask (opts : RunTaskOptions.t)
| CsGetTaskStatus (cluster taskID : string)
| CsDeleteTask (cluster name taskType : string).

Record World := mkWorld {
  db : DB;
  (* the container platform: its services, and the tasks it ran *)
  containers : gmap (string * string) CreateServiceOptions.t;
  platformStatus : gmap (string * string) PlatformStatus.t;
  platformTasks : gmap string TaskStatus;
  (* the in-memory InitTaskRunner *)
  initTasks : gmap string serviceTask.t;
  (* injected faults, one entry per outgoing call *)
  faults : list (option error);
  (* the outgoing calls so far, oldest first *)
  trace : list Event;
  (* the response writer of the request being served *)
  resp : list Output }.

Definition set_db (f : DB → DB) (w : World) : World :=
  mkWorld (f (db w)) (containers w) (platformStatus w) (platformTasks w)
          (initTasks w) (faults w) (trace w) (resp w).
Definition set_containers (f : gmap (string * string) CreateServiceOptions.t →
                               gmap (string * string) CreateServiceOptions.t)
  (w : World) : World :=
  mkWorld (db w) (f (containers w)) (platformStatus w) (platformTasks w)
          (initTasks w) (faults w) (trace w) (resp w).
Definition set_platformTasks (f : gmap string TaskStatus → gmap string TaskStatus)
  (w : World) : World :=
  mkWorld (db w) (containers w) (platformStatus w) (f (platformTasks w))
          (initTasks w) (faults w) (trace w) (resp w).
Definition set_initTasks (f : gmap string serviceTask.t → gmap string serviceTask.t)
  (w : World) : World :=
  mkWorld (db w) (containers w) (platformStatus w) (platformTasks w)
          (f (initTasks w)) (faults w) (trace w) (resp w).
Definition set_faults (f : list (option error) → list (option error))
  (w : World) : World :=
  mkWorld (db w) (containers w) (platformStatus w) (platformTasks w)
          (initTasks w) (f (faults w)) (trace w) (resp w).
Definition set_trace (f : list Event → list Event) (w : World) : World :=
  mkWorld (db w) (containers w) (platformStatus w) (platformTasks w)
          (initTasks w) (faults w) (f (trace w)) (resp w).
Definition set_resp (f : list Output → list Output) (w : World) : World :=
  mkWorld (db w) (containers w) (platformStatus w) (platformTasks w)
          (initTasks w) (faults w) (trace w) (f (resp w)).

Definition set_services (f : gmap (string * string) Service.t → gmap (string * string) Service.t)
  (d : DB) : DB := mkDB (f (services d)) (attrs d) (members d) (cfgfiles d).
Definition set_attrs (f : gmap string ServiceAttr.t → gmap string ServiceAttr.t)
  (d : DB) : DB := mkDB (services d) (f (attrs d)) (members d) (cfgfiles d).
Definition set_members (f : gmap string (list ServiceMember.t) → gmap string (list ServiceMember.t))
  (d : DB) : DB := mkDB (services d) (attrs d) (f (members d)) (cfgfiles d).
Definition set_cfgfiles (f : gmap (string * string) ConfigFile.t → gmap (string * string) ConfigFile.t)
  (d : DB) : DB := mkDB (services d) (attrs d) (members d) (f (cfgfiles d)).

(** ** The monad of the handlers *)

Inductive panic :=
| IndexOutOfRange
| NilDereference.

Inductive outcome (A : Type) :=
| Done (a : A)
| Panicked (p : panic).
Arguments Done {A} a.
Arguments Panicked {A} p.

Definition M (A : Type) : Type := World → outcome A * World.

Definition ret {A} (a : A) : M A := fun w => (Done a, w).
Definition raise {A} (p : panic) : M A := fun w => (Panicked p, w).
Definition bind {A B} (m : M A) (k : A → M B) : M B :=
  fun w => match m w with
           | (Done a, w') => k a w'
           | (Panicked p, w') => (Panicked p, w')
           end.
Definition modify (f : World → World) : M unit := fun w => (Done tt, f w).
Definition gets {A} (f : World → A) : M A := fun w => (Done (f w), w).

Declare Scope go_scope.
Delimit Scope go_scope with go.
Notation "x <- m ;; k" := (bind m (fun x => k))
  (at level 100, m at next level, right associativity) : go_scope.
Notation "m ;;; k" := (bind m (fun _ => k))
  (at level 100, right associativity) : go_scope.
(** [v, err := f(...); if err != nil { return err }] *)
Notation "x <-? m ;; k" :=
  (bind m (fun r => match r with
                    | Success x => k
                    | Failure e => ret (Failure e)
                    end))
  (at level 100, m at next level, right associativity) : go_scope.
(** [v, err := f(...); if err != nil { return manage.ConvertToHTTPError(err) }] *)
Notation "x <-! m ;; k" :=
  (bind m (fun r => match r with
                    | Success x => k
                    | Failure e => ret (ConvertToHTTPError e)
                    end))
  (at level 100, m at next level, right associativity) : go_scope.
Open Scope go_scope.

(** An outgoing call: it is logged, and the next entry of the fault
    schedule decides whether it fails. *)
Definition nextFault (w : World) : option error :=
  match faults w with
  | f :: _ => f
  | [] => None
  end.

Definition called (ev : Event) (w : World) : World :=
  set_faults (drop 1) (set_trace (λ t, t ++ [ev]) w).

Definition call (ev : Event) : M (option error) :=
  fun w => (Done (nextFault w), called ev w).

(** [call ev] followed by the operation proper when no fault is injected. *)
Definition extern {A} (ev : Event) (op : M (res A)) : M (res A) :=
  f <- call ev ;;
  match f with
  | Some e => ret (Failure e)
  | None => op
  end.

(** ** The collaborators the sources do not contain

    Packages [utils], [dns], [db], the catalog packages, the log-config
    provider and the control-plane create of [manageservice] are used by
    the two files but declared elsewhere.  What they compute is left open:
    the handlers are embedded over any implementation of this interface. *)

Class Catalog := {
  (* utils *)
  GenMD5 : string → string;
  GenMemberConfigFileID : string → string → Z → string;
  GetConfigFileVersion : string → res Z;
  (* dns, server.Info, log-config provider *)
  GenDefaultDomainName : string → string;
  GenDNSName : string → string → string;
  GetLocalVpcID : string;
  CreateLogConfigForStream : string → string → string → string → string;
  (* mongodbcatalog *)
  IsMongoDBConfFile : string → bool;
  IsAuthEnabled : string → bool;
  EnableMongoDBAuth : string → string;
  mongodbcatalog_ValidateRequest : CatalogCreateRequest.t AdminOptions.t → option error;
  mongodbcatalog_GenDefaultCreateServiceRequest :
    string → string → list string → string → string → AdminOptions.t → Resources →
    res CreateServiceRequest.t;
  mongodbcatalog_GenDefaultInitTaskRequest :
    ServiceCommonRequest.t → string → string → Z → string → string → string →
    RunTaskOptions.t;
  (* rediscatalog *)
  IsRedisConfFile : string → bool;
  IsClusterInfoFile : string → bool;
  NeedToEnableAuth : string → bool;
  NeedToSetClusterAnnounceIP : string → bool;
  EnableRedisAuth : string → string;
  SetClusterAnnounceIP : string → string → string;
  CreateClusterInfoFile : list string → ReplicaConfigFile.t;
  IsClusterMode : Z → bool;
  rediscatalog_ValidateRequest : CatalogCreateRequest.t RedisOptions.t → option error;
  rediscatalog_GenDefaultCreateServiceRequest :
    string → string → list string → string → string → Resources → RedisOptions.t →
    CreateServiceRequest.t;
  rediscatalog_GenDefaultInitTaskRequest :
    ServiceCommonRequest.t → string → Z → Z → string → string → res RunTaskOptions.t;
  (* consulcatalog *)
  IsBasicConfigFile : string → bool;
  ReplaceMemberName : string → gmap string string → string;
  consulcatalog_ValidateRequest : CatalogCreateRequest.t PlainOptions → option error;
  consulcatalog_GenDefaultCreateServiceRequest :
    string → string → list string → string → string → Resources → PlainOptions →
    CreateServiceRequest.t;
  (* cascatalog, couchdbcatalog *)
  cascatalog_ValidateRequest : CatalogCreateRequest.t PlainOptions → option error;
  cascatalog_GenDefaultCreateServiceRequest :
    string → string → list string → string → string → PlainOptions → Resources →
    CreateServiceRequest.t;
  cascatalog_GenDefaultInitTaskRequest :
    ServiceCommonRequest.t → string → string → string → RunTaskOptions.t;
  couchdbcatalog_ValidateRequest : CatalogCreateRequest.t AdminOptions.t → option error;
  couchdbcatalog_GenDefaultCreateServiceRequest :
    string → string → list string → string → string → Resources → AdminOptions.t →
    CreateServiceRequest.t;
  couchdbcatalog_GenDefaultInitTaskRequest :
    ServiceCommonRequest.t → string → list string → string → Z → string → string →
    string → RunTaskOptions.t;
  (* pgcatalog, zkcatalog, kafkacatalog *)
  pgcatalog_ValidateRequest : CatalogCreateRequest.t PlainOptions → option error;
  pgcatalog_GenDefaultCreateServiceRequest :
    string → string → list string → string → string → Resources → PlainOptions →
    CreateServiceRequest.t;
  zkcatalog_GenDefaultCreateServiceRequest :
    string → string → list string → string → string → PlainOptions → Resources →
    CreateServiceRequest.t;
  kafkacatalog_GenDefaultCreateServiceRequest :
    string → string → list string → string → string → KafkaOptions.t → Resources →
    ServiceAttr.t → CreateServiceRequest.t;
  (* escatalog, kibanacatalog, logstashcatalog *)
  escatalog_ValidateRequest : CatalogCreateRequest.t PlainOptions → option error;
  escatalog_GenDefaultCreateServiceRequest :
    string → string → list string → string → string → Resources → PlainOptions →
    CreateServiceRequest.t;
  GetFirstMemberHost : string → string → string;
  kibanacatalog_ValidateRequest : CatalogCreateRequest.t KibanaOptions.t → option error;
  kibanacatalog_GenDefaultCreateServiceRequest :
    string → string → list string → string → string → Resources → KibanaOptions.t →
    string → CreateServiceRequest.t;
  logstashcatalog_ValidateRequest : CatalogCreateRequest.t PlainOptions → option error;
  logstashcatalog_GenDefaultCreateServiceRequest :
    string → string → list string → string → string → Resources → PlainOptions →
    CreateServiceRequest.t;
  (* manageservice: the control-plane create, as a transformer of the DB *)
  ControlPlaneCreate : CreateServiceRequest.t → string → string → DB → res (string * DB);
  (* the container platform's RunTask: the id of the task it starts *)
  PlatformTaskID : RunTaskOptions.t → string
}.

(** Modelled from the spec: the catalog type tags [catalog.CatalogService_*]
    (section 1 names the catalogs); they are declared outside the sources
    at hand, and only their being pairwise distinct matters. *)
Definition CatalogService_MongoDB : string := "mongodb".
Definition CatalogService_PostgreSQL : string := "postgresql".
Definition CatalogService_Cassandra : string := "cassandra".
Definition CatalogService_ZooKeeper : string := "zookeeper".
Definition CatalogService_Kafka : string := "kafka".
Definition CatalogService_Redis : string := "redis".
Definition CatalogService_CouchDB : string := "couchdb".
Definition CatalogService_Consul : string := "consul".
Definition CatalogService_ElasticSearch : string := "elasticsearch".
Definition CatalogService_Kibana : string := "kibana".
Definition CatalogService_Logstash : string := "logstash".

Definition TaskTypeInit : string := "init".

(** Go's [int64] addition. *)
Definition wrap64 (z : Z) : Z := ((z + 2 ^ 63) mod 2 ^ 64 - 2 ^ 63)%Z.
Definition add64 (a b : Z) : Z := wrap64 (a + b).

(** [ManageHTTPServer]: the fields that are plain configuration; the
    collaborators it holds ([dbIns], [containersvcIns], [svc],
    [catalogSvcInit]) live in the [World]. *)
Record ManageHTTPServer := mkServer {
  region : string;
  cluster : string;
  platform : string;
  azs : list string;
  manageurl : string }.

Section Collaborators.
Context `{Catalog}.

(** *** The metadata DB ([db.DB]) *)

(** Modelled from the spec: the driver's [GetService] (sections 4.2 and 6),
    a read keyed by (cluster, serviceName); the driver is an external
    collaborator. *)
Definition GetService (cluster name : string) : M (res Service.t) :=
  extern (DBGetService cluster name)
    (d <- gets db ;;
     match services d !! (cluster, name) with
     | Some svc => ret (Success svc)
     | None => ret (Failure ErrDBRecordNotFound)
     end).

(** Modelled from the spec: the driver's [GetServiceAttr], a read keyed by
    the serviceUUID. *)
Definition GetServiceAttr (uuid : string) : M (res ServiceAttr.t) :=
  extern (DBGetServiceAttr uuid)
    (d <- gets db ;;
     match attrs d !! uuid with
     | Some a => ret (Success a)
     | None => ret (Failure ErrDBRecordNotFound)
     end).

(** Modelled from the spec: the driver's [ListServices], the services of
    a cluster. *)
Definition ListServices (cluster : string) : M (res (list Service.t)) :=
  extern (DBListServices cluster)
    (d <- gets db ;;
     ret (Success (filter (λ svc, Service.ClusterName svc = cluster)
                          (snd <$> map_to_list (services d))))).

(** Modelled from the spec: the driver's [DeleteService]. *)
Definition DeleteService (cluster name : string) : M (res unit) :=
  extern (DBDeleteService cluster name)
    (d <- gets db ;;
     match services d !! (cluster, name) with
     | Some _ =>
         modify (set_db (set_services (delete (cluster, name)))) ;;;
         ret (Success tt)
     | None => ret (Failure ErrDBRecordNotFound)
     end).

(** Modelled from the spec: the driver's [ListServiceMembers], the members
    of a service in a fixed order. *)
Definition listMembers (d : DB) (uuid : string) : list ServiceMember.t :=
  default [] (members d !! uuid).

Definition ListServiceMembers (uuid : string) : M (res (list ServiceMember.t)) :=
  extern (DBListServiceMembers uuid)
    (d <- gets db ;; ret (Success (listMembers d uuid))).

(** The older [server.go] calls the members of a service its volumes. *)
Definition ListVolumes (uuid : string) : M (res (list ServiceMember.t)) :=
  extern (DBListVolumes uuid)
    (d <- gets db ;; ret (Success (listMembers d uuid))).

(** The compare-and-swap on the stored member named like [old]: it must be
    [old] itself. *)
Fixpoint casMember (old new : ServiceMember.t) (l : list ServiceMember.t)
  : option (list ServiceMember.t) :=
  match l with
  | [] => None
  | m :: rest =>
      if bool_decide (ServiceMember.MemberName m = ServiceMember.MemberName old)
      then (if bool_decide (m = old) then Some (new :: rest) else None)
      else (m ::.) <$> casMember old new rest
  end.

(** Modelled from the spec: the driver's [UpdateServiceMember] (section
    4.1): the update fails when the stored member is not the expected
    previous image. *)
Definition UpdateServiceMember (old new : ServiceMember.t) : M (res unit) :=
  extern (DBUpdateServiceMember old new)
    (d <- gets db ;;
     match casMember old new (listMembers d (ServiceMember.ServiceUUID old)) with
     | Some l =>
         modify (set_db (set_members <[ServiceMember.ServiceUUID old := l]>)) ;;;
         ret (Success tt)
     | None => ret (Failure ErrDBConditionalCheckFailed)
     end).

(** Modelled from the spec: the driver's [GetConfigFile] and
    [DeleteConfigFile] (section 4.1), keyed by (serviceUUID, fileID). *)
Definition GetConfigFile (uuid fileID : string) : M (res ConfigFile.t) :=
  extern (DBGetConfigFile uuid fileID)
    (d <- gets db ;;
     match cfgfiles d !! (uuid, fileID) with
     | Some cf => ret (Success cf)
     | None => ret (Failure ErrDBRecordNotFound)
     end).

Definition DeleteConfigFile (uuid fileID : string) : M (res unit) :=
  extern (DBDeleteConfigFile uuid fileID)
    (d <- gets db ;;
     match cfgfiles d !! (uuid, fileID) with
     | Some _ =>
         modify (set_db (set_cfgfiles (delete (uuid, fileID)))) ;;;
         ret (Success tt)
     | None => ret (Failure ErrDBRecordNotFound)
     end).

(** Modelled from the spec: [manage.CreateConfigFile] (section 4.1), which
    is declared outside the sources at hand.  Idempotent on the fileID: a
    stored file with the same id and the same MD5 is returned as it is, a
    different MD5 fails with ConfigMismatch. *)
Definition CreateConfigFile (cfgfile : ConfigFile.t) : M (res ConfigFile.t) :=
  extern (DBCreateConfigFile cfgfile)
    (d <- gets db ;;
     let key := (ConfigFile.ServiceUUID cfgfile, ConfigFile.FileID cfgfile) in
     match cfgfiles d !! key with
     | Some curr =>
         if bool_decide (ConfigFile.FileMD5 curr = ConfigFile.FileMD5 cfgfile)
         then ret (Success curr)
         else ret (Failure ErrConfigMismatch)
     | None =>
         modify (set_db (set_cfgfiles <[key := cfgfile]>)) ;;;
         ret (Success cfgfile)
     end).

(** Modelled from the spec: [db.CreateInitialConfigFile] (section 3:
    fileMD5 = MD5(content)), declared outside the sources at hand. *)
Definition CreateInitialConfigFile (uuid fileID fileName : string) (fileMode : Z)
  (content : string) : ConfigFile.t :=
  ConfigFile.mk uuid fileID (GenMD5 content) fileName fileMode content.

(** Modelled from the spec: [db.UpdateConfigFile] (sections 3 and 4.1): the
    file of the next version keeps the service, name and mode of the old
    one and carries the MD5 of its own content. *)
Definition UpdateConfigFile (c : ConfigFile.t) (newFileID newContent : string)
  : ConfigFile.t :=
  ConfigFile.mk (ConfigFile.ServiceUUID c) newFileID (GenMD5 newContent)
                (ConfigFile.FileName c) (ConfigFile.FileMode c) newContent.

(** Modelled from the spec: [db.CopyMemberConfigs], a copy of the slots
    (section 4.1, step iv). *)
Definition CopyMemberConfigs (c : list MemberConfig.t) : list MemberConfig.t :=
  (λ x, MemberConfig.mk (MemberConfig.FileName x) (MemberConfig.FileID x)
                         (MemberConfig.FileMD5 x)) <$> c.

(** Modelled from the spec: [db.UpdateServiceMemberConfigs], the member
    with new slots and everything else as it was (section 4.1, step v). *)
Definition UpdateServiceMemberConfigs (m : ServiceMember.t)
  (newConfigs : list MemberConfig.t) : ServiceMember.t :=
  ServiceMember.mk (ServiceMember.ServiceUUID m) (ServiceMember.MemberName m)
                   (ServiceMember.StaticIP m) newConfigs.

(** *** The manage service ([manageservice.ManageService]) *)

(** Modelled from the spec: [ManageService.CreateService], the control-plane
    create (section 4.3, step 1); what it stores is the parameter
    [ControlPlaneCreate]. *)
Definition svc_CreateService (req : CreateServiceRequest.t) (domain vpcID : string)
  : M (res string) :=
  extern (SvcCreateService req domain vpcID)
    (d <- gets db ;;
     match ControlPlaneCreate req domain vpcID d with
     | Success (uuid, d') => modify (set_db (fun _ => d')) ;;; ret (Success uuid)
     | Failure e => ret (Failure e)
     end).

Definition setStatus (st : ServiceStatus) (a : ServiceAttr.t) : ServiceAttr.t :=
  ServiceAttr.mk (ServiceAttr.ServiceUUID a) st (ServiceAttr.Replicas a)
                 (ServiceAttr.ClusterName a) (ServiceAttr.ServiceName a)
                 (ServiceAttr.DomainName a).

(** Modelled from the spec: [ManageService.SetServiceInitialized], that is
    ServiceRegistry.SetServiceStatus(serviceUUID, ACTIVE) of section 4.2 on
    the service resolved by name; DELETING is terminal (section 3). *)
Definition svc_SetServiceInitialized (cluster name : string) : M (res unit) :=
  extern (SvcSetServiceInitialized cluster name)
    (d <- gets db ;;
     match services d !! (cluster, name) with
     | None => ret (Failure ErrDBRecordNotFound)
     | Some svc =>
         match attrs d !! Service.ServiceUUID svc with
         | None => ret (Failure ErrDBRecordNotFound)
         | Some a =>
             match ServiceAttr.ServiceStatus a with
             | ServiceStatusDeleting => ret (Failure ErrDBConditionalCheckFailed)
             | _ =>
                 modify (set_db (set_attrs
                   <[Service.ServiceUUID svc := setStatus ServiceStatusActive a]>)) ;;;
                 ret (Success tt)
             end
         end
     end).

(** *** The container platform ([containersvc.ContainerSvc]) *)

(** Modelled from the spec: the container platform (section 6) keeps the
    services created on it; a restart and a task deletion change nothing
    the control plane holds. *)
Definition IsServiceExist (cluster name : string) : M (res bool) :=
  extern (CsIsServiceExist cluster name)
    (c <- gets containers ;;
     ret (Success (bool_decide (is_Some (c !! (cluster, name)))))).

Definition cs_CreateService (opts : CreateServiceOptions.t) : M (res unit) :=
  extern (CsCreateService opts)
    (modify (set_containers
       <[(CommonOptions.Cluster (CreateServiceOptions.Common opts),
          CommonOptions.ServiceName (CreateServiceOptions.Common opts)) := opts]>) ;;;
     ret (Success tt)).

Definition RestartService (cluster name : string) (replicas : Z) : M (res unit) :=
  extern (CsRestartService cluster name replicas) (ret (Success tt)).

Definition GetServiceStatus (cluster name : string) : M (res PlatformStatus.t) :=
  extern (CsGetServiceStatus cluster name)
    (p <- gets platformStatus ;;
     match p !! (cluster, name) with
     | Some st => ret (Success st)
     | None => ret (Failure ErrInternal)
     end).

Definition RunTask (opts : RunTaskOptions.t) : M (res string) :=
  extern (CsRunTask opts)
    (let id := PlatformTaskID opts in
     modify (set_platformTasks <[id := "RUNNING"]>) ;;;
     ret (Success id)).

Definition GetTaskStatus (cluster taskID : string) : M (res TaskStatus) :=
  extern (CsGetTaskStatus cluster taskID)
    (p <- gets platformTasks ;;
     match p !! taskID with
     | Some st => ret (Success st)
     | None => ret (Failure ErrInternal)
     end).

Definition DeleteTask (cluster name taskType : string) : M (res unit) :=
  extern (CsDeleteTask cluster name taskType) (ret (Success tt)).

(** *** The init-task registry ([catalogServiceInit]) *)

(** Modelled from the spec: [hasInitTask] of the InitTaskRunner (section
    4.5), which reports the live task of a service and its status message.
    The registry is process memory: its operations are no outgoing calls. *)
Definition hasInitTask (uuid : string) : M (bool * string) :=
  t <- gets initTasks ;;
  match t !! uuid with
  | Some task => ret (true, serviceTask.statusMessage task)
  | None => ret (false, "")
  end.

(** Modelled from the spec: [addInitTask] (section 4.5), a guarded insert
    keyed by the serviceUUID: with a live task it does nothing.  Running
    the task next to the request is not modelled. *)
Definition addInitTask (task : serviceTask.t) : M unit :=
  modify (set_initTasks (λ t,
    match t !! serviceTask.serviceUUID task with
    | Some _ => t
    | None => <[serviceTask.serviceUUID task := task]> t
    end)).

Definition setStatusMessage (msg : string) (task : serviceTask.t) : serviceTask.t :=
  serviceTask.mk (serviceTask.serviceUUID task) (serviceTask.serviceName task)
                 (serviceTask.serviceType task) (serviceTask.opts task) msg.

(** Modelled from the spec: [UpdateTaskStatusMsg] (section 4.5), which
    publishes a status message on the live task of the service. *)
Definition UpdateTaskStatusMsg (uuid msg : string) : M unit :=
  modify (set_initTasks (alter (setStatusMessage msg) uuid)).

(** *** The response writer *)

Definition respond (outs : list Output) (w : World) : World :=
  set_resp (λ r, r ++ outs) w.
Definition w_WriteHeader (code : Z) : M unit := modify (respond [WriteHeader code]).
Definition w_Write (b : Body) : M unit := modify (respond [Write b]).

End Collaborators.

(** ** The decoded request

    Every handler but [setServiceInitialized] of [server.go] reads its
    request as
    [req := &manage.T{}; err := json.NewDecoder(r.Body).Decode(&req)],
    decoding into the pointer [req] itself: the body null decodes without an
    error and leaves [req] nil, and the first field the handler reads, in
    the cluster and region check, is read through that nil pointer. *)
Inductive decoded (A : Type) : Type :=
| DecodeError            (* err != nil *)
| NilRequest             (* the body null: err == nil, req == nil *)
| Decoded (req : A).     (* err == nil, req points to the decoded struct *)
Arguments DecodeError {A}.
Arguments NilRequest {A}.
Arguments Decoded {A} req.

(** The request types of package [manage] that carry the cluster, the
    region and the service name in a field [Service] hold a pointer, a
    [*manage.ServiceCommonRequest]: [catalogservice.go] passes
    [req.Service] of the check-init request and [crReq.Service] of a
    [CreateServiceRequest] where the parameter has that type.  The
    declarations are outside the sources at hand, and the other request
    types are taken alike.  A body without the field, as the body {},
    leaves [req.Service] nil, and the cluster and region check reads
    [req.Service.Cluster] first.  The request records are the requests
    with [Service] set; their fields [Options] and [Resource] are taken as
    values. *)
Inductive decodedS (A : Type) : Type :=
| DecodeErrorS           (* err != nil *)
| NilRequestS            (* the body null: err == nil, req == nil *)
| NilServiceS            (* err == nil, req.Service == nil *)
| DecodedS (req : A).    (* err == nil, req and req.Service point to structs *)
Arguments DecodeErrorS {A}.
Arguments NilRequestS {A}.
Arguments NilServiceS {A}.
Arguments DecodedS {A} req.

(** [json.Unmarshal(b, req)] of [setServiceInitialized], into the struct
    [req] points to: the body null is no error and leaves the struct as
    allocated, every field the empty string. *)
Definition unmarshalled (d : decoded ServiceCommonRequest.t)
  : option ServiceCommonRequest.t :=
  match d with
  | DecodeError => None
  | NilRequest => Some (ServiceCommonRequest.mk "" "" "")
  | Decoded req => Some req
  end.

(** ** [manage/server/catalogservice.go] *)

Section CatalogService.
Context `{Catalog}.
Variable s : ManageHTTPServer.

Definition BadRequest : string * Z := (StatusText StatusBadRequest, StatusBadRequest).
Definition InternalServerError : string * Z :=
  (StatusText StatusInternalServerError, StatusInternalServerError).

(** [slice[i]] of Go: a panic out of range. *)
Definition index {A} (l : list A) (i : Z) : M A :=
  if bool_decide (0 ≤ i)%Z then
    match l !! Z.to_nat i with
    | Some a => ret a
    | None => raise IndexOutOfRange
    end
  else raise IndexOutOfRange.

(** [p.f] of Go on a pointer that may be nil. *)
Definition deref {A} (p : option A) : M A :=
  match p with
  | Some a => ret a
  | None => raise NilDereference
  end.

(** Modelled from the spec: the set-initialized operation
    [setServiceInitialized(ctx, serviceName, requuid)] this revision of
    [catalogservice.go] calls (section 4.6, step 5); the [server.go] at
    hand has the handler of the same name, which does the same after
    decoding its request. *)
Definition setServiceInitialized (service : string) : M (string * Z) :=
  _ <-! svc_SetServiceInitialized (cluster s) service ;;
  ret ("", StatusOK).

(** Modelled from the spec: [createContainerService] (section 4.3, step
    2), the container-platform create guarded by an existence check, as
    [createService] of [server.go] has it inline. *)
Definition genCreateServiceOptions (req : CreateServiceRequest.t) (serviceUUID : string)
  : CreateServiceOptions.t :=
  let commonOpts :=
    CommonOptions.mk
      (ServiceCommonRequest.Cluster (CreateServiceRequest.Service req))
      (ServiceCommonRequest.ServiceName (CreateServiceRequest.Service req))
      serviceUUID
      (CreateServiceRequest.ContainerImage req)
      (CreateServiceRequest.Resource req) in
  CreateServiceOptions.mk commonOpts (CreateServiceRequest.ContainerPath req)
    (CreateServiceRequest.Port req) (CreateServiceRequest.Replicas req).

Definition createContainerService (req : CreateServiceRequest.t) (serviceUUID : string)
  : M (res unit) :=
  exist <-? IsServiceExist
              (ServiceCommonRequest.Cluster (CreateServiceRequest.Service req))
              (ServiceCommonRequest.ServiceName (CreateServiceRequest.Service req)) ;;
  if negb exist then
    _ <-? cs_CreateService (genCreateServiceOptions req serviceUUID) ;;
    ret (Success tt)
  else ret (Success tt).

(** Modelled from the spec: [createCommonService] (section 4.3), the
    control-plane create followed by the container-platform create. *)
Definition createCommonService (req : CreateServiceRequest.t) : M (res string) :=
  let domain := GenDefaultDomainName (cluster s) in
  let vpcID := GetLocalVpcID in
  serviceUUID <-? svc_CreateService req domain vpcID ;;
  _ <-? createContainerService req serviceUUID ;;
  ret (Success serviceUUID).

(** *** updateMemberConfig *)

Definition setFile (fileID fileMD5 : string) (c : MemberConfig.t) : MemberConfig.t :=
  MemberConfig.mk (MemberConfig.FileName c) fileID fileMD5.

Definition updateMemberConfig (member : ServiceMember.t) (cfgfile : ConfigFile.t)
  (cfgIndex : Z) (newContent : string) : M (res unit) :=
  (* create a new config file *)
  match GetConfigFileVersion (ConfigFile.FileID cfgfile) with
  | Failure e => ret (Failure e)
  | Success version =>
      let newFileID :=
        GenMemberConfigFileID (ServiceMember.MemberName member)
                              (ConfigFile.FileName cfgfile) (add64 version 1) in
      let newcfgfile := UpdateConfigFile cfgfile newFileID newContent in
      newcfgfile <-? CreateConfigFile newcfgfile ;;
      (* update serviceMember to point to the new config file *)
      let newConfigs := CopyMemberConfigs (ServiceMember.Configs member) in
      c <- index newConfigs cfgIndex ;;
      let newConfigs :=
        <[Z.to_nat cfgIndex :=
            setFile (ConfigFile.FileID newcfgfile) (ConfigFile.FileMD5 newcfgfile) c]>
          newConfigs in
      let newMember := UpdateServiceMemberConfigs member newConfigs in
      _ <-? UpdateServiceMember member newMember ;;
      (* delete the old config file; an error only leaves a garbage *)
      _ <- DeleteConfigFile (ConfigFile.ServiceUUID cfgfile) (ConfigFile.FileID cfgfile) ;;
      ret (Success tt)
  end.

(** *** MongoDB *)

Definition enableMongoDBAuth (cfg : MemberConfig.t) (cfgIndex : Z)
  (member : ServiceMember.t) : M (res unit) :=
  (* fetch the config file *)
  cfgfile <-? GetConfigFile (ServiceMember.ServiceUUID member) (MemberConfig.FileID cfg) ;;
  (* if auth is enabled, return *)
  if IsAuthEnabled (ConfigFile.Content cfgfile) then ret (Success tt)
  else
    (* auth is not enabled, enable it *)
    let newContent := EnableMongoDBAuth (ConfigFile.Content cfgfile) in
    updateMemberConfig member cfgfile cfgIndex newContent.

(** [for i, cfg := range member.Configs]: the first mongod.conf slot is
    updated, then the loop breaks. *)
Fixpoint mongoConfigsLoop (member : ServiceMember.t) (i : nat)
  (cfgs : list MemberConfig.t) : M (res unit) :=
  match cfgs with
  | [] => ret (Success tt)
  | cfg :: rest =>
      if negb (IsMongoDBConfFile (MemberConfig.FileName cfg))
      then mongoConfigsLoop member (S i) rest
      else enableMongoDBAuth cfg (Z.of_nat i) member
  end.

(** [for _, member := range members] *)
Fixpoint mongoMembersLoop (members : list ServiceMember.t) : M (res unit) :=
  match members with
  | [] => ret (Success tt)
  | member :: rest =>
      _ <-? mongoConfigsLoop member 0 (ServiceMember.Configs member) ;;
      mongoMembersLoop rest
  end.

Definition setMongoDBInit (req : CatalogSetServiceInitRequest.t) : M (string * Z) :=
  (* get service uuid *)
  service <-! GetService (cluster s) (CatalogSetServiceInitRequest.ServiceName req) ;;
  (* get service attr *)
  attr <-! GetServiceAttr (Service.ServiceUUID service) ;;
  (* list all serviceMembers *)
  members <-! ListServiceMembers (Service.ServiceUUID service) ;;
  (* update the init task status message *)
  UpdateTaskStatusMsg (Service.ServiceUUID service) "enable auth for MongoDB" ;;;
  (* update the replica (serviceMember) mongod.conf file *)
  _ <-! mongoMembersLoop members ;;
  (* the config files of all replicas are updated, restart all containers *)
  UpdateTaskStatusMsg (Service.ServiceUUID service) "restarting all MongoDB containers" ;;;
  _ <-! RestartService (cluster s) (CatalogSetServiceInitRequest.ServiceName req)
                       (ServiceAttr.Replicas attr) ;;
  (* set service initialized *)
  setServiceInitialized (CatalogSetServiceInitRequest.ServiceName req).

(** *** Redis *)

(** [for _, c := range member.Configs]: the first cluster-info slot decides. *)
Fixpoint findClusterInfo (cfgs : list MemberConfig.t) : option MemberConfig.t :=
  match cfgs with
  | [] => None
  | c :: rest =>
      if IsClusterInfoFile (MemberConfig.FileName c) then Some c
      else findClusterInfo rest
  end.

Definition createRedisClusterFile (member : ServiceMember.t) (cfg : ReplicaConfigFile.t)
  : M (res ServiceMember.t) :=
  (* check if member has the cluster info file *)
  match findClusterInfo (ServiceMember.Configs member) with
  | Some c =>
      let chksum := GenMD5 (ReplicaConfigFile.Content cfg) in
      if bool_decide (MemberConfig.FileMD5 c ≠ chksum)
      then ret (Failure ErrConfigMismatch)
      else ret (Success member)
  | None =>
      (* the cluster info file not exist, create it *)
      let version := 0%Z in
      let fileID :=
        GenMemberConfigFileID (ServiceMember.MemberName member)
                              (ReplicaConfigFile.FileName cfg) version in
      let initcfgfile :=
        CreateInitialConfigFile (ServiceMember.ServiceUUID member) fileID
          (ReplicaConfigFile.FileName cfg) (ReplicaConfigFile.FileMode cfg)
          (ReplicaConfigFile.Content cfg) in
      cfgfile <-? CreateConfigFile initcfgfile ;;
      (* add the new config file to ServiceMember *)
      let config :=
        MemberConfig.mk (ReplicaConfigFile.FileName cfg) fileID
                        (ConfigFile.FileMD5 cfgfile) in
      let newConfigs := CopyMemberConfigs (ServiceMember.Configs member) in
      let newConfigs := newConfigs ++ [config] in
      let newMember := UpdateServiceMemberConfigs member newConfigs in
      _ <-? UpdateServiceMember member newMember ;;
      ret (Success newMember)
  end.

Definition updateRedisConfigs (cfg : MemberConfig.t) (cfgIndex : Z)
  (member : ServiceMember.t) : M (res unit) :=
  (* fetch the config file *)
  cfgfile <-? GetConfigFile (ServiceMember.ServiceUUID member) (MemberConfig.FileID cfg) ;;
  let enableAuth := NeedToEnableAuth (ConfigFile.Content cfgfile) in
  let setIP := NeedToSetClusterAnnounceIP (ConfigFile.Content cfgfile) in
  if negb enableAuth && negb setIP then ret (Success tt)
  else
    let newContent := ConfigFile.Content cfgfile in
    let newContent := if enableAuth then EnableRedisAuth newContent else newContent in
    let newContent :=
      if setIP then SetClusterAnnounceIP newContent (ServiceMember.StaticIP member)
      else newContent in
    updateMemberConfig member cfgfile cfgIndex newContent.

Fixpoint redisConfigsLoop (newMember : ServiceMember.t) (i : nat)
  (cfgs : list MemberConfig.t) : M (res unit) :=
  match cfgs with
  | [] => ret (Success tt)
  | cfg :: rest =>
      if negb (IsRedisConfFile (MemberConfig.FileName cfg))
      then redisConfigsLoop newMember (S i) rest
      else updateRedisConfigs cfg (Z.of_nat i) newMember
  end.

Fixpoint redisMembersLoop (clusterInfoCfg : ReplicaConfigFile.t)
  (members : list ServiceMember.t) : M (res unit) :=
  match members with
  | [] => ret (Success tt)
  | member :: rest =>
      (* create the cluster.info file for every member *)
      newMember <-? createRedisClusterFile member clusterInfoCfg ;;
      (* update the redis.conf file *)
      _ <-? redisConfigsLoop newMember 0 (ServiceMember.Configs newMember) ;;
      redisMembersLoop clusterInfoCfg rest
  end.

Definition setRedisInit (body : decoded CatalogSetRedisInitRequest.t) : M (string * Z) :=
  match body with
  | DecodeError => ret BadRequest
  | NilRequest => raise NilDereference
  | Decoded req =>
      if bool_decide (CatalogSetRedisInitRequest.Cluster req ≠ cluster s)
         || bool_decide (CatalogSetRedisInitRequest.Region req ≠ region s)
      then ret BadRequest
      else
        (* the log line reads req.NodeIds[0] *)
        _ <- index (CatalogSetRedisInitRequest.NodeIds req) 0 ;;
        (* get service uuid *)
        service <-! GetService (cluster s) (CatalogSetRedisInitRequest.ServiceName req) ;;
        (* get service attr *)
        attr <-! GetServiceAttr (Service.ServiceUUID service) ;;
        (* list all serviceMembers *)
        members <-! ListServiceMembers (Service.ServiceUUID service) ;;
        (* update the init task status message *)
        UpdateTaskStatusMsg (Service.ServiceUUID service)
          "create the member to Redis nodeID mapping for the Redis cluster" ;;;
        (* generate cluster info config file *)
        let clusterInfoCfg := CreateClusterInfoFile (CatalogSetRedisInitRequest.NodeIds req) in
        _ <-! redisMembersLoop clusterInfoCfg members ;;
        (* the config files of all replicas are updated, restart all containers *)
        UpdateTaskStatusMsg (Service.ServiceUUID service) "restarting all containers" ;;;
        _ <-! RestartService (cluster s) (CatalogSetRedisInitRequest.ServiceName req)
                             (ServiceAttr.Replicas attr) ;;
        (* set service initialized *)
        setServiceInitialized (CatalogSetRedisInitRequest.ServiceName req)
  end.

(** *** Consul *)

(** The loop of [updateConsulMemberConfig]: the first basic-config slot and
    its index, or the initial [nil] and [-1]. *)
Fixpoint findBasicConfig (i : nat) (cfgs : list MemberConfig.t)
  : option MemberConfig.t * Z :=
  match cfgs with
  | [] => (None, (-1)%Z)
  | c :: rest =>
      if IsBasicConfigFile (MemberConfig.FileName c) then (Some c, Z.of_nat i)
      else findBasicConfig (S i) rest
  end.

Definition updateConsulMemberConfig (member : ServiceMember.t)
  (memberips : gmap string string) : M (res unit) :=
  let '(cfg, cfgIndex) := findBasicConfig 0 (ServiceMember.Configs member) in
  (* fetch the config file *)
  c <- deref cfg ;;
  cfgfile <-? GetConfigFile (ServiceMember.ServiceUUID member) (MemberConfig.FileID c) ;;
  (* replace the original member dns name by member ip *)
  let newContent := ReplaceMemberName (ConfigFile.Content cfgfile) memberips in
  updateMemberConfig member cfgfile cfgIndex newContent.

Fixpoint consulMembersLoop (memberips : gmap string string)
  (members : list ServiceMember.t) : M (res unit) :=
  match members with
  | [] => ret (Success tt)
  | m :: rest =>
      _ <-? updateConsulMemberConfig m memberips ;;
      consulMembersLoop memberips rest
  end.

(** The first loop of [updateConsulConfigs]: the map from member DNS name
    to static IP (a later member of the same name overwrites). *)
Definition consulMemberIPs (domain : string) (members : list ServiceMember.t)
  : gmap string string :=
  foldl (λ ips m, <[GenDNSName (ServiceMember.MemberName m) domain :=
                      ServiceMember.StaticIP m]> ips) ∅ members.

Definition updateConsulConfigs (serviceUUID domain : string) : M (res (list string)) :=
  members <-? ListServiceMembers serviceUUID ;;
  let serverips := ServiceMember.StaticIP <$> members in
  let memberips := consulMemberIPs domain members in
  _ <-? consulMembersLoop memberips members ;;
  ret (Success serverips).

Definition createConsulService (body : decodedS (CatalogCreateRequest.t PlainOptions))
  : M (string * Z) :=
  match body with
  | DecodeErrorS => ret BadRequest
  | NilRequestS | NilServiceS => raise NilDereference
  | DecodedS req =>
      let svc := CatalogCreateRequest.Service req in
      if bool_decide (ServiceCommonRequest.Cluster svc ≠ cluster s)
         || bool_decide (ServiceCommonRequest.Region svc ≠ region s)
      then ret BadRequest
      else
        match consulcatalog_ValidateRequest req with
        | Some err => ret (Error err, StatusBadRequest)
        | None =>
            let crReq :=
              consulcatalog_GenDefaultCreateServiceRequest (platform s) (region s)
                (azs s) (cluster s) (ServiceCommonRequest.ServiceName svc)
                (CatalogCreateRequest.Resource req) (CatalogCreateRequest.Options req) in
            (* create the service in the control plane *)
            let domain := GenDefaultDomainName (cluster s) in
            let vpcID := GetLocalVpcID in
            serviceUUID <-! svc_CreateService crReq domain vpcID ;;
            serverips <-! updateConsulConfigs serviceUUID domain ;;
            _ <-! createContainerService crReq serviceUUID ;;
            (* consul does not require additional init work *)
            r <- setServiceInitialized (ServiceCommonRequest.ServiceName svc) ;;
            if negb (bool_decide (String.length (fst r) = 0)) then ret r
            else
              w_WriteHeader StatusOK ;;;
              w_Write (CatalogCreateConsulResponse serverips) ;;;
              ret ("", StatusOK)
        end
  end.

End CatalogService.

(** A handler either returns early or falls through with a value. *)
Inductive flow (A : Type) :=
| Return (r : string * Z)
| Next (a : A).
Arguments Return {A} r.
Arguments Next {A} a.

Section CatalogHandlers.
Context `{Catalog}.
Variable s : ManageHTTPServer.

(** *** The init tasks *)

Definition addMongoDBInitTask (req : ServiceCommonRequest.t) (serviceUUID : string)
  (replicas : Z) (admin adminPasswd : string) : M unit :=
  let logCfg := CreateLogConfigForStream (cluster s) (ServiceCommonRequest.ServiceName req)
                  serviceUUID TaskTypeInit in
  let taskOpts := mongodbcatalog_GenDefaultInitTaskRequest req logCfg serviceUUID replicas
                    (manageurl s) admin adminPasswd in
  let task := serviceTask.mk serviceUUID (ServiceCommonRequest.ServiceName req)
                CatalogService_MongoDB taskOpts "" in
  addInitTask task.

Definition addRedisInitTask (req : ServiceCommonRequest.t) (serviceUUID : string)
  (shards replicasPerShard : Z) : M (res unit) :=
  let logCfg := CreateLogConfigForStream (cluster s) (ServiceCommonRequest.ServiceName req)
                  serviceUUID TaskTypeInit in
  match rediscatalog_GenDefaultInitTaskRequest req logCfg shards replicasPerShard
          serviceUUID (manageurl s) with
  | Failure err => ret (Failure err)
  | Success taskOpts =>
      let task := serviceTask.mk serviceUUID (ServiceCommonRequest.ServiceName req)
                    CatalogService_Redis taskOpts "" in
      addInitTask task ;;;
      ret (Success tt)
  end.

Definition addCouchDBInitTask (req : ServiceCommonRequest.t) (serviceUUID : string)
  (replicas : Z) (admin adminPass : string) : M unit :=
  let logCfg := CreateLogConfigForStream (cluster s) (ServiceCommonRequest.ServiceName req)
                  serviceUUID TaskTypeInit in
  let taskOpts := couchdbcatalog_GenDefaultInitTaskRequest req logCfg (azs s) serviceUUID
                    replicas (manageurl s) admin adminPass in
  let task := serviceTask.mk serviceUUID (ServiceCommonRequest.ServiceName req)
                CatalogService_CouchDB taskOpts "" in
  addInitTask task.

Definition addCasInitTask (req : ServiceCommonRequest.t) (serviceUUID : string) : M unit :=
  let logCfg := CreateLogConfigForStream (cluster s) (ServiceCommonRequest.ServiceName req)
                  serviceUUID TaskTypeInit in
  let taskOpts := cascatalog_GenDefaultInitTaskRequest req logCfg serviceUUID (manageurl s) in
  let task := serviceTask.mk serviceUUID (ServiceCommonRequest.ServiceName req)
                CatalogService_Cassandra taskOpts "" in
  addInitTask task.

(** *** CheckServiceInit *)

(** [case common.ServiceStatusInitializing]: trigger the init task again.
    The value is what [initialized] is afterwards. *)
Definition resumeInit (req : CatalogCheckServiceInitRequest.t) (attr : ServiceAttr.t)
  : M (flow bool) :=
  let ty := CatalogCheckServiceInitRequest.ServiceType req in
  let svc := CatalogCheckServiceInitRequest.Service req in
  let setInitialized :=
    r <- setServiceInitialized s (ServiceCommonRequest.ServiceName svc) ;;
    if bool_decide (snd r ≠ StatusOK) then ret (Return r) else ret (Next true) in
  if bool_decide (ty = CatalogService_MongoDB) then
    addMongoDBInitTask svc (ServiceAttr.ServiceUUID attr) (ServiceAttr.Replicas attr)
      (CatalogCheckServiceInitRequest.Admin req)
      (CatalogCheckServiceInitRequest.AdminPasswd req) ;;;
    ret (Next false)
  else if bool_decide (ty = CatalogService_PostgreSQL) then
    (* PG does not require additional init work. set PG initialized *)
    setInitialized
  else if bool_decide (ty = CatalogService_Cassandra) then
    addCasInitTask svc (ServiceAttr.ServiceUUID attr) ;;;
    ret (Next false)
  else if bool_decide (ty = CatalogService_ZooKeeper) then
    setInitialized
  else if bool_decide (ty = CatalogService_Kafka) then
    setInitialized
  else if bool_decide (ty = CatalogService_Redis) then
    r <- addRedisInitTask svc (ServiceAttr.ServiceUUID attr)
           (CatalogCheckServiceInitRequest.Shards req)
           (CatalogCheckServiceInitRequest.ReplicasPerShard req) ;;
    match r with
    | Failure err => ret (Return (ConvertToHTTPError err))
    | Success _ => ret (Next false)
    end
  else if bool_decide (ty = CatalogService_CouchDB) then
    addCouchDBInitTask svc (ServiceAttr.ServiceUUID attr) (ServiceAttr.Replicas attr)
      (CatalogCheckServiceInitRequest.Admin req)
      (CatalogCheckServiceInitRequest.AdminPasswd req) ;;;
    ret (Next false)
  else ret (Return (BadRequest)).

(** The [else] branch of [getCatalogServiceOp]: no init task is running. *)
Definition checkInitialized (req : CatalogCheckServiceInitRequest.t)
  (service : Service.t) : M (flow bool) :=
  r <- GetServiceAttr (Service.ServiceUUID service) ;;
  match r with
  | Failure err => ret (Return (ConvertToHTTPError err))
  | Success attr =>
      match ServiceAttr.ServiceStatus attr with
      | ServiceStatusActive => ret (Next true)
      | ServiceStatusInitializing => resumeInit req attr
      | _ => ret (Return BadRequest)
      end
  end.

Definition getCatalogServiceOp (body : decodedS CatalogCheckServiceInitRequest.t)
  : M (string * Z) :=
  (* parse the request *)
  match body with
  | DecodeErrorS => ret BadRequest
  | NilRequestS | NilServiceS => raise NilDereference
  | DecodedS req =>
      let svc := CatalogCheckServiceInitRequest.Service req in
      if bool_decide (ServiceCommonRequest.Cluster svc ≠ cluster s)
         || bool_decide (ServiceCommonRequest.Region svc ≠ region s)
      then ret BadRequest
      else
        (* get service uuid *)
        service <-! GetService (cluster s) (ServiceCommonRequest.ServiceName svc) ;;
        (* check if the init task is running *)
        ht <- hasInitTask (Service.ServiceUUID service) ;;
        let '(hasTask, statusMsg) := ht in
        f <- (if hasTask then ret (Next false) else checkInitialized req service) ;;
        match f with
        | Return r => ret r
        | Next initialized =>
            w_WriteHeader StatusOK ;;;
            w_Write (CatalogCheckServiceInitResponse initialized statusMsg) ;;;
            ret ("", StatusOK)
        end
  end.

(** *** SetServiceInit *)

Definition catalogSetServiceInit (body : decoded CatalogSetServiceInitRequest.t)
  : M (string * Z) :=
  match body with
  | DecodeError => ret BadRequest
  | NilRequest => raise NilDereference
  | Decoded req =>
      if bool_decide (CatalogSetServiceInitRequest.Cluster req ≠ cluster s)
         || bool_decide (CatalogSetServiceInitRequest.Region req ≠ region s)
      then ret BadRequest
      else
        let ty := CatalogSetServiceInitRequest.ServiceType req in
        if bool_decide (ty = CatalogService_MongoDB) then setMongoDBInit s req
        else if bool_decide (ty = CatalogService_Cassandra) then
          setServiceInitialized s (CatalogSetServiceInitRequest.ServiceName req)
        else if bool_decide (ty = CatalogService_CouchDB) then
          setServiceInitialized s (CatalogSetServiceInitRequest.ServiceName req)
        else ret BadRequest
  end.

(** *** The create operations *)

(** The cluster/region check every create handler opens with. *)
Definition foreign (svc : ServiceCommonRequest.t) : bool :=
  bool_decide (ServiceCommonRequest.Cluster svc ≠ cluster s)
  || bool_decide (ServiceCommonRequest.Region svc ≠ region s).

Definition createMongoDBService (body : decodedS (CatalogCreateRequest.t AdminOptions.t))
  : M (string * Z) :=
  match body with
  | DecodeErrorS => ret BadRequest
  | NilRequestS | NilServiceS => raise NilDereference
  | DecodedS req =>
      let svc := CatalogCreateRequest.Service req in
      let opts := CatalogCreateRequest.Options req in
      if foreign svc then ret BadRequest
      else
        match mongodbcatalog_ValidateRequest req with
        | Some err => ret (Error err, StatusBadRequest)
        | None =>
            match mongodbcatalog_GenDefaultCreateServiceRequest (platform s) (region s)
                    (azs s) (cluster s) (ServiceCommonRequest.ServiceName svc) opts
                    (CatalogCreateRequest.Resource req) with
            | Failure err => ret (ConvertToHTTPError err)
            | Success crReq =>
                serviceUUID <-! createCommonService s crReq ;;
                (* run the init task in the background *)
                addMongoDBInitTask (CreateServiceRequest.Service crReq) serviceUUID
                  (AdminOptions.Replicas opts) (AdminOptions.Admin opts)
                  (AdminOptions.AdminPasswd opts) ;;;
                ret ("", StatusOK)
            end
        end
  end.

(** PostgreSQL, Elasticsearch and Logstash: validate, create, set initialized. *)
Definition createValidated
  (validate : CatalogCreateRequest.t PlainOptions → option error)
  (gen : CatalogCreateRequest.t PlainOptions → CreateServiceRequest.t)
  (body : decodedS (CatalogCreateRequest.t PlainOptions)) : M (string * Z) :=
  match body with
  | DecodeErrorS => ret BadRequest
  | NilRequestS | NilServiceS => raise NilDereference
  | DecodedS req =>
      let svc := CatalogCreateRequest.Service req in
      if foreign svc then ret BadRequest
      else
        match validate req with
        | Some err => ret (Error err, StatusBadRequest)
        | None =>
            _ <-! createCommonService s (gen req) ;;
            setServiceInitialized s (ServiceCommonRequest.ServiceName svc)
        end
  end.

Definition createPGService :=
  createValidated pgcatalog_ValidateRequest
    (λ req, pgcatalog_GenDefaultCreateServiceRequest (platform s) (region s) (azs s)
              (cluster s)
              (ServiceCommonRequest.ServiceName (CatalogCreateRequest.Service req))
              (CatalogCreateRequest.Resource req) (CatalogCreateRequest.Options req)).

Definition createElasticSearchService :=
  createValidated escatalog_ValidateRequest
    (λ req, escatalog_GenDefaultCreateServiceRequest (platform s) (region s) (azs s)
              (cluster s)
              (ServiceCommonRequest.ServiceName (CatalogCreateRequest.Service req))
              (CatalogCreateRequest.Resource req) (CatalogCreateRequest.Options req)).

Definition createLogstashService :=
  createValidated logstashcatalog_ValidateRequest
    (λ req, logstashcatalog_GenDefaultCreateServiceRequest (platform s) (region s) (azs s)
              (cluster s)
              (ServiceCommonRequest.ServiceName (CatalogCreateRequest.Service req))
              (CatalogCreateRequest.Resource req) (CatalogCreateRequest.Options req)).

Definition createZkService (body : decodedS (CatalogCreateRequest.t PlainOptions))
  : M (string * Z) :=
  match body with
  | DecodeErrorS => ret BadRequest
  | NilRequestS | NilServiceS => raise NilDereference
  | DecodedS req =>
      let svc := CatalogCreateRequest.Service req in
      if foreign svc then ret BadRequest
      else
        let crReq :=
          zkcatalog_GenDefaultCreateServiceRequest (platform s) (region s) (azs s)
            (cluster s) (ServiceCommonRequest.ServiceName svc)
            (CatalogCreateRequest.Options req) (CatalogCreateRequest.Resource req) in
        _ <-! createCommonService s crReq ;;
        (* zookeeper does not require additional init work *)
        setServiceInitialized s (ServiceCommonRequest.ServiceName svc)
  end.

Definition createKafkaService (body : decodedS (CatalogCreateRequest.t KafkaOptions.t))
  : M (string * Z) :=
  match body with
  | DecodeErrorS => ret BadRequest
  | NilRequestS | NilServiceS => raise NilDereference
  | DecodedS req =>
      let svc := CatalogCreateRequest.Service req in
      let opts := CatalogCreateRequest.Options req in
      if foreign svc then ret BadRequest
      else
        (* get the zk service *)
        zksvc <-! GetService (cluster s) (KafkaOptions.ZkServiceName opts) ;;
        zkattr <-! GetServiceAttr (Service.ServiceUUID zksvc) ;;
        let crReq :=
          kafkacatalog_GenDefaultCreateServiceRequest (platform s) (region s) (azs s)
            (cluster s) (ServiceCommonRequest.ServiceName svc) opts
            (CatalogCreateRequest.Resource req) zkattr in
        _ <-! createCommonService s crReq ;;
        (* kafka does not require additional init work *)
        setServiceInitialized s (ServiceCommonRequest.ServiceName svc)
  end.

Definition createRedisService (body : decodedS (CatalogCreateRequest.t RedisOptions.t))
  : M (string * Z) :=
  match body with
  | DecodeErrorS => ret BadRequest
  | NilRequestS | NilServiceS => raise NilDereference
  | DecodedS req =>
      let svc := CatalogCreateRequest.Service req in
      let opts := CatalogCreateRequest.Options req in
      if foreign svc then ret BadRequest
      else
        match rediscatalog_ValidateRequest req with
        | Some err => ret (Error err, StatusBadRequest)
        | None =>
            let crReq :=
              rediscatalog_GenDefaultCreateServiceRequest (platform s) (region s) (azs s)
                (cluster s) (ServiceCommonRequest.ServiceName svc)
                (CatalogCreateRequest.Resource req) opts in
            serviceUUID <-! createCommonService s crReq ;;
            if IsClusterMode (RedisOptions.Shards opts) then
              (* for Redis cluster mode, run the init task in the background *)
              _ <-! addRedisInitTask (CreateServiceRequest.Service crReq) serviceUUID
                      (RedisOptions.Shards opts) (RedisOptions.ReplicasPerShard opts) ;;
              ret ("", StatusOK)
            else
              (* single instance or master-slave mode: set service initialized *)
              setServiceInitialized s (ServiceCommonRequest.ServiceName svc)
        end
  end.

Definition createCouchDBService (body : decodedS (CatalogCreateRequest.t AdminOptions.t))
  : M (string * Z) :=
  match body with
  | DecodeErrorS => ret BadRequest
  | NilRequestS | NilServiceS => raise NilDereference
  | DecodedS req =>
      let svc := CatalogCreateRequest.Service req in
      let opts := CatalogCreateRequest.Options req in
      if foreign svc then ret BadRequest
      else
        match couchdbcatalog_ValidateRequest req with
        | Some err => ret (Error err, StatusBadRequest)
        | None =>
            let crReq :=
              couchdbcatalog_GenDefaultCreateServiceRequest (platform s) (region s) (azs s)
                (cluster s) (ServiceCommonRequest.ServiceName svc)
                (CatalogCreateRequest.Resource req) opts in
            serviceUUID <-! createCommonService s crReq ;;
            (* add the init task *)
            addCouchDBInitTask (CreateServiceRequest.Service crReq) serviceUUID
              (AdminOptions.Replicas opts) (AdminOptions.Admin opts)
              (AdminOptions.AdminPasswd opts) ;;;
            ret ("", StatusOK)
        end
  end.

Definition createKibanaService (body : decodedS (CatalogCreateRequest.t KibanaOptions.t))
  : M (string * Z) :=
  match body with
  | DecodeErrorS => ret BadRequest
  | NilRequestS | NilServiceS => raise NilDereference
  | DecodedS req =>
      let svc := CatalogCreateRequest.Service req in
      let opts := CatalogCreateRequest.Options req in
      if foreign svc then ret BadRequest
      else
        match kibanacatalog_ValidateRequest req with
        | Some err => ret (Error err, StatusBadRequest)
        | None =>
            (* get the elasticsearch service uuid and attr *)
            service <-! GetService (cluster s) (KibanaOptions.ESServiceName opts) ;;
            attr <-! GetServiceAttr (Service.ServiceUUID service) ;;
            let esNode := GetFirstMemberHost (ServiceAttr.DomainName attr)
                            (ServiceAttr.ServiceName attr) in
            let crReq :=
              kibanacatalog_GenDefaultCreateServiceRequest (platform s) (region s) (azs s)
                (cluster s) (ServiceCommonRequest.ServiceName svc)
                (CatalogCreateRequest.Resource req) opts esNode in
            _ <-! createCommonService s crReq ;;
            (* kibana does not require additional init work *)
            setServiceInitialized s (ServiceCommonRequest.ServiceName svc)
        end
  end.

Definition createCasService (body : decodedS (CatalogCreateRequest.t PlainOptions))
  : M (string * Z) :=
  match body with
  | DecodeErrorS => ret BadRequest
  | NilRequestS | NilServiceS => raise NilDereference
  | DecodedS req =>
      let svc := CatalogCreateRequest.Service req in
      if foreign svc then ret BadRequest
      else
        match cascatalog_ValidateRequest req with
        | Some err => ret (Error err, StatusBadRequest)
        | None =>
            let crReq :=
              cascatalog_GenDefaultCreateServiceRequest (platform s) (region s) (azs s)
                (cluster s) (ServiceCommonRequest.ServiceName svc)
                (CatalogCreateRequest.Options req) (CatalogCreateRequest.Resource req) in
            serviceUUID <-! createCommonService s crReq ;;
            (* run the init task in the background *)
            addCasInitTask (CreateServiceRequest.Service crReq) serviceUUID ;;;
            ret ("", StatusOK)
        end
  end.

End CatalogHandlers.

(** ** [manage/server/server.go] *)

Module Server.
Section Handlers.
Context `{Catalog}.
Variable s : ManageHTTPServer.

(** PUT /?SetServiceInitialized.  A body that cannot be read and one that
    does not decode are both [None].  The body is read whole and
    unmarshalled into the struct [req] points to, so [req] is never nil
    here. *)
Definition setServiceInitialized (body : option ServiceCommonRequest.t) : M (string * Z) :=
  match body with
  | None => ret BadRequest
  | Some req =>
      if bool_decide (ServiceCommonRequest.Cluster req ≠ cluster s)
         || bool_decide (ServiceCommonRequest.Region req ≠ region s)
      then ret BadRequest
      else
        _ <-! svc_SetServiceInitialized (cluster s) (ServiceCommonRequest.ServiceName req) ;;
        w_WriteHeader StatusOK ;;;
        ret ("", StatusOK)
  end.

(** PUT /servicename *)
Definition createService (body : decodedS CreateServiceRequest.t) (servicename : string)
  : M (string * Z) :=
  match body with
  | DecodeErrorS => ret BadRequest
  | NilRequestS | NilServiceS => raise NilDereference
  | DecodedS req =>
      let svc := CreateServiceRequest.Service req in
      if bool_decide (ServiceCommonRequest.Cluster svc ≠ cluster s)
         || bool_decide (ServiceCommonRequest.Region svc ≠ region s)
         || bool_decide (ServiceCommonRequest.ServiceName svc ≠ servicename)
      then ret BadRequest
      else
        (* create the service in the control plane *)
        let domain := GenDefaultDomainName (cluster s) in
        let vpcID := GetLocalVpcID in
        serviceUUID <-! svc_CreateService req domain vpcID ;;
        (* create the service in the container platform *)
        exist <-! IsServiceExist (ServiceCommonRequest.Cluster svc)
                                 (ServiceCommonRequest.ServiceName svc) ;;
        if negb exist then
          let opts := genCreateServiceOptions req serviceUUID in
          _ <-! cs_CreateService opts ;;
          ret ("", StatusOK)
        else ret ("", StatusOK)
  end.

(** DELETE /servicename *)
Definition deleteService (body : decoded ServiceCommonRequest.t) (servicename : string)
  : M (string * Z) :=
  match body with
  | DecodeError => ret BadRequest
  | NilRequest => raise NilDereference
  | Decoded req =>
      if bool_decide (ServiceCommonRequest.Cluster req ≠ cluster s)
         || bool_decide (ServiceCommonRequest.Region req ≠ region s)
         || bool_decide (ServiceCommonRequest.ServiceName req ≠ servicename)
      then ret BadRequest
      else
        _ <-! DeleteService (cluster s) servicename ;;
        w_WriteHeader StatusOK ;;;
        ret ("", StatusOK)
  end.

(** The loop of [listServices]: the attributes of the services whose name
    has the prefix. *)
Fixpoint listAttrsLoop (prefix : string) (svcs : list Service.t)
  (serviceAttrs : list ServiceAttr.t) : M (res (list ServiceAttr.t)) :=
  match svcs with
  | [] => ret (Success serviceAttrs)
  | service :: rest =>
      if bool_decide (String.length prefix = 0)
         || String.prefix prefix (Service.ServiceName service)
      then
        attr <-? GetServiceAttr (Service.ServiceUUID service) ;;
        listAttrsLoop prefix rest (serviceAttrs ++ [attr])
      else listAttrsLoop prefix rest serviceAttrs
  end.

(** GET /?ListService *)
Definition listServices (body : decoded ListServiceRequest.t) : M (string * Z) :=
  match body with
  | DecodeError => ret BadRequest
  | NilRequest => raise NilDereference
  | Decoded req =>
      if bool_decide (ListServiceRequest.Cluster req ≠ cluster s)
         || bool_decide (ListServiceRequest.Region req ≠ region s)
      then ret BadRequest
      else
        svcs <-! ListServices (cluster s) ;;
        serviceAttrs <-! listAttrsLoop (ListServiceRequest.Prefix req) svcs [] ;;
        w_WriteHeader StatusOK ;;;
        w_Write (ListServiceResponse serviceAttrs) ;;;
        ret ("", StatusOK)
  end.

(** GET /?ListVolume *)
Definition listVolumes (body : decodedS ListVolumeRequest.t) : M (string * Z) :=
  match body with
  | DecodeErrorS => ret BadRequest
  | NilRequestS | NilServiceS => raise NilDereference
  | DecodedS req =>
      let svc := ListVolumeRequest.Service req in
      if bool_decide (ServiceCommonRequest.Cluster svc ≠ cluster s)
         || bool_decide (ServiceCommonRequest.Region svc ≠ region s)
      then ret BadRequest
      else
        service <-! GetService (cluster s) (ServiceCommonRequest.ServiceName svc) ;;
        vols <-! ListVolumes (Service.ServiceUUID service) ;;
        w_WriteHeader StatusOK ;;;
        w_Write (ListVolumeResponse vols) ;;;
        ret ("", StatusOK)
  end.

(** GET /servicename *)
Definition getServiceAttr (body : decoded ServiceCommonRequest.t) (servicename : string)
  : M (string * Z) :=
  match body with
  | DecodeError => ret BadRequest
  | NilRequest => raise NilDereference
  | Decoded req =>
      if bool_decide (ServiceCommonRequest.Cluster req ≠ cluster s)
         || bool_decide (ServiceCommonRequest.Region req ≠ region s)
         || bool_decide (ServiceCommonRequest.ServiceName req ≠ servicename)
      then ret BadRequest
      else
        service <-! GetService (cluster s) servicename ;;
        attr <-! GetServiceAttr (Service.ServiceUUID service) ;;
        w_WriteHeader StatusOK ;;;
        w_Write (GetServiceAttributesResponse attr) ;;;
        ret ("", StatusOK)
  end.

(** GET /?GetServiceStatus *)
Definition getServiceStatus (body : decoded ServiceCommonRequest.t) : M (string * Z) :=
  match body with
  | DecodeError => ret BadRequest
  | NilRequest => raise NilDereference
  | Decoded req =>
      if bool_decide (ServiceCommonRequest.Cluster req ≠ cluster s)
         || bool_decide (ServiceCommonRequest.Region req ≠ region s)
      then ret BadRequest
      else
        status <-! GetServiceStatus (ServiceCommonRequest.Cluster req)
                                    (ServiceCommonRequest.ServiceName req) ;;
        w_WriteHeader StatusOK ;;;
        w_Write (ServiceStatusResponse (PlatformStatus.RunningCount status)
                                       (PlatformStatus.DesiredCount status)) ;;;
        ret ("", StatusOK)
  end.

(** PUT /?RunTask *)
Definition runTask (body : decodedS RunTaskRequest.t) : M (string * Z) :=
  match body with
  | DecodeErrorS => ret BadRequest
  | NilRequestS | NilServiceS => raise NilDereference
  | DecodedS req =>
      let rs := RunTaskRequest.Service req in
      if bool_decide (ServiceCommonRequest.Cluster rs ≠ cluster s)
         || bool_decide (ServiceCommonRequest.Region rs ≠ region s)
      then ret BadRequest
      else
        svc <-! GetService (ServiceCommonRequest.Cluster rs)
                           (ServiceCommonRequest.ServiceName rs) ;;
        let commonOpts :=
          CommonOptions.mk (ServiceCommonRequest.Cluster rs)
            (ServiceCommonRequest.ServiceName rs) (Service.ServiceUUID svc)
            (RunTaskRequest.ContainerImage req) (RunTaskRequest.Resource req) in
        let opts := RunTaskOptions.mk commonOpts (RunTaskRequest.TaskType req)
                      (RunTaskRequest.Envkvs req) in
        taskID <-! RunTask opts ;;
        w_WriteHeader StatusOK ;;;
        w_Write (RunTaskResponse taskID) ;;;
        ret ("", StatusOK)
  end.

(** GET /?GetTaskStatus *)
Definition getTaskStatus (body : decodedS GetTaskStatusRequest.t) : M (string * Z) :=
  match body with
  | DecodeErrorS => ret BadRequest
  | NilRequestS | NilServiceS => raise NilDereference
  | DecodedS req =>
      let rs := GetTaskStatusRequest.Service req in
      if bool_decide (ServiceCommonRequest.Cluster rs ≠ cluster s)
         || bool_decide (ServiceCommonRequest.Region rs ≠ region s)
         || bool_decide (String.length (GetTaskStatusRequest.TaskID req) = 0)
      then ret BadRequest
      else
        taskStatus <-! GetTaskStatus (cluster s) (GetTaskStatusRequest.TaskID req) ;;
        w_WriteHeader StatusOK ;;;
        w_Write (GetTaskStatusResponse taskStatus) ;;;
        ret ("", StatusOK)
  end.

(** DELETE /?DeleteTask *)
Definition deleteTask (body : decodedS DeleteTaskRequest.t) : M (string * Z) :=
  match body with
  | DecodeErrorS => ret BadRequest
  | NilRequestS | NilServiceS => raise NilDereference
  | DecodedS req =>
      let rs := DeleteTaskRequest.Service req in
      if bool_decide (ServiceCommonRequest.Cluster rs ≠ cluster s)
         || bool_decide (ServiceCommonRequest.Region rs ≠ region s)
         || bool_decide (String.length (ServiceCommonRequest.ServiceName rs) = 0)
         || bool_decide (String.length (DeleteTaskRequest.TaskType req) = 0)
      then ret BadRequest
      else
        _ <-! DeleteTask (cluster s) (ServiceCommonRequest.ServiceName rs)
                         (DeleteTaskRequest.TaskType req) ;;
        ret ("", StatusOK)
  end.

End Handlers.
End Server.

(** ** The vocabulary of the properties *)

Section Vocabulary.
Context `{Catalog}.
Variable s : ManageHTTPServer.

(** A computation that never panics. *)
Definition safe {A} (m : M A) : Prop := ∀ w, ∃ a, fst (m w) = Done a.

(** The request names a cluster or a region that is not the server's. *)
Definition mismatch (cl rg : string) : Prop := cl ≠ cluster s ∨ rg ≠ region s.

Definition checkInitResponse (initialized : bool) (statusMsg : string) : list Output :=
  [WriteHeader StatusOK; Write (CatalogCheckServiceInitResponse initialized statusMsg)].

(** The types CheckServiceInit flips to ACTIVE at once, and the types it
    re-submits the init task of. *)
Definition noInitType (ty : string) : Prop :=
  ty = CatalogService_PostgreSQL ∨ ty = CatalogService_ZooKeeper
  ∨ ty = CatalogService_Kafka.

Definition plainInitType (ty : string) : Prop :=
  ty = CatalogService_MongoDB ∨ ty = CatalogService_Cassandra
  ∨ ty = CatalogService_CouchDB.

(** The fault that decides the [n]-th outgoing call from [w] on. *)
Definition faultAt (w : World) (n : nat) : option error := default None (faults w !! n).

(** [m] makes the outgoing calls [t], one fault consumed per call, with
    [P o t] for its outcome [o], and touches neither the response nor the
    service attributes. *)
Definition emits {A} (P : outcome A → list Event → Prop) (m : M A) : Prop :=
  ∀ w, ∃ t,
    trace (snd (m w)) = trace w ++ t
    ∧ faults (snd (m w)) = drop (length t) (faults w)
    ∧ P (fst (m w)) t
    ∧ resp (snd (m w)) = resp w
    ∧ attrs (db (snd (m w))) = attrs (db w).

(** [m] makes no outgoing call. *)
Definition quiet {A} (m : M A) : Prop :=
  ∀ w, trace (snd (m w)) = trace w
       ∧ faults (snd (m w)) = faults w
       ∧ resp (snd (m w)) = resp w
       ∧ attrs (db (snd (m w))) = attrs (db w).

(** The calls of the config store, and the members whose
    compare-and-swap update they request, in order. *)
Definition configEvent (ev : Event) : Prop :=
  match ev with
  | DBGetConfigFile _ _ | DBCreateConfigFile _
  | DBUpdateServiceMember _ _ | DBDeleteConfigFile _ _ => True
  | _ => False
  end.

Fixpoint updatedMembers (t : list Event) : list string :=
  match t with
  | [] => []
  | DBUpdateServiceMember old _ :: t' => ServiceMember.MemberName old :: updatedMembers t'
  | _ :: t' => updatedMembers t'
  end.

Definition configTrace (names : list string) (t : list Event) : Prop :=
  Forall configEvent t ∧ updatedMembers t `sublist_of` names.

(** [createRedisClusterFile] hands back a member of the same name. *)
Definition keepsName (member : ServiceMember.t) (o : outcome (res ServiceMember.t))
  : Prop :=
  ∀ newMember, o = Done (Success newMember) →
    ServiceMember.MemberName newMember = ServiceMember.MemberName member.

(** Each member of a Redis run is updated at most twice: the cluster-info
    slot is appended, the redis.conf slot re-pointed. *)
Definition twice (names : list string) : list string := names ≫= λ n, [n; n].

(** The calls that resolve the service and list its members. *)
Definition readEvent (ev : Event) : Prop :=
  match ev with
  | DBGetService _ _ | DBGetServiceAttr _ | DBListServiceMembers _ => True
  | _ => False
  end.

(** The shape of a run of an init mutator on the service [name] from the
    world [w]: the reads, then the config updates, member after member (a
    member is updated at most [per name] times), then at most the restart
    and the set-initialized call.  How the run ended:
    - before the restart, with an answer that is not 200, or a panic;
    - at the restart, which failed: its error is the answer, and the
      set-initialized call is not made;
    - after the restart succeeded, with the set-initialized call.
    Unless the set-initialized call is made the service attributes, and
    with them the status, are those of [w]. *)
Definition mutatorRun (w : World) (name : string) (per : list string → list string)
  (o : outcome (string * Z)) (w' : World) : Prop :=
  ∃ reads updates tail,
    trace w' = trace w ++ reads ++ updates ++ tail
    ∧ Forall readEvent reads
    ∧ Forall configEvent updates
    ∧ (∀ service, services (db w) !! (cluster s, name) = Some service →
         updatedMembers updates `sublist_of`
           per (ServiceMember.MemberName
                  <$> listMembers (db w) (Service.ServiceUUID service)))
    ∧ ((tail = [] ∧ o ≠ Done ("", StatusOK) ∧ attrs (db w') = attrs (db w))
       ∨ (∃ replicas e,
            tail = [CsRestartService (cluster s) name replicas]
            ∧ faultAt w (length (reads ++ updates)) = Some e
            ∧ o = Done (ConvertToHTTPError e)
            ∧ attrs (db w') = attrs (db w))
       ∨ (∃ replicas,
            tail = [CsRestartService (cluster s) name replicas;
                    SvcSetServiceInitialized (cluster s) name]
            ∧ faultAt w (length (reads ++ updates)) = None)).

(** The config files a trace asks the store to create all have a content
    that [ReplaceMemberName] made with the map [memberips]. *)
Definition rewrittenWith (memberips : gmap string string) (ev : Event) : Prop :=
  match ev with
  | DBCreateConfigFile cf =>
      ∃ content, ConfigFile.Content cf = ReplaceMemberName content memberips
  | _ => True
  end.

(** The calls of the container platform's create. *)
Definition containerEvent (ev : Event) : Prop :=
  match ev with
  | CsIsServiceExist _ _ | CsCreateService _ => True
  | _ => False
  end.

(** The member carries a cluster-info slot, with the MD5 [md5]. *)
Definition hasClusterInfo (md5 : string) (m : ServiceMember.t) : Prop :=
  ∃ c, findClusterInfo (ServiceMember.Configs m) = Some c ∧ MemberConfig.FileMD5 c = md5.

(** The members loop of [setRedisInit] with the cluster-info step left
    out: only the redis.conf slot of each member is looked at. *)
Fixpoint redisConfOnlyLoop (members : list ServiceMember.t) : M (res unit) :=
  match members with
  | [] => ret (Success tt)
  | member :: rest =>
      _ <-? redisConfigsLoop member 0 (ServiceMember.Configs member) ;;
      redisConfOnlyLoop rest
  end.

(** The members of every service are left as they are. *)
Definition keepsMembers {A} (m : M A) : Prop :=
  ∀ w, members (db (snd (m w))) = members (db w).

(** The state of the loop over the members: the stored list of the
    service is [pre ++ m :: post] with distinct names, and [m] is the
    member in hand. *)
Definition inHand (uuid : string) (pre : list ServiceMember.t) (m : ServiceMember.t)
  (post : list ServiceMember.t) (w : World) : Prop :=
  listMembers (db w) uuid = pre ++ m :: post
  ∧ NoDup (ServiceMember.MemberName <$> (pre ++ m :: post))
  ∧ ServiceMember.ServiceUUID m = uuid.

End Vocabulary.

(** ** Observations on a run *)

Section Observations.
Context `{Catalog}.

(** [m] leaves the part [proj] of the world as it is. *)
Definition keeps {A X} (proj : World → X) (m : M A) : Prop :=
  ∀ w, proj (snd (m w)) = proj w.

(** An outgoing call does not touch the part [proj] by itself. *)
Definition framed {X} (proj : World → X) : Prop :=
  ∀ ev w, proj (called ev w) = proj w.

(** What the control plane and the platform hold: everything but the
    bookkeeping of the calls and the response. *)
Definition stored (w : World) :=
  (db w, containers w, platformStatus w, platformTasks w, initTasks w).

(** What a handler may write before it returns 200: nothing, the header,
    or the header and one body. *)
Definition reply (outs : list Output) : Prop :=
  outs = [] ∨ outs = [WriteHeader StatusOK] ∨ ∃ b, outs = [WriteHeader StatusOK; Write b].

(** A handler writes a reply only when it returns 200; with any other
    code, and when it panics, it has written nothing. *)
Definition replies (m : M (string * Z)) : Prop :=
  ∀ w, ∃ outs,
    resp (snd (m w)) = resp w ++ outs
    ∧ match fst (m w) with
      | Done r => if bool_decide (snd r = StatusOK) then reply outs else outs = []
      | Panicked _ => outs = []
      end.

End Observations.


Section Calls.
Context `{Catalog}.

(** Every outgoing call of [m] satisfies [φ]. *)
Definition calls {A} (φ : Event → Prop) (m : M A) : Prop :=
  ∀ w, ∃ t, trace (snd (m w)) = trace w ++ t ∧ Forall φ t.

(** The calls that only read: of the DB and of the container platform. *)
Definition readCall (ev : Event) : Prop :=
  match ev with
  | DBGetService _ _ | DBGetServiceAttr _ | DBListServices _ | DBListVolumes _
  | CsGetServiceStatus _ _ | CsGetTaskStatus _ _ => True
  | _ => False
  end.

(** The calls of a create: the control plane's and the container
    platform's. *)
Definition createCall (ev : Event) : Prop :=
  match ev with
  | SvcCreateService _ _ _ | CsIsServiceExist _ _ | CsCreateService _ => True
  | _ => False
  end.

End Calls.


Section Listing.
Context `{Catalog}.

(** The services [listServices] reports: those whose name starts with
    the prefix of the request. *)
Definition named (prefix : string) (svc : Service.t) : bool :=
  String.prefix prefix (Service.ServiceName svc).

(** One read of the attributes per service. *)
Definition attrReads (svcs : list Service.t) : list Event :=
  (λ svc, DBGetServiceAttr (Service.ServiceUUID svc)) <$> svcs.

(** [a] is what the DB holds as the attributes of [svc]. *)
Definition attrOf (d : DB) (svc : Service.t) (a : ServiceAttr.t) : Prop :=
  attrs d !! Service.ServiceUUID svc = Some a.

End Listing.


Section Initialized.
Context `{Catalog}.

(** The service [name] of the cluster [cl] is ACTIVE in the DB. *)
Definition active (w : World) (cl name : string) : Prop :=
  ∃ svc a,
    services (db w) !! (cl, name) = Some svc
    ∧ attrs (db w) !! Service.ServiceUUID svc = Some a
    ∧ ServiceAttr.ServiceStatus a = ServiceStatusActive.

(** The members and the config files of the DB. *)
Definition configStore (w : World) := (members (db w), cfgfiles (db w)).

(** A call that does not write to the config store. *)
Definition noConfigWrite (ev : Event) : Prop :=
  match ev with
  | DBCreateConfigFile _ | DBUpdateServiceMember _ _ | DBDeleteConfigFile _ _ => False
  | _ => True
  end.

(** The world after the calls [evs], none of which changed anything. *)
Definition calledAll (evs : list Event) (w : World) : World :=
  foldl (λ w ev, called ev w) w evs.

(** The mongod.conf slot [setMongoDBInit] looks at: the first one. *)
Definition mongoConfSlot (m : ServiceMember.t) : option MemberConfig.t :=
  List.find (λ c, IsMongoDBConfFile (MemberConfig.FileName c)) (ServiceMember.Configs m).

(** The member's mongod.conf file, if the DB [d] holds it, has auth
    enabled. *)
Definition authEnabled (d : DB) (m : ServiceMember.t) : Prop :=
  ∀ c cf,
    mongoConfSlot m = Some c →
    cfgfiles d !! (ServiceMember.ServiceUUID m, MemberConfig.FileID c) = Some cf →
    IsAuthEnabled (ConfigFile.Content cf) = true.

End Initialized.


Section CreateOutcome.
Context `{Catalog}.
Variable s : ManageHTTPServer.

(** A 200 of the computation [m] means: the service [name] is ACTIVE, and
    the last call was the set-initialized call for it. *)
Definition endsActive (name : string) (m : M (string * Z)) : Prop :=
  ∀ w w', m w = (Done ("", StatusOK), w') →
    active w' (cluster s) name
    ∧ last (trace w') = Some (SvcSetServiceInitialized (cluster s) name).

(** The same of a create handler, for the service its request names. *)
Definition initializes {O} (h : decodedS (CatalogCreateRequest.t O) → M (string * Z))
  : Prop :=
  ∀ body w w', h body w = (Done ("", StatusOK), w') →
    ∃ req, body = DecodedS req
      ∧ active w' (cluster s)
               (ServiceCommonRequest.ServiceName (CatalogCreateRequest.Service req))
      ∧ last (trace w')
        = Some (SvcSetServiceInitialized (cluster s)
                  (ServiceCommonRequest.ServiceName (CatalogCreateRequest.Service req))).

(** A 200 of a create handler that leaves the initialization to a task
    means: the service was created with the request [crReq], and nothing
    happened after that but the registration of the init task for its
    serviceUUID. *)
Definition registersTask (crReq : CreateServiceRequest.t) (m : M (string * Z)) : Prop :=
  ∀ w w', m w = (Done ("", StatusOK), w') →
    ∃ uuid w1,
      createCommonService s crReq w = (Done (Success uuid), w1)
      ∧ is_Some (initTasks w' !! uuid)
      ∧ db w' = db w1 ∧ trace w' = trace w1 ∧ resp w' = resp w1.

End CreateOutcome.


Section ConsulNames.
Context `{Catalog}.

(** The members whose DNS name in [domain] is [dns], in the order of the
    list. *)
Definition membersNamed (domain dns : string) (members : list ServiceMember.t)
  : list ServiceMember.t :=
  List.filter (λ m, bool_decide (GenDNSName (ServiceMember.MemberName m) domain = dns))
              members.

End ConsulNames.


(** ** The dispatchers *)

(** The operation names of package [manage] that the dispatchers compare
    the URL with.  They are declared outside the sources at hand and are
    left open: the dispatchers are embedded over any choice of them. *)
Class Ops := {
  SpecialOpPrefix : string;
  ServiceInitializedOp : string;
  RunTaskOp : string;
  ListServiceOp : string;
  ListVolumeOp : string;
  GetServiceStatusOp : string;
  GetTaskStatusOp : string;
  DeleteTaskOp : string;
  CatalogCreateMongoDBOp : string;
  CatalogCreatePostgreSQLOp : string;
  CatalogCreateCassandraOp : string;
  CatalogCreateZooKeeperOp : string;
  CatalogCreateKafkaOp : string;
  CatalogCreateRedisOp : string;
  CatalogCreateCouchDBOp : string;
  CatalogCreateConsulOp : string;
  CatalogCreateElasticSearchOp : string;
  CatalogCreateKibanaOp : string;
  CatalogCreateLogstashOp : string;
  CatalogSetServiceInitOp : string;
  CatalogSetRedisInitOp : string
}.

(** [r.Body] of the [http.Request], as the handlers read it: what decoding
    the JSON body into each request type gives. *)
Module Request.
Record t := mk {
  ServiceCommonRequest : decoded ServiceCommonRequest.t;
  CreateServiceRequest : decodedS CreateServiceRequest.t;
  ListServiceRequest : decoded ListServiceRequest.t;
  ListVolumeRequest : decodedS ListVolumeRequest.t;
  RunTaskRequest : decodedS RunTaskRequest.t;
  GetTaskStatusRequest : decodedS GetTaskStatusRequest.t;
  DeleteTaskRequest : decodedS DeleteTaskRequest.t;
  CatalogCreateMongoDBRequest : decodedS (CatalogCreateRequest.t AdminOptions.t);
  CatalogCreatePostgreSQLRequest : decodedS (CatalogCreateRequest.t PlainOptions);
  CatalogCreateCassandraRequest : decodedS (CatalogCreateRequest.t PlainOptions);
  CatalogCreateZooKeeperRequest : decodedS (CatalogCreateRequest.t PlainOptions);
  CatalogCreateKafkaRequest : decodedS (CatalogCreateRequest.t KafkaOptions.t);
  CatalogCreateRedisRequest : decodedS (CatalogCreateRequest.t RedisOptions.t);
  CatalogCreateCouchDBRequest : decodedS (CatalogCreateRequest.t AdminOptions.t);
  CatalogCreateConsulRequest : decodedS (CatalogCreateRequest.t PlainOptions);
  CatalogCreateElasticSearchRequest : decodedS (CatalogCreateRequest.t PlainOptions);
  CatalogCreateKibanaRequest : decodedS (CatalogCreateRequest.t KibanaOptions.t);
  CatalogCreateLogstashRequest : decodedS (CatalogCreateRequest.t PlainOptions);
  CatalogSetServiceInitRequest : decoded CatalogSetServiceInitRequest.t;
  CatalogSetRedisInitRequest : decoded CatalogSetRedisInitRequest.t }.
End Request.

Section Dispatchers.
Context `{Catalog} `{Ops}.
Variable s : ManageHTTPServer.

(** PUT and POST of [server.go].  A Go [switch] takes the first case that
    is equal. *)
Definition putOp (r : Request.t) (trimURL : string) : M (string * Z) :=
  if String.prefix SpecialOpPrefix trimURL then
    if bool_decide (trimURL = ServiceInitializedOp) then
      Server.setServiceInitialized s (unmarshalled (Request.ServiceCommonRequest r))
    else if bool_decide (trimURL = RunTaskOp) then
      Server.runTask s (Request.RunTaskRequest r)
    else ret BadRequest
  else Server.createService s (Request.CreateServiceRequest r) trimURL.

(** GET of [server.go]: one service, or a list. *)
Definition getOp (r : Request.t) (trimURL : string) : M (string * Z) :=
  if String.prefix SpecialOpPrefix trimURL then
    if bool_decide (trimURL = ListServiceOp) then
      Server.listServices s (Request.ListServiceRequest r)
    else if bool_decide (trimURL = ListVolumeOp) then
      Server.listVolumes s (Request.ListVolumeRequest r)
    else if bool_decide (trimURL = GetServiceStatusOp) then
      Server.getServiceStatus s (Request.ServiceCommonRequest r)
    else if bool_decide (trimURL = GetTaskStatusOp) then
      Server.getTaskStatus s (Request.GetTaskStatusRequest r)
    else ret BadRequest
  else
    (* get the detail of one service *)
    Server.getServiceAttr s (Request.ServiceCommonRequest r) trimURL.

(** DELETE of [server.go]. *)
Definition delOp (r : Request.t) (trimURL : string) : M (string * Z) :=
  if String.prefix SpecialOpPrefix trimURL then
    if bool_decide (trimURL = DeleteTaskOp) then
      Server.deleteTask s (Request.DeleteTaskRequest r)
    else ret BadRequest
  else Server.deleteService s (Request.ServiceCommonRequest r) trimURL.

(** PUT and POST of the catalog operations. *)
Definition putCatalogServiceOp (r : Request.t) (trimURL : string) : M (string * Z) :=
  if bool_decide (trimURL = CatalogCreateMongoDBOp) then
    createMongoDBService s (Request.CatalogCreateMongoDBRequest r)
  else if bool_decide (trimURL = CatalogCreatePostgreSQLOp) then
    createPGService s (Request.CatalogCreatePostgreSQLRequest r)
  else if bool_decide (trimURL = CatalogCreateCassandraOp) then
    createCasService s (Request.CatalogCreateCassandraRequest r)
  else if bool_decide (trimURL = CatalogCreateZooKeeperOp) then
    createZkService s (Request.CatalogCreateZooKeeperRequest r)
  else if bool_decide (trimURL = CatalogCreateKafkaOp) then
    createKafkaService s (Request.CatalogCreateKafkaRequest r)
  else if bool_decide (trimURL = CatalogCreateRedisOp) then
    createRedisService s (Request.CatalogCreateRedisRequest r)
  else if bool_decide (trimURL = CatalogCreateCouchDBOp) then
    createCouchDBService s (Request.CatalogCreateCouchDBRequest r)
  else if bool_decide (trimURL = CatalogCreateConsulOp) then
    createConsulService s (Request.CatalogCreateConsulRequest r)
  else if bool_decide (trimURL = CatalogCreateElasticSearchOp) then
    createElasticSearchService s (Request.CatalogCreateElasticSearchRequest r)
  else if bool_decide (trimURL = CatalogCreateKibanaOp) then
    createKibanaService s (Request.CatalogCreateKibanaRequest r)
  else if bool_decide (trimURL = CatalogCreateLogstashOp) then
    createLogstashService s (Request.CatalogCreateLogstashRequest r)
  else if bool_decide (trimURL = CatalogSetServiceInitOp) then
    catalogSetServiceInit s (Request.CatalogSetServiceInitRequest r)
  else if bool_decide (trimURL = CatalogSetRedisInitOp) then
    setRedisInit s (Request.CatalogSetRedisInitRequest r)
  else ret BadRequest.

(** A body that decodes into no request type. *)
Definition undecodable : Request.t :=
  Request.mk DecodeError DecodeErrorS DecodeError DecodeErrorS DecodeErrorS
             DecodeErrorS DecodeErrorS DecodeErrorS DecodeErrorS DecodeErrorS
             DecodeErrorS DecodeErrorS DecodeErrorS DecodeErrorS DecodeErrorS
             DecodeErrorS DecodeErrorS DecodeErrorS DecodeError DecodeError.

(** The operations [putOp], [getOp] and [delOp] serve besides the plain
    service name, and those of [putCatalogServiceOp]. *)
Definition putOps : list string := [ServiceInitializedOp; RunTaskOp].
Definition getOps : list string :=
  [ListServiceOp; ListVolumeOp; GetServiceStatusOp; GetTaskStatusOp].
Definition delOps : list string := [DeleteTaskOp].
Definition catalogOps : list string :=
  [CatalogCreateMongoDBOp; CatalogCreatePostgreSQLOp; CatalogCreateCassandraOp;
   CatalogCreateZooKeeperOp; CatalogCreateKafkaOp; CatalogCreateRedisOp;
   CatalogCreateCouchDBOp; CatalogCreateConsulOp; CatalogCreateElasticSearchOp;
   CatalogCreateKibanaOp; CatalogCreateLogstashOp; CatalogSetServiceInitOp;
   CatalogSetRedisInitOp].

End Dispatchers.

(** ** A small catalog, to run the handlers

    One implementation of the interface [Catalog], with file ids of the
    form member-file-version and substring probes, and a service of two
    members.  The digest is a stand-in: it wraps the content. *)

Module Demo.

Fixpoint lastField (acc s : string) : string :=
  match s with
  | EmptyString => acc
  | String c s' =>
      if bool_decide (c = "-"%char) then lastField "" s'
      else lastField (acc +:+ String c "") s'
  end.

Definition digit (c : Ascii.ascii) : option Z :=
  let n := Z.of_nat (Ascii.nat_of_ascii c) in
  if bool_decide (48 ≤ n ≤ 57)%Z then Some (n - 48)%Z else None.

Fixpoint parseDigits (acc : Z) (s : string) : option Z :=
  match s with
  | EmptyString => Some acc
  | String c s' =>
      match digit c with
      | Some d => parseDigits (10 * acc + d)%Z s'
      | None => None
      end
  end.

Definition parseVersion (fileID : string) : res Z :=
  match lastField "" fileID with
  | EmptyString => Failure (ErrOther "invalid config file id")
  | f => match parseDigits 0 f with
         | Some v => Success v
         | None => Failure (ErrOther "invalid config file id")
         end
  end.

Fixpoint showDigits (fuel : nat) (n : Z) (acc : string) : string :=
  match fuel with
  | O => acc
  | S fuel' =>
      let d := String (Ascii.ascii_of_nat (Z.to_nat (48 + n mod 10))) "" in
      if bool_decide (n < 10)%Z then d +:+ acc
      else showDigits fuel' (n / 10)%Z (d +:+ acc)
  end.

Definition showVersion (v : Z) : string := showDigits 20 v "".

Definition fileIDOf (member file : string) (v : Z) : string :=
  member +:+ "-" +:+ file +:+ "-" +:+ showVersion v.

Definition contains (sub s : string) : bool :=
  match String.index 0 sub s with
  | Some _ => true
  | None => false
  end.

Fixpoint dropString (n : nat) (s : string) : string :=
  match n, s with
  | O, _ => s
  | S n', String _ s' => dropString n' s'
  | S _, EmptyString => EmptyString
  end.

Fixpoint replaceAll (fuel : nat) (old new s : string) : string :=
  match fuel with
  | O => s
  | S fuel' =>
      match s with
      | EmptyString => EmptyString
      | String c s' =>
          if negb (bool_decide (old = "")) && String.prefix old s
          then new +:+ replaceAll fuel' old new (dropString (String.length old) s)
          else String c (replaceAll fuel' old new s')
      end
  end.

Definition replaceNames (content : string) (ips : gmap string string) : string :=
  foldr (λ kv c, replaceAll (String.length c) (fst kv) (snd kv) c) content
        (map_to_list ips).

Definition task (ty : string) (req : ServiceCommonRequest.t) (uuid : string)
  : RunTaskOptions.t :=
  RunTaskOptions.mk
    (CommonOptions.mk (ServiceCommonRequest.Cluster req)
       (ServiceCommonRequest.ServiceName req) uuid (ty +:+ "-init") "")
    TaskTypeInit [].

Definition request (cl name : string) (replicas : Z) : CreateServiceRequest.t :=
  CreateServiceRequest.mk (ServiceCommonRequest.mk "r" cl name) "" "image" replicas
    "/data" 8000 [].

Definition consulBasic : string := "retry_join: consul1-0.c1-firecamp.com consul1-1.c1-firecamp.com".

(** The control-plane create of the demo: a service of two members with a
    basic-config file each, unless the service exists. *)
Definition controlPlaneCreate (req : CreateServiceRequest.t) (domain vpcID : string)
  (d : DB) : res (string * DB) :=
  let cl := ServiceCommonRequest.Cluster (CreateServiceRequest.Service req) in
  let name := ServiceCommonRequest.ServiceName (CreateServiceRequest.Service req) in
  match services d !! (cl, name) with
  | Some svc => Success (Service.ServiceUUID svc, d)
  | None =>
      let uuid := "uuid-" +:+ name in
      let member (i ip : string) :=
        ServiceMember.mk uuid (name +:+ "-" +:+ i) ip
          [MemberConfig.mk "basic_config.json"
             (fileIDOf (name +:+ "-" +:+ i) "basic_config.json" 0)
             ("md5(" +:+ consulBasic +:+ ")")] in
      let file (i : string) :=
        ConfigFile.mk uuid (fileIDOf (name +:+ "-" +:+ i) "basic_config.json" 0)
          ("md5(" +:+ consulBasic +:+ ")") "basic_config.json" 384 consulBasic in
      Success (uuid,
        mkDB (<[(cl, name) := Service.mk uuid cl name]> (services d))
             (<[uuid := ServiceAttr.mk uuid ServiceStatusCreating
                          (CreateServiceRequest.Replicas req) cl name domain]> (attrs d))
             (<[uuid := [member "0" "10.0.0.1"; member "1" "10.0.0.2"]]> (members d))
             (<[(uuid, ConfigFile.FileID (file "0")) := file "0"]>
                (<[(uuid, ConfigFile.FileID (file "1")) := file "1"]> (cfgfiles d))))
  end.

Definition catalog : Catalog := {|
  GenMD5 c := "md5(" +:+ c +:+ ")";
  GenMemberConfigFileID := fileIDOf;
  GetConfigFileVersion := parseVersion;
  GenDefaultDomainName cl := cl +:+ "-firecamp.com";
  GenDNSName member domain := member +:+ "." +:+ domain;
  GetLocalVpcID := "vpc-1";
  CreateLogConfigForStream cl name uuid ty := cl +:+ "/" +:+ name +:+ "/" +:+ ty;
  IsMongoDBConfFile n := bool_decide (n = "mongod.conf");
  IsAuthEnabled c := contains "authorization: enabled" c;
  EnableMongoDBAuth c := c +:+ " authorization: enabled";
  mongodbcatalog_ValidateRequest _ := None;
  mongodbcatalog_GenDefaultCreateServiceRequest _ _ _ cl name o _ :=
    Success (request cl name (AdminOptions.Replicas o));
  mongodbcatalog_GenDefaultInitTaskRequest req _ uuid _ _ _ _ := task "mongodb" req uuid;
  IsRedisConfFile n := bool_decide (n = "redis.conf");
  IsClusterInfoFile n := bool_decide (n = "cluster.info");
  NeedToEnableAuth c := negb (contains "requirepass" c);
  NeedToSetClusterAnnounceIP c := negb (contains "cluster-announce-ip" c);
  EnableRedisAuth c := c +:+ " requirepass on";
  SetClusterAnnounceIP c ip := c +:+ " cluster-announce-ip " +:+ ip;
  CreateClusterInfoFile ids :=
    ReplicaConfigFile.mk "cluster.info" 384 (String.concat " " ids);
  IsClusterMode shards := bool_decide (shards ≠ 1)%Z;
  rediscatalog_ValidateRequest _ := None;
  rediscatalog_GenDefaultCreateServiceRequest _ _ _ cl name _ o :=
    request cl name (RedisOptions.Shards o * RedisOptions.ReplicasPerShard o);
  rediscatalog_GenDefaultInitTaskRequest req _ shards _ uuid _ :=
    if bool_decide (shards < 3)%Z then Failure (ErrOther "redis cluster needs 3 shards")
    else Success (task "redis" req uuid);
  IsBasicConfigFile n := bool_decide (n = "basic_config.json");
  ReplaceMemberName := replaceNames;
  consulcatalog_ValidateRequest _ := None;
  consulcatalog_GenDefaultCreateServiceRequest _ _ _ cl name _ _ := request cl name 2;
  cascatalog_ValidateRequest _ := None;
  cascatalog_GenDefaultCreateServiceRequest _ _ _ cl name _ _ := request cl name 3;
  cascatalog_GenDefaultInitTaskRequest req _ uuid _ := task "cassandra" req uuid;
  couchdbcatalog_ValidateRequest _ := None;
  couchdbcatalog_GenDefaultCreateServiceRequest _ _ _ cl name _ o :=
    request cl name (AdminOptions.Replicas o);
  couchdbcatalog_GenDefaultInitTaskRequest req _ _ uuid _ _ _ _ := task "couchdb" req uuid;
  pgcatalog_ValidateRequest _ := None;
  pgcatalog_GenDefaultCreateServiceRequest _ _ _ cl name _ _ := request cl name 3;
  zkcatalog_GenDefaultCreateServiceRequest _ _ _ cl name _ _ := request cl name 3;
  kafkacatalog_GenDefaultCreateServiceRequest _ _ _ cl name _ _ _ := request cl name 3;
  escatalog_ValidateRequest _ := None;
  escatalog_GenDefaultCreateServiceRequest _ _ _ cl name _ _ := request cl name 3;
  GetFirstMemberHost domain name := name +:+ "-0." +:+ domain;
  kibanacatalog_ValidateRequest _ := None;
  kibanacatalog_GenDefaultCreateServiceRequest _ _ _ cl name _ _ _ := request cl name 1;
  logstashcatalog_ValidateRequest _ := None;
  logstashcatalog_GenDefaultCreateServiceRequest _ _ _ cl name _ _ := request cl name 1;
  ControlPlaneCreate := controlPlaneCreate;
  PlatformTaskID o := "task-" +:+ RunTaskOptions.TaskType o
|}.

Definition server : ManageHTTPServer := mkServer "r" "c1" "ecs" ["az1"; "az2"] "manage.c1".

Definition emptyDB : DB := mkDB ∅ ∅ ∅ ∅.
Definition emptyWorld : World := mkWorld emptyDB ∅ ∅ ∅ ∅ [] [] [].

(** A Consul service of two members, as [createConsulService] leaves it:
    the basic-config files are at version 1 and name the static IPs. *)
Definition consulRequest : CatalogCreateRequest.t PlainOptions :=
  CatalogCreateRequest.mk (ServiceCommonRequest.mk "r" "c1" "consul1") "" "".

Definition consulWorld : World :=
  snd (@createConsulService catalog server (DecodedS consulRequest) emptyWorld).

Definition consulContent : string := "retry_join: 10.0.0.1 10.0.0.2".

Definition consulMember (i ip : string) (version : Z) : ServiceMember.t :=
  ServiceMember.mk "uuid-consul1" ("consul1-" +:+ i) ip
    [MemberConfig.mk "basic_config.json"
       (fileIDOf ("consul1-" +:+ i) "basic_config.json" version)
       ("md5(" +:+ consulContent +:+ ")")].

Definition consulFile (i : string) (version : Z) : ConfigFile.t :=
  ConfigFile.mk "uuid-consul1" (fileIDOf ("consul1-" +:+ i) "basic_config.json" version)
    ("md5(" +:+ consulContent +:+ ")") "basic_config.json" 384 consulContent.

Definition consulIPs : gmap string string :=
  @consulMemberIPs catalog "c1-firecamp.com"
    [consulMember "0" "10.0.0.1" 1; consulMember "1" "10.0.0.2" 1].

(** A MongoDB service of two members that is INITIALIZING, with the init
    tasks and the fault schedule left open. *)
Definition mongoConf : string := "net: port: 27017".

Definition mongoMember (i ip : string) : ServiceMember.t :=
  ServiceMember.mk "uuid-mongo1" ("mongo1-" +:+ i) ip
    [MemberConfig.mk "mongod.conf" (fileIDOf ("mongo1-" +:+ i) "mongod.conf" 0)
       ("md5(" +:+ mongoConf +:+ ")")].

Definition mongoFile (i : string) : ConfigFile.t :=
  ConfigFile.mk "uuid-mongo1" (fileIDOf ("mongo1-" +:+ i) "mongod.conf" 0)
    ("md5(" +:+ mongoConf +:+ ")") "mongod.conf" 384 mongoConf.

Definition mongoService : Service.t := Service.mk "uuid-mongo1" "c1" "mongo1".

Definition mongoAttr : ServiceAttr.t :=
  ServiceAttr.mk "uuid-mongo1" ServiceStatusInitializing 2 "c1" "mongo1" "c1-firecamp.com".

Definition mongoDB : DB :=
  mkDB {[ ("c1", "mongo1") := mongoService ]}
       {[ "uuid-mongo1" := mongoAttr ]}
       {[ "uuid-mongo1" := [mongoMember "0" "10.0.1.1"; mongoMember "1" "10.0.1.2"] ]}
       (<[("uuid-mongo1", ConfigFile.FileID (mongoFile "0")) := mongoFile "0"]>
          {[ ("uuid-mongo1", ConfigFile.FileID (mongoFile "1")) := mongoFile "1" ]}).

Definition mongoWorld (tasks : gmap string serviceTask.t) (fs : list (option error))
  : World :=
  mkWorld mongoDB ∅ ∅ ∅ tasks fs [] [].

Definition mongoTask : serviceTask.t :=
  serviceTask.mk "uuid-mongo1" "mongo1" CatalogService_MongoDB
    (task "mongodb" (ServiceCommonRequest.mk "r" "c1" "mongo1") "uuid-mongo1")
    "enable auth for MongoDB".

Definition mongoCheck (ty : string) : CatalogCheckServiceInitRequest.t :=
  CatalogCheckServiceInitRequest.mk ty (ServiceCommonRequest.mk "r" "c1" "mongo1")
    "admin" "passwd" 0 0.

(** A cluster-mode Redis service of two members that is INITIALIZING. *)
Definition redisConf : string := "port 6379".

Definition redisMember (i ip : string) : ServiceMember.t :=
  ServiceMember.mk "uuid-redis1" ("redis1-" +:+ i) ip
    [MemberConfig.mk "redis.conf" (fileIDOf ("redis1-" +:+ i) "redis.conf" 0)
       ("md5(" +:+ redisConf +:+ ")")].

Definition redisFile (i : string) : ConfigFile.t :=
  ConfigFile.mk "uuid-redis1" (fileIDOf ("redis1-" +:+ i) "redis.conf" 0)
    ("md5(" +:+ redisConf +:+ ")") "redis.conf" 384 redisConf.

Definition redisService : Service.t := Service.mk "uuid-redis1" "c1" "redis1".

Definition redisDB : DB :=
  mkDB {[ ("c1", "redis1") := redisService ]}
       {[ "uuid-redis1" :=
            ServiceAttr.mk "uuid-redis1" ServiceStatusInitializing 2 "c1" "redis1"
                           "c1-firecamp.com" ]}
       {[ "uuid-redis1" := [redisMember "0" "10.0.2.1"; redisMember "1" "10.0.2.2"] ]}
       (<[("uuid-redis1", ConfigFile.FileID (redisFile "0")) := redisFile "0"]>
          {[ ("uuid-redis1", ConfigFile.FileID (redisFile "1")) := redisFile "1" ]}).

Definition redisWorld : World := mkWorld redisDB ∅ ∅ ∅ ∅ [] [] [].

Definition redisInit (ids : list string) : CatalogSetRedisInitRequest.t :=
  CatalogSetRedisInitRequest.mk "r" "c1" "redis1" ids.

(** The world a first SetRedisInit with the node ids n0 and n1 leaves. *)
Definition redisInitialized : World :=
  snd (@setRedisInit catalog server (Decoded (redisInit ["n0"; "n1"])) redisWorld).

(** The operation names, as section 6 of the specification lists them. *)
Definition ops : Ops := {|
  SpecialOpPrefix := "?";
  ServiceInitializedOp := "?SetServiceInitialized";
  RunTaskOp := "?RunTask";
  ListServiceOp := "?ListService";
  ListVolumeOp := "?ListVolume";
  GetServiceStatusOp := "?GetServiceStatus";
  GetTaskStatusOp := "?GetTaskStatus";
  DeleteTaskOp := "?DeleteTask";
  CatalogCreateMongoDBOp := "?CreateMongoDB";
  CatalogCreatePostgreSQLOp := "?CreatePostgreSQL";
  CatalogCreateCassandraOp := "?CreateCassandra";
  CatalogCreateZooKeeperOp := "?CreateZooKeeper";
  CatalogCreateKafkaOp := "?CreateKafka";
  CatalogCreateRedisOp := "?CreateRedis";
  CatalogCreateCouchDBOp := "?CreateCouchDB";
  CatalogCreateConsulOp := "?CreateConsul";
  CatalogCreateElasticSearchOp := "?CreateElasticSearch";
  CatalogCreateKibanaOp := "?CreateKibana";
  CatalogCreateLogstashOp := "?CreateLogstash";
  CatalogSetServiceInitOp := "?SetServiceInit";
  CatalogSetRedisInitOp := "?SetRedisInit"
|}.

(** A cluster with the MongoDB and the Redis service. *)
Definition redisAttr : ServiceAttr.t :=
  ServiceAttr.mk "uuid-redis1" ServiceStatusInitializing 2 "c1" "redis1" "c1-firecamp.com".

Definition twoServices : World :=
  mkWorld
    (mkDB (<[("c1", "mongo1") := mongoService]> {[ ("c1", "redis1") := redisService ]})
          (<["uuid-mongo1" := mongoAttr]> {[ "uuid-redis1" := redisAttr ]})
          ∅ ∅)
    ∅ ∅ ∅ ∅ [] [] [].

Definition listRequest (prefix : string) : ListServiceRequest.t :=
  ListServiceRequest.mk "r" "c1" prefix.

(** The MongoDB service after its SetServiceInit. *)
Definition mongoInit : CatalogSetServiceInitRequest.t :=
  CatalogSetServiceInitRequest.mk "r" "c1" "mongo1" CatalogService_MongoDB.

Definition mongoInitialized : World :=
  snd (@setMongoDBInit catalog server mongoInit (mongoWorld ∅ [])).

Definition initTaskRequest : RunTaskRequest.t :=
  RunTaskRequest.mk (ServiceCommonRequest.mk "r" "c1" "mongo1") "" "image" "init" [].

Definition pgRequest : CatalogCreateRequest.t PlainOptions :=
  CatalogCreateRequest.mk (ServiceCommonRequest.mk "r" "c1" "pg1") "" "".

Definition kafkaRequest : CatalogCreateRequest.t KafkaOptions.t :=
  CatalogCreateRequest.mk (ServiceCommonRequest.mk "r" "c1" "kafka1") ""
    (KafkaOptions.mk "zk1").

Definition mongoRequest : CatalogCreateRequest.t AdminOptions.t :=
  CatalogCreateRequest.mk (ServiceCommonRequest.mk "r" "c1" "mongo2") ""
    (AdminOptions.mk 3 "admin" "passwd").

End Demo.

(** * Properties *)

(** ** Running the monad *)

Section Facts.
Context `{Catalog}.

Lemma extern_eq {A} ev (op : M (res A)) w :
  extern ev op w =
  match nextFault w with
  | Some e => (Done (Failure e), called ev w)
  | None => op (called ev w)
  end.
Proof. unfold extern, bind, call, ret. by destruct (nextFault w). Qed.

Lemma bind_done {A B} (m : M A) (k : A → M B) w a w1 :
  m w = (Done a, w1) → bind m k w = k a w1.
Proof. intros E. unfold bind. by rewrite E. Qed.

Lemma bind_ret {A B} (a : A) (k : A → M B) w : bind (ret a) k w = k a w.
Proof. reflexivity. Qed.

Lemma bind_assoc {A B C} (m : M A) (k1 : A → M B) (k2 : B → M C) w :
  bind (bind m k1) k2 w = bind m (λ a, bind (k1 a) k2) w.
Proof. unfold bind. by destruct (m w) as [[a|p] w1]. Qed.

Lemma bind_panicked {A B} (m : M A) (k : A → M B) w p w1 :
  m w = (Panicked p, w1) → bind m k w = (Panicked p, w1).
Proof. intros E. unfold bind. by rewrite E. Qed.

Lemma bind_inv {A B} (m : M A) (k : A → M B) w o w' :
  bind m k w = (o, w') →
  (∃ a w1, m w = (Done a, w1) ∧ k a w1 = (o, w'))
  ∨ (∃ p, m w = (Panicked p, w') ∧ o = Panicked p).
Proof.
  unfold bind. destruct (m w) as [[a|p] w1] eqn:E; intros E'.
  - left. eauto.
  - right. inversion E'; subst. eauto.
Qed.

Lemma safe_ret {A} (a : A) : safe (ret a).
Proof. intros w. by exists a. Qed.

Lemma safe_bind {A B} (m : M A) (k : A → M B) :
  safe m → (∀ a, safe (k a)) → safe (bind m k).
Proof.
  intros Hm Hk w. unfold bind. destruct (Hm w) as [a Ha].
  destruct (m w) as [[a'|p] w1]; simpl in Ha; [|discriminate].
  apply Hk.
Qed.

Lemma safe_modify f : safe (modify f).
Proof. intros w. by exists tt. Qed.

Lemma safe_gets {A} (f : World → A) : safe (gets f).
Proof. intros w. by eexists. Qed.

Lemma safe_extern {A} ev (op : M (res A)) : safe op → safe (extern ev op).
Proof.
  intros Hop w. rewrite extern_eq. destruct (nextFault w); [by eexists|apply Hop].
Qed.

Lemma safe_match_res {A B} (r : res A) (k : A → M (res B)) :
  (∀ a, safe (k a)) →
  safe (match r with Success x => k x | Failure e => ret (Failure e) end).
Proof. intros Hk. destruct r; [apply Hk|apply safe_ret]. Qed.

Lemma safe_match_http {A} (r : res A) (k : A → M (string * Z)) :
  (∀ a, safe (k a)) →
  safe (match r with Success x => k x | Failure e => ret (ConvertToHTTPError e) end).
Proof. intros Hk. destruct r; [apply Hk|apply safe_ret]. Qed.

Lemma safe_GetService c n : safe (GetService c n).
Proof.
  apply safe_extern, safe_bind; [apply safe_gets|].
  intros d. destruct (_ !! _); apply safe_ret.
Qed.

Lemma safe_GetServiceAttr u : safe (GetServiceAttr u).
Proof.
  apply safe_extern, safe_bind; [apply safe_gets|].
  intros d. destruct (_ !! _); apply safe_ret.
Qed.

Lemma safe_ListServiceMembers u : safe (ListServiceMembers u).
Proof.
  apply safe_extern, safe_bind; [apply safe_gets|]. intros d. apply safe_ret.
Qed.

Lemma safe_GetConfigFile u f : safe (GetConfigFile u f).
Proof.
  apply safe_extern, safe_bind; [apply safe_gets|].
  intros d. destruct (_ !! _); apply safe_ret.
Qed.

Lemma safe_CreateConfigFile cf : safe (CreateConfigFile cf).
Proof.
  apply safe_extern, safe_bind; [apply safe_gets|].
  intros d. simpl. destruct (_ !! _).
  - case_bool_decide; apply safe_ret.
  - apply safe_bind; [apply safe_modify|]. intros _. apply safe_ret.
Qed.

Lemma safe_DeleteConfigFile u f : safe (DeleteConfigFile u f).
Proof.
  apply safe_extern, safe_bind; [apply safe_gets|].
  intros d. destruct (_ !! _); [|apply safe_ret].
  apply safe_bind; [apply safe_modify|]. intros _. apply safe_ret.
Qed.

Lemma safe_UpdateServiceMember old new : safe (UpdateServiceMember old new).
Proof.
  apply safe_extern, safe_bind; [apply safe_gets|].
  intros d. destruct (casMember _ _ _); [|apply safe_ret].
  apply safe_bind; [apply safe_modify|]. intros _. apply safe_ret.
Qed.

Lemma safe_RestartService c n r : safe (RestartService c n r).
Proof. apply safe_extern, safe_ret. Qed.

Lemma safe_svc_SetServiceInitialized c n : safe (svc_SetServiceInitialized c n).
Proof.
  apply safe_extern, safe_bind; [apply safe_gets|].
  intros d. destruct (_ !! _); [|apply safe_ret].
  destruct (_ !! _); [|apply safe_ret].
  destruct (ServiceAttr.ServiceStatus _); try apply safe_ret;
    (apply safe_bind; [apply safe_modify|]; intros _; apply safe_ret).
Qed.

Lemma safe_UpdateTaskStatusMsg u m : safe (UpdateTaskStatusMsg u m).
Proof. apply safe_modify. Qed.

Lemma safe_setServiceInitialized s name : safe (setServiceInitialized s name).
Proof.
  apply safe_bind; [apply safe_svc_SetServiceInitialized|].
  intros r. apply safe_match_http. intros _. apply safe_ret.
Qed.

Lemma CopyMemberConfigs_id (l : list MemberConfig.t) : CopyMemberConfigs l = l.
Proof.
  unfold CopyMemberConfigs. induction l as [|[] l IH]; [done|].
  rewrite fmap_cons. simpl. by f_equal.
Qed.

Lemma index_lookup {A} (l : list A) (i : nat) a w :
  l !! i = Some a → index l (Z.of_nat i) w = (Done a, w).
Proof.
  intros E. unfold index. rewrite bool_decide_eq_true_2 by lia.
  by rewrite Nat2Z.id, E.
Qed.

Lemma index_world {A} (l : list A) i w o w' : index l i w = (o, w') → w' = w.
Proof.
  unfold index. case_bool_decide; [destruct (_ !! _)|]; by intros [=].
Qed.

Lemma index_head {A} (a : A) (l : list A) w : index (a :: l) 0 w = (Done a, w).
Proof. reflexivity. Qed.

Lemma index_nil {A} (i : Z) w : index (@nil A) i w = (Panicked IndexOutOfRange, w).
Proof. unfold index. case_bool_decide; [|done]. by rewrite lookup_nil. Qed.

(** [updateMemberConfig] on a slot the member has never panics. *)
Lemma safe_updateMemberConfig member cfgfile (i : nat) c newContent :
  ServiceMember.Configs member !! i = Some c →
  safe (updateMemberConfig member cfgfile (Z.of_nat i) newContent).
Proof.
  intros Hi. unfold updateMemberConfig.
  destruct (GetConfigFileVersion _); [|apply safe_ret].
  apply safe_bind; [apply safe_CreateConfigFile|].
  intros r. apply safe_match_res. intros cf.
  rewrite CopyMemberConfigs_id.
  intros w. unfold bind at 1. rewrite (index_lookup _ _ _ _ Hi).
  revert w. apply safe_bind; [apply safe_UpdateServiceMember|].
  intros r'. apply safe_match_res. intros _.
  apply safe_bind; [apply safe_DeleteConfigFile|]. intros _. apply safe_ret.
Qed.

End Facts.

(** ** Requests for another cluster or region *)

Section Rejected.
Context `{Catalog}.
Variable s : ManageHTTPServer.

Lemma mismatch_check cl rg :
  mismatch s cl rg →
  bool_decide (cl ≠ cluster s) || bool_decide (rg ≠ region s) = true.
Proof.
  intros [Hc|Hr].
  - by rewrite (bool_decide_eq_true_2 _ Hc).
  - rewrite (bool_decide_eq_true_2 _ Hr). apply orb_true_r.
Qed.

Lemma mismatch_foreign svc :
  mismatch s (ServiceCommonRequest.Cluster svc) (ServiceCommonRequest.Region svc) →
  foreign s svc = true.
Proof. apply mismatch_check. Qed.

Lemma matching_check cl rg :
  cl = cluster s → rg = region s →
  bool_decide (cl ≠ cluster s) || bool_decide (rg ≠ region s) = false.
Proof.
  intros -> ->. by rewrite !bool_decide_eq_false_2 by (intros E; by apply E).
Qed.

End Rejected.

(** C7, as the code has it.  Every handler that decodes a request body
    answers a request whose cluster or region is not the server's with
    BadRequest, and leaves the world as it was: no call to the DB, the DNS
    or the container platform is made, nothing is stored and nothing is
    written to the response.  That is for a body that decodes to a request
    and, where the request type has the field, to one with its [Service].
    No handler checks either pointer: on the body null, and on a body
    without [Service], the cluster and region check is itself a nil
    dereference.  The world is as it was then too, but the handler panics
    and does not answer BadRequest.  [setServiceInitialized] of [server.go]
    unmarshals into the struct it allocated: the body null leaves the
    cluster and the region empty, and is answered with BadRequest by a
    server whose cluster or region is not empty. *)
Theorem foreign_request_rejected `{Catalog} (s : ManageHTTPServer) (w : World) :
  let foreignSvc svc :=
    mismatch s (ServiceCommonRequest.Cluster svc) (ServiceCommonRequest.Region svc) in
  let panics : outcome (string * Z) * World := (Panicked NilDereference, w) in
  let nilS {A} (h : decodedS A → M (string * Z)) :=
    h NilRequestS w = panics ∧ h NilServiceS w = panics in
  (* server.go *)
  (∀ req name, foreignSvc (CreateServiceRequest.Service req) →
     Server.createService s (DecodedS req) name w = (Done BadRequest, w))
  ∧ (∀ req name, foreignSvc req →
     Server.deleteService s (Decoded req) name w = (Done BadRequest, w))
  ∧ (∀ req, mismatch s (ListServiceRequest.Cluster req) (ListServiceRequest.Region req) →
     Server.listServices s (Decoded req) w = (Done BadRequest, w))
  ∧ (∀ req, foreignSvc (ListVolumeRequest.Service req) →
     Server.listVolumes s (DecodedS req) w = (Done BadRequest, w))
  ∧ (∀ req name, foreignSvc req →
     Server.getServiceAttr s (Decoded req) name w = (Done BadRequest, w))
  ∧ (∀ req, foreignSvc req →
     Server.getServiceStatus s (Decoded req) w = (Done BadRequest, w))
  ∧ (∀ req, foreignSvc (RunTaskRequest.Service req) →
     Server.runTask s (DecodedS req) w = (Done BadRequest, w))
  ∧ (∀ req, foreignSvc (GetTaskStatusRequest.Service req) →
     Server.getTaskStatus s (DecodedS req) w = (Done BadRequest, w))
  ∧ (∀ req, foreignSvc (DeleteTaskRequest.Service req) →
     Server.deleteTask s (DecodedS req) w = (Done BadRequest, w))
  ∧ (∀ req, foreignSvc req →
     Server.setServiceInitialized s (Some req) w = (Done BadRequest, w))
  (* catalogservice.go *)
  ∧ (∀ req, foreignSvc (CatalogCheckServiceInitRequest.Service req) →
     getCatalogServiceOp s (DecodedS req) w = (Done BadRequest, w))
  ∧ (∀ req, mismatch s (CatalogSetServiceInitRequest.Cluster req)
                       (CatalogSetServiceInitRequest.Region req) →
     catalogSetServiceInit s (Decoded req) w = (Done BadRequest, w))
  ∧ (∀ req, mismatch s (CatalogSetRedisInitRequest.Cluster req)
                       (CatalogSetRedisInitRequest.Region req) →
     setRedisInit s (Decoded req) w = (Done BadRequest, w))
  ∧ (∀ req, foreignSvc (CatalogCreateRequest.Service req) →
     createMongoDBService s (DecodedS req) w = (Done BadRequest, w))
  ∧ (∀ req, foreignSvc (CatalogCreateRequest.Service req) →
     createPGService s (DecodedS req) w = (Done BadRequest, w))
  ∧ (∀ req, foreignSvc (CatalogCreateRequest.Service req) →
     createCasService s (DecodedS req) w = (Done BadRequest, w))
  ∧ (∀ req, foreignSvc (CatalogCreateRequest.Service req) →
     createZkService s (DecodedS req) w = (Done BadRequest, w))
  ∧ (∀ req, foreignSvc (CatalogCreateRequest.Service req) →
     createKafkaService s (DecodedS req) w = (Done BadRequest, w))
  ∧ (∀ req, foreignSvc (CatalogCreateRequest.Service req) →
     createRedisService s (DecodedS req) w = (Done BadRequest, w))
  ∧ (∀ req, foreignSvc (CatalogCreateRequest.Service req) →
     createCouchDBService s (DecodedS req) w = (Done BadRequest, w))
  ∧ (∀ req, foreignSvc (CatalogCreateRequest.Service req) →
     createConsulService s (DecodedS req) w = (Done BadRequest, w))
  ∧ (∀ req, foreignSvc (CatalogCreateRequest.Service req) →
     createElasticSearchService s (DecodedS req) w = (Done BadRequest, w))
  ∧ (∀ req, foreignSvc (CatalogCreateRequest.Service req) →
     createKibanaService s (DecodedS req) w = (Done BadRequest, w))
  ∧ (∀ req, foreignSvc (CatalogCreateRequest.Service req) →
     createLogstashService s (DecodedS req) w = (Done BadRequest, w))
  (* the body null, and a body without Service: server.go *)
  ∧ (∀ name, nilS (λ body, Server.createService s body name))
  ∧ (∀ name, Server.deleteService s NilRequest name w = panics)
  ∧ Server.listServices s NilRequest w = panics
  ∧ nilS (Server.listVolumes s)
  ∧ (∀ name, Server.getServiceAttr s NilRequest name w = panics)
  ∧ Server.getServiceStatus s NilRequest w = panics
  ∧ nilS (Server.runTask s)
  ∧ nilS (Server.getTaskStatus s)
  ∧ nilS (Server.deleteTask s)
  ∧ (mismatch s "" "" →
     Server.setServiceInitialized s (unmarshalled NilRequest) w = (Done BadRequest, w))
  (* catalogservice.go *)
  ∧ nilS (getCatalogServiceOp s)
  ∧ catalogSetServiceInit s NilRequest w = panics
  ∧ setRedisInit s NilRequest w = panics
  ∧ nilS (createMongoDBService s)
  ∧ nilS (createPGService s)
  ∧ nilS (createCasService s)
  ∧ nilS (createZkService s)
  ∧ nilS (createKafkaService s)
  ∧ nilS (createRedisService s)
  ∧ nilS (createCouchDBService s)
  ∧ nilS (createConsulService s)
  ∧ nilS (createElasticSearchService s)
  ∧ nilS (createKibanaService s)
  ∧ nilS (createLogstashService s).
Proof.
  intros foreignSvc panics nilS. subst foreignSvc panics nilS. cbv beta.
  repeat split; intros; try reflexivity.
  all: try (match goal with Hm : mismatch _ _ _ |- _ =>
              unfold Server.createService, Server.deleteService, Server.listServices,
                Server.listVolumes, Server.getServiceAttr, Server.getServiceStatus,
                Server.runTask, Server.getTaskStatus, Server.deleteTask,
                Server.setServiceInitialized, unmarshalled, getCatalogServiceOp,
                catalogSetServiceInit, setRedisInit, createMongoDBService, createPGService,
                createCasService, createZkService, createKafkaService, createRedisService,
                createCouchDBService, createConsulService, createElasticSearchService,
                createKibanaService, createLogstashService, createValidated;
              cbn [ServiceCommonRequest.Cluster ServiceCommonRequest.Region];
              first [ rewrite (mismatch_foreign _ _ Hm)
                    | rewrite (mismatch_check _ _ _ Hm) ];
              reflexivity
            end).
Qed.

Section RejectedDemo.
#[local] Existing Instance Demo.catalog.

(** C7 as stated fails on a body that carries no cluster and no region.
    The body {} decodes, and the handlers that read a flat request find
    the empty cluster and answer BadRequest; the check-init request holds
    its cluster behind the pointer [Service], which that body leaves nil,
    and the handler panics at the check.  So does every handler but
    [setServiceInitialized] on the body null, as the create of [server.go]
    here.  No call is made in either case. *)
Lemma body_without_cluster_is_not_rejected :
  let w := Demo.emptyWorld in
  Server.getServiceStatus Demo.server (Decoded (ServiceCommonRequest.mk "" "" "")) w
  = (Done BadRequest, w)
  ∧ getCatalogServiceOp Demo.server NilServiceS w = (Panicked NilDereference, w)
  ∧ getCatalogServiceOp Demo.server NilServiceS w ≠ (Done BadRequest, w)
  ∧ Server.createService Demo.server NilRequestS "svc1" w = (Panicked NilDereference, w)
  ∧ Server.createService Demo.server NilRequestS "svc1" w ≠ (Done BadRequest, w).
Proof. vm_compute. repeat split; discriminate. Qed.

End RejectedDemo.

(** ** Panics *)

Section Panics.
Context `{Catalog}.
Variable s : ManageHTTPServer.

Lemma safe_createRedisClusterFile member cfg : safe (createRedisClusterFile member cfg).
Proof.
  unfold createRedisClusterFile. destruct (findClusterInfo _).
  - case_bool_decide; apply safe_ret.
  - apply safe_bind; [apply safe_CreateConfigFile|].
    intros r. apply safe_match_res. intros cf.
    apply safe_bind; [apply safe_UpdateServiceMember|].
    intros r'. apply safe_match_res. intros _. apply safe_ret.
Qed.

Lemma safe_updateRedisConfigs cfg (i : nat) c member :
  ServiceMember.Configs member !! i = Some c →
  safe (updateRedisConfigs cfg (Z.of_nat i) member).
Proof.
  intros Hi. apply safe_bind; [apply safe_GetConfigFile|].
  intros r. apply safe_match_res. intros cf.
  destruct (_ && _); [apply safe_ret|].
  by eapply safe_updateMemberConfig.
Qed.

(** The loop over the slots hands [updateRedisConfigs] the index of the
    slot it is at. *)
Lemma safe_redisConfigsLoop member (i : nat) cfgs :
  (∀ j c, cfgs !! j = Some c → ServiceMember.Configs member !! (i + j)%nat = Some c) →
  safe (redisConfigsLoop member i cfgs).
Proof.
  revert i. induction cfgs as [|cfg rest IH]; intros i Hsuf; simpl.
  - apply safe_ret.
  - destruct (negb _).
    + apply IH. intros j c Hj. specialize (Hsuf (S j) c Hj).
      by replace (S i + j)%nat with (i + S j)%nat by lia.
    + apply (safe_updateRedisConfigs _ _ cfg).
      specialize (Hsuf 0%nat cfg eq_refl). by rewrite Nat.add_0_r in Hsuf.
Qed.

Lemma safe_redisMembersLoop cfg members : safe (redisMembersLoop cfg members).
Proof.
  induction members as [|m rest IH]; simpl; [apply safe_ret|].
  apply safe_bind; [apply safe_createRedisClusterFile|].
  intros r. apply safe_match_res. intros newMember.
  apply safe_bind; [by apply safe_redisConfigsLoop|].
  intros r'. apply safe_match_res. intros _. apply IH.
Qed.

Lemma findBasicConfig_none (i : nat) cfgs :
  Forall (λ c, IsBasicConfigFile (MemberConfig.FileName c) = false) cfgs →
  findBasicConfig i cfgs = (None, (-1)%Z).
Proof.
  intros Hall. revert i. induction Hall as [|c rest Hc _ IH]; intros i; simpl; [done|].
  by rewrite Hc.
Qed.

Lemma findBasicConfig_some (i : nat) pre c post :
  Forall (λ c, IsBasicConfigFile (MemberConfig.FileName c) = false) pre →
  IsBasicConfigFile (MemberConfig.FileName c) = true →
  findBasicConfig i (pre ++ c :: post) = (Some c, Z.of_nat (i + length pre)).
Proof.
  intros Hpre Hc. revert i. induction Hpre as [|c' rest Hc' _ IH]; intros i; simpl.
  - by rewrite Hc, Nat.add_0_r.
  - rewrite Hc', IH. do 2 f_equal. lia.
Qed.

(** C9.  [setRedisInit] reads [req.NodeIds[0]] right after the
    cluster/region check and before its first outgoing call.  With an
    empty NodeIds the handler panics with an index out of range, the world
    untouched: no call was made, and the answer is not BadRequest.  With a
    non-empty NodeIds it returns normally, whatever the collaborators
    answer. *)
Theorem setRedisInit_reads_first_node_id :
  (∀ req w,
     CatalogSetRedisInitRequest.Cluster req = cluster s →
     CatalogSetRedisInitRequest.Region req = region s →
     CatalogSetRedisInitRequest.NodeIds req = [] →
     setRedisInit s (Decoded req) w = (Panicked IndexOutOfRange, w)
     ∧ fst (setRedisInit s (Decoded req) w) ≠ Done BadRequest)
  ∧ (∀ req w,
     CatalogSetRedisInitRequest.Cluster req = cluster s →
     CatalogSetRedisInitRequest.Region req = region s →
     CatalogSetRedisInitRequest.NodeIds req ≠ [] →
     ∃ r, fst (setRedisInit s (Decoded req) w) = Done r).
Proof.
  split.
  - intros req w Hc Hr Hids. unfold setRedisInit.
    rewrite (matching_check _ _ _ Hc Hr), Hids.
    unfold bind at 1. rewrite index_nil. by split.
  - intros req w Hc Hr Hids. unfold setRedisInit.
    rewrite (matching_check _ _ _ Hc Hr).
    destruct (CatalogSetRedisInitRequest.NodeIds req) as [|id ids] eqn:E; [done|].
    unfold bind at 1.
    change (index (id :: ids) 0 w) with (Done id, w).
    revert w. apply safe_bind; [apply safe_GetService|].
    intros r1. apply safe_match_http. intros service.
    apply safe_bind; [apply safe_GetServiceAttr|].
    intros r2. apply safe_match_http. intros attr.
    apply safe_bind; [apply safe_ListServiceMembers|].
    intros r3. apply safe_match_http. intros members.
    apply safe_bind; [apply safe_UpdateTaskStatusMsg|]. intros _.
    apply safe_bind; [apply safe_redisMembersLoop|].
    intros r4. apply safe_match_http. intros _.
    apply safe_bind; [apply safe_UpdateTaskStatusMsg|]. intros _.
    apply safe_bind; [apply safe_RestartService|].
    intros r5. apply safe_match_http. intros _.
    apply safe_setServiceInitialized.
Qed.

(** C10.  [updateConsulMemberConfig] dereferences the slot it found.  On a
    member none of whose slots is a basic-config file the search ends with
    [cfg = nil] and [cfgIndex = -1], and the function panics on
    [cfg.FileID] before any call; so does its caller at the first such
    member.  On a member with a basic-config slot the first one is taken
    and the function returns normally. *)
Theorem updateConsulMemberConfig_needs_basic_config :
  (∀ member memberips w,
     Forall (λ c, IsBasicConfigFile (MemberConfig.FileName c) = false)
            (ServiceMember.Configs member) →
     findBasicConfig 0 (ServiceMember.Configs member) = (None, (-1)%Z)
     ∧ updateConsulMemberConfig member memberips w = (Panicked NilDereference, w))
  ∧ (∀ member memberips w pre c post,
     ServiceMember.Configs member = pre ++ c :: post →
     Forall (λ c, IsBasicConfigFile (MemberConfig.FileName c) = false) pre →
     IsBasicConfigFile (MemberConfig.FileName c) = true →
     findBasicConfig 0 (ServiceMember.Configs member) = (Some c, Z.of_nat (length pre))
     ∧ ∃ r, fst (updateConsulMemberConfig member memberips w) = Done r)
  ∧ (∀ serviceUUID domain w member rest,
     ListServiceMembers serviceUUID w
       = (Done (Success (member :: rest)), called (DBListServiceMembers serviceUUID) w) →
     Forall (λ c, IsBasicConfigFile (MemberConfig.FileName c) = false)
            (ServiceMember.Configs member) →
     updateConsulConfigs serviceUUID domain w
       = (Panicked NilDereference, called (DBListServiceMembers serviceUUID) w)).
Proof.
  split; [|split].
  - intros member ips w Hall. split; [by apply findBasicConfig_none|].
    unfold updateConsulMemberConfig. by rewrite (findBasicConfig_none _ _ Hall).
  - intros member ips w pre c post Hcfgs Hpre Hc.
    rewrite Hcfgs, (findBasicConfig_some 0 _ _ _ Hpre Hc). split; [done|].
    unfold updateConsulMemberConfig.
    rewrite Hcfgs, (findBasicConfig_some 0 _ _ _ Hpre Hc). simpl.
    revert w. apply safe_bind; [apply safe_ret|]. intros c'.
    apply safe_bind; [apply safe_GetConfigFile|].
    intros r. apply safe_match_res. intros cf.
    apply (safe_updateMemberConfig _ _ _ c).
    rewrite Hcfgs. by apply list_lookup_middle.
  - intros uuid domain w member rest Hlist Hall.
    unfold updateConsulConfigs. rewrite (bind_done _ _ _ _ _ Hlist). simpl.
    unfold bind at 1. unfold bind at 1. unfold updateConsulMemberConfig.
    by rewrite (findBasicConfig_none _ _ Hall).
Qed.

End Panics.

(** ** What the collaborators' answers say about the world *)

Section Answers.
Context `{Catalog}.

Lemma respond_respond a b w : respond b (respond a w) = respond (a ++ b) w.
Proof. destruct w. unfold respond, set_resp. simpl. by rewrite app_assoc. Qed.

Lemma GetService_success c n w svc w1 :
  GetService c n w = (Done (Success svc), w1) →
  w1 = called (DBGetService c n) w ∧ services (db w) !! (c, n) = Some svc.
Proof.
  unfold GetService. rewrite extern_eq. destruct (nextFault w); [intros [=]|].
  unfold bind, gets, ret. simpl. destruct (_ !! _); intros [=]; by subst.
Qed.

Lemma GetServiceAttr_success u w a w1 :
  GetServiceAttr u w = (Done (Success a), w1) →
  w1 = called (DBGetServiceAttr u) w ∧ attrs (db w) !! u = Some a.
Proof.
  unfold GetServiceAttr. rewrite extern_eq. destruct (nextFault w); [intros [=]|].
  unfold bind, gets, ret. simpl. destruct (_ !! _); intros [=]; by subst.
Qed.

Lemma ListServiceMembers_success u w l w1 :
  ListServiceMembers u w = (Done (Success l), w1) →
  w1 = called (DBListServiceMembers u) w ∧ l = listMembers (db w) u.
Proof.
  unfold ListServiceMembers. rewrite extern_eq. destruct (nextFault w); [intros [=]|].
  unfold bind, gets, ret. simpl. intros [=]; by subst.
Qed.

Lemma GetConfigFile_success u f w cf w1 :
  GetConfigFile u f w = (Done (Success cf), w1) →
  w1 = called (DBGetConfigFile u f) w ∧ cfgfiles (db w) !! (u, f) = Some cf.
Proof.
  unfold GetConfigFile. rewrite extern_eq. destruct (nextFault w); [intros [=]|].
  unfold bind, gets, ret. simpl. destruct (_ !! _); intros [=]; by subst.
Qed.

Lemma svc_SetServiceInitialized_success c n w w1 :
  svc_SetServiceInitialized c n w = (Done (Success tt), w1) →
  ∃ svc a,
    services (db w) !! (c, n) = Some svc
    ∧ attrs (db w) !! Service.ServiceUUID svc = Some a
    ∧ w1 = set_db (set_attrs <[Service.ServiceUUID svc := setStatus ServiceStatusActive a]>)
                  (called (SvcSetServiceInitialized c n) w).
Proof.
  unfold svc_SetServiceInitialized. rewrite extern_eq.
  destruct (nextFault w); [intros [=]|].
  unfold bind, gets, ret, modify. simpl.
  destruct (services (db w) !! (c, n)) as [svc|] eqn:Es; [|intros [=]].
  destruct (attrs (db w) !! Service.ServiceUUID svc) as [a|] eqn:Ea; [|intros [=]].
  destruct (ServiceAttr.ServiceStatus a); intros [=]; subst; eauto.
Qed.

Lemma hasInitTask_eq uuid w :
  hasInitTask uuid w =
  (Done (match initTasks w !! uuid with
         | Some task => (true, serviceTask.statusMessage task)
         | None => (false, "")
         end), w).
Proof. unfold hasInitTask, bind, gets, ret. by destruct (_ !! _). Qed.

Lemma write_response {A} code body (r : A) w :
  (w_WriteHeader code ;;; w_Write body ;;; ret r) w
  = (Done r, respond [WriteHeader code; Write body] w).
Proof.
  unfold bind, w_WriteHeader, w_Write, modify, ret. by rewrite respond_respond.
Qed.

End Answers.

(** ** CheckServiceInit *)

Section CheckServiceInit.
Context `{Catalog}.
Variable s : ManageHTTPServer.

(** C1.  CheckServiceInit is tri-state.  For a request of the server's
    cluster and region whose service resolves: with a live init task the
    answer is 200 with {initialized: false, statusMessage: the task's
    message}, and the service attributes are not even read; with no task
    and status ACTIVE it is 200 with {initialized: true, statusMessage:
    empty}; with no task and a status that is neither ACTIVE nor
    INITIALIZING it is BadRequest and nothing is written. *)
Theorem check_service_init_tristate req w w1 service :
  let svc := CatalogCheckServiceInitRequest.Service req in
  let uuid := Service.ServiceUUID service in
  ServiceCommonRequest.Cluster svc = cluster s →
  ServiceCommonRequest.Region svc = region s →
  GetService (cluster s) (ServiceCommonRequest.ServiceName svc) w
    = (Done (Success service), w1) →
  (∀ task, initTasks w1 !! uuid = Some task →
     getCatalogServiceOp s (DecodedS req) w
       = (Done ("", StatusOK),
          respond (checkInitResponse false (serviceTask.statusMessage task)) w1))
  ∧ (initTasks w1 !! uuid = None →
     ∀ attr w2, GetServiceAttr uuid w1 = (Done (Success attr), w2) →
       (ServiceAttr.ServiceStatus attr = ServiceStatusActive →
          getCatalogServiceOp s (DecodedS req) w
            = (Done ("", StatusOK), respond (checkInitResponse true "") w2))
       ∧ (ServiceAttr.ServiceStatus attr ≠ ServiceStatusActive →
          ServiceAttr.ServiceStatus attr ≠ ServiceStatusInitializing →
          getCatalogServiceOp s (DecodedS req) w = (Done BadRequest, w2))).
Proof.
  intros svc uuid Hc Hr Hget. subst svc uuid.
  unfold getCatalogServiceOp. rewrite (matching_check _ _ _ Hc Hr).
  rewrite (bind_done _ _ _ _ _ Hget).
  rewrite (bind_done _ _ _ _ _ (hasInitTask_eq _ _)).
  split.
  - intros task Htask. rewrite Htask.
    rewrite bind_ret. apply write_response.
  - intros Hnone attr w2 Hattr. rewrite Hnone.
    unfold checkInitialized.
    rewrite bind_assoc, (bind_done _ _ _ _ _ Hattr).
    split.
    + intros ->. rewrite bind_ret. apply write_response.
    + intros Hna Hni.
      destruct (ServiceAttr.ServiceStatus attr); done.
Qed.

Lemma setInitialized_flow name w :
  (r <- setServiceInitialized s name ;;
   if bool_decide (snd r ≠ StatusOK) then ret (Return r) else ret (Next true)) w
  = match svc_SetServiceInitialized (cluster s) name w with
    | (Done (Success _), w') => (Done (Next true), w')
    | (Done (Failure e), w') => (Done (Return (ConvertToHTTPError e)), w')
    | (Panicked p, w') => (Panicked p, w')
    end.
Proof.
  unfold setServiceInitialized. rewrite bind_assoc. unfold bind at 1.
  destruct (svc_SetServiceInitialized _ _ _) as [[[[]|e]|p] w']; try done.
  rewrite bind_ret. by destruct e.
Qed.

Lemma resumeInit_noInit req attr w :
  noInitType (CatalogCheckServiceInitRequest.ServiceType req) →
  resumeInit s req attr w
  = match svc_SetServiceInitialized (cluster s)
            (ServiceCommonRequest.ServiceName (CatalogCheckServiceInitRequest.Service req)) w with
    | (Done (Success _), w') => (Done (Next true), w')
    | (Done (Failure e), w') => (Done (Return (ConvertToHTTPError e)), w')
    | (Panicked p, w') => (Panicked p, w')
    end.
Proof.
  intros Hty. rewrite <- setInitialized_flow. unfold resumeInit.
  destruct Hty as [->| [->| ->]]; reflexivity.
Qed.

Lemma addInitTask_fresh task w :
  initTasks w !! serviceTask.serviceUUID task = None →
  addInitTask task w = (Done tt, set_initTasks <[serviceTask.serviceUUID task := task]> w).
Proof. intros E. unfold addInitTask, modify, set_initTasks. by rewrite E. Qed.


End CheckServiceInit.

(** ** The trace of a computation *)

Section Traces.
Context `{Catalog}.

Lemma nextFault_faultAt w : nextFault w = faultAt w 0.
Proof. unfold nextFault, faultAt. by destruct (faults w). Qed.

Lemma emits_quiet {A} (P : outcome A → list Event → Prop) (m : M A) :
  (∀ o, P o []) → quiet m → emits P m.
Proof.
  intros HP Hq w. destruct (Hq w) as (Ht & Hf & Hr & Ha).
  exists []. by rewrite app_nil_r.
Qed.

Lemma emits_ret {A} (P : outcome A → list Event → Prop) (a : A) :
  P (Done a) [] → emits P (ret a).
Proof. intros HP w. exists []. by rewrite app_nil_r. Qed.

Lemma emits_weaken {A} (P Q : outcome A → list Event → Prop) (m : M A) :
  (∀ o t, P o t → Q o t) → emits P m → emits Q m.
Proof.
  intros HPQ Hm w. destruct (Hm w) as (t & ? & ? & ? & ? & ?).
  exists t. eauto 10.
Qed.

Lemma emits_bind {A B} (P : outcome A → list Event → Prop)
  (Q : A → outcome B → list Event → Prop) (R : outcome B → list Event → Prop)
  (m : M A) (k : A → M B) :
  emits P m →
  (∀ a t1, P (Done a) t1 → emits (Q a) (k a)) →
  (∀ p t1, P (Panicked p) t1 → R (Panicked p) t1) →
  (∀ a t1 o t2, P (Done a) t1 → Q a o t2 → R o (t1 ++ t2)) →
  emits R (bind m k).
Proof.
  intros Hm Hk HR1 HR2 w. unfold bind.
  destruct (Hm w) as (t1 & Ht1 & Hf1 & HP & Hr1 & Ha1).
  destruct (m w) as [[a|p] w1]; simpl in *.
  - destruct (Hk a t1 HP w1) as (t2 & Ht2 & Hf2 & HQ & Hr2 & Ha2).
    exists (t1 ++ t2). rewrite Ht2, Ht1, Hf2, Hf1, Hr2, Ha2, app_assoc.
    rewrite drop_drop, length_app. eauto 10.
  - exists t1. eauto 10.
Qed.

Lemma emits_extern {A} ev (op : M (res A)) :
  quiet op → emits (λ _ t, t = [ev]) (extern ev op).
Proof.
  intros Hq w. exists [ev]. rewrite extern_eq.
  destruct (nextFault w); simpl; [done|].
  destruct (Hq (called ev w)) as (-> & -> & -> & ->). done.
Qed.

Ltac quiet_op :=
  intros ?; unfold bind, gets, ret, modify; simpl;
  repeat (case_match; simpl); done.

Lemma emits_GetConfigFile u f :
  emits (λ _ t, t = [DBGetConfigFile u f]) (GetConfigFile u f).
Proof. apply emits_extern. quiet_op. Qed.

Lemma emits_CreateConfigFile cf :
  emits (λ _ t, t = [DBCreateConfigFile cf]) (CreateConfigFile cf).
Proof. apply emits_extern. quiet_op. Qed.

Lemma emits_DeleteConfigFile u f :
  emits (λ _ t, t = [DBDeleteConfigFile u f]) (DeleteConfigFile u f).
Proof. apply emits_extern. quiet_op. Qed.

Lemma emits_UpdateServiceMember old new :
  emits (λ _ t, t = [DBUpdateServiceMember old new]) (UpdateServiceMember old new).
Proof. apply emits_extern. quiet_op. Qed.

Lemma emits_IsServiceExist c n :
  emits (λ _ t, t = [CsIsServiceExist c n]) (IsServiceExist c n).
Proof. apply emits_extern. quiet_op. Qed.

Lemma emits_cs_CreateService o :
  emits (λ _ t, t = [CsCreateService o]) (cs_CreateService o).
Proof. apply emits_extern. quiet_op. Qed.

Lemma quiet_index {A} (l : list A) i : quiet (index l i).
Proof.
  intros w. unfold index. case_bool_decide; [|done]. by destruct (_ !! _).
Qed.

Lemma updatedMembers_app t1 t2 :
  updatedMembers (t1 ++ t2) = updatedMembers t1 ++ updatedMembers t2.
Proof.
  induction t1 as [|ev t1 IH]; [done|]. destruct ev; simpl; by rewrite ?IH.
Qed.

Lemma configTrace_nil names : configTrace names [].
Proof. split; [constructor|apply sublist_nil_l]. Qed.

Lemma configTrace_app n1 n2 t1 t2 :
  configTrace n1 t1 → configTrace n2 t2 → configTrace (n1 ++ n2) (t1 ++ t2).
Proof.
  intros [F1 S1] [F2 S2]. split; [by apply Forall_app|].
  rewrite updatedMembers_app. by apply sublist_app.
Qed.

Lemma configTrace_weaken n n' t : n `sublist_of` n' → configTrace n t → configTrace n' t.
Proof. intros Hn [F S]. split; [done|]. by etrans. Qed.

Lemma configTrace_read n ev :
  configEvent ev → updatedMembers [ev] = [] → configTrace n [ev].
Proof.
  intros Hev Hup. split; [by repeat constructor|]. rewrite Hup. apply sublist_nil_l.
Qed.

(** Sequencing two computations of the config store. *)
Lemma emits_config_bind {A B} n1 n2 (m : M A) (k : A → M B) :
  emits (λ _, configTrace n1) m →
  (∀ a, emits (λ _, configTrace n2) (k a)) →
  emits (λ _, configTrace (n1 ++ n2)) (bind m k).
Proof.
  intros Hm Hk.
  apply (emits_bind (λ _, configTrace n1) (λ _ _, configTrace n2) _ _ _ Hm).
  - intros a _ _. apply Hk.
  - intros _ t1 Ht1. eapply configTrace_weaken; [|exact Ht1].
    by apply sublist_inserts_r.
  - intros _ t1 _ t2. apply configTrace_app.
Qed.

Lemma emits_config_weaken {A} n n' (m : M A) :
  n `sublist_of` n' → emits (λ _, configTrace n) m → emits (λ _, configTrace n') m.
Proof.
  intros Hn. apply emits_weaken. intros _ t. by apply configTrace_weaken.
Qed.

Lemma emits_config_ret {A} n (a : A) : emits (λ _, configTrace n) (ret a).
Proof. apply emits_ret, configTrace_nil. Qed.

Lemma emits_config_res {A B} n (r : res A) (k : A → M (res B)) :
  (∀ a, emits (λ _, configTrace n) (k a)) →
  emits (λ _, configTrace n)
        (match r with Success x => k x | Failure e => ret (Failure e) end).
Proof. intros Hk. destruct r; [apply Hk|apply emits_config_ret]. Qed.

Lemma config_GetConfigFile u f : emits (λ _, configTrace []) (GetConfigFile u f).
Proof.
  eapply emits_weaken; [|apply emits_GetConfigFile].
  intros _ t ->. by apply configTrace_read.
Qed.

Lemma config_CreateConfigFile cf : emits (λ _, configTrace []) (CreateConfigFile cf).
Proof.
  eapply emits_weaken; [|apply emits_CreateConfigFile].
  intros _ t ->. by apply configTrace_read.
Qed.

Lemma config_DeleteConfigFile u f : emits (λ _, configTrace []) (DeleteConfigFile u f).
Proof.
  eapply emits_weaken; [|apply emits_DeleteConfigFile].
  intros _ t ->. by apply configTrace_read.
Qed.

Lemma config_UpdateServiceMember old new :
  emits (λ _, configTrace [ServiceMember.MemberName old]) (UpdateServiceMember old new).
Proof.
  eapply emits_weaken; [|apply emits_UpdateServiceMember].
  intros _ t ->. split; [by repeat constructor|done].
Qed.

(** [updateMemberConfig] requests one update, of the member it is given. *)
Lemma config_updateMemberConfig member cfgfile i newContent :
  emits (λ _, configTrace [ServiceMember.MemberName member])
        (updateMemberConfig member cfgfile i newContent).
Proof.
  unfold updateMemberConfig.
  destruct (GetConfigFileVersion _); [|apply emits_config_ret].
  apply (emits_config_bind [] [_]); [apply config_CreateConfigFile|].
  intros r. apply emits_config_res. intros cf.
  apply (emits_config_bind [] [_]).
  { apply emits_quiet; [intros; apply configTrace_nil|apply quiet_index]. }
  intros c.
  apply (emits_config_bind [_] []); [apply config_UpdateServiceMember|].
  intros r'. apply emits_config_res. intros _.
  apply (emits_config_bind [] []); [apply config_DeleteConfigFile|].
  intros _. apply emits_config_ret.
Qed.

End Traces.

(** ** The config store *)

Section ConfigStore.
Context `{Catalog}.

Lemma add64_in_range (v : Z) :
  (- 2 ^ 63 ≤ v < 2 ^ 63 - 1)%Z → add64 v 1 = (v + 1)%Z.
Proof.
  intros Hv. unfold add64, wrap64.
  rewrite Z.mod_small by lia. lia.
Qed.

Lemma CreateConfigFile_success cf w created w1 :
  CreateConfigFile cf w = (Done (Success created), w1) →
  let key := (ConfigFile.ServiceUUID cf, ConfigFile.FileID cf) in
  (cfgfiles (db w) !! key = None
   ∧ created = cf
   ∧ w1 = set_db (set_cfgfiles <[key := cf]>) (called (DBCreateConfigFile cf) w))
  ∨ (cfgfiles (db w) !! key = Some created
     ∧ ConfigFile.FileMD5 created = ConfigFile.FileMD5 cf
     ∧ w1 = called (DBCreateConfigFile cf) w).
Proof.
  unfold CreateConfigFile. rewrite extern_eq. destruct (nextFault w); [intros [=]|].
  unfold bind, gets, ret, modify. simpl.
  destruct (cfgfiles (db w) !! _) as [curr|] eqn:E.
  - case_bool_decide; intros [=]; subst. right. eauto.
  - intros [=]; subst. left. eauto.
Qed.

Lemma DeleteConfigFile_run u f w :
  DeleteConfigFile u f w =
  match nextFault w, cfgfiles (db w) !! (u, f) with
  | Some e, _ => (Done (Failure e), called (DBDeleteConfigFile u f) w)
  | None, None => (Done (Failure ErrDBRecordNotFound), called (DBDeleteConfigFile u f) w)
  | None, Some _ =>
      (Done (Success tt),
       set_db (set_cfgfiles (delete (u, f))) (called (DBDeleteConfigFile u f) w))
  end.
Proof.
  unfold DeleteConfigFile. rewrite extern_eq. destruct (nextFault w); [done|].
  unfold bind, gets, ret, modify. simpl. by destruct (_ !! _).
Qed.

Lemma casMember_middle old new pre post :
  NoDup (ServiceMember.MemberName <$> (pre ++ old :: post)) →
  casMember old new (pre ++ old :: post) = Some (pre ++ new :: post).
Proof.
  induction pre as [|p pre IH]; simpl; intros Hnd.
  - by rewrite !bool_decide_eq_true_2.
  - apply NoDup_cons in Hnd as [Hp Hnd].
    rewrite bool_decide_eq_false_2.
    + by rewrite (IH Hnd).
    + intros E. apply Hp. rewrite E, fmap_app, fmap_cons. set_solver.
Qed.

Lemma UpdateServiceMember_success old new w w1 :
  UpdateServiceMember old new w = (Done (Success tt), w1) →
  ∃ l, casMember old new (listMembers (db w) (ServiceMember.ServiceUUID old)) = Some l
       ∧ members (db w1) = <[ServiceMember.ServiceUUID old := l]> (members (db w)).
Proof.
  unfold UpdateServiceMember. rewrite extern_eq. destruct (nextFault w); [intros [=]|].
  unfold bind, gets, ret, modify. simpl.
  destruct (casMember _ _ _) as [l|]; intros [=]; subst. eauto.
Qed.

(** The stored list of the service is [pre ++ m :: post], its member names
    distinct: a successful compare-and-swap of [m] puts the new image in
    its place. *)
Lemma UpdateServiceMember_middle uuid old new pre post w w1 :
  UpdateServiceMember old new w = (Done (Success tt), w1) →
  ServiceMember.ServiceUUID old = uuid →
  listMembers (db w) uuid = pre ++ old :: post →
  NoDup (ServiceMember.MemberName <$> (pre ++ old :: post)) →
  listMembers (db w1) uuid = pre ++ new :: post.
Proof.
  intros Hcas Hu Hl Hnd. apply UpdateServiceMember_success in Hcas as (l & Hc & Hm).
  rewrite Hu, Hl, (casMember_middle _ _ _ _ Hnd) in Hc. injection Hc as <-.
  unfold listMembers. by rewrite Hm, Hu, lookup_insert_eq.
Qed.

Lemma CreateConfigFile_called cf w created w1 :
  CreateConfigFile cf w = (Done (Success created), w1) →
  members (db w1) = members (db w) ∧ trace w1 = trace w ++ [DBCreateConfigFile cf].
Proof.
  intros E. by apply CreateConfigFile_success in E as [(_ & _ & ->)|(_ & _ & ->)].
Qed.

Lemma UpdateServiceMember_called old new w w1 :
  UpdateServiceMember old new w = (Done (Success tt), w1) →
  trace w1 = trace w ++ [DBUpdateServiceMember old new].
Proof.
  unfold UpdateServiceMember. rewrite extern_eq. destruct (nextFault w); [intros [=]|].
  unfold bind, gets, ret, modify. simpl.
  destruct (casMember _ _ _) as [l|]; intros [=]; by subst.
Qed.

(** C5.  [updateMemberConfig] on slot [i] of a member: it parses the
    version of the old file's id, asks the store to create the file with
    the id of version + 1, the new content and its MD5, and hands the
    compare-and-swap update the member as it was and the member whose slot
    [i] keeps its file name and holds the id and the MD5 of the file the
    store returned, every other slot and field as before; in the DB the
    new member then stands where the old one stood.  Then it deletes the
    old file.  Whatever the delete answers, the result is success: a failed
    delete leaves the old file behind and nothing else.  When the new id is
    free the file created is the requested one. *)
Theorem updateMemberConfig_writes_next_version
  member cfgfile (i : nat) c newContent version w created w1 w2 :
  let newFileID :=
    GenMemberConfigFileID (ServiceMember.MemberName member)
                          (ConfigFile.FileName cfgfile) (version + 1) in
  let newcfgfile := UpdateConfigFile cfgfile newFileID newContent in
  let newSlot :=
    MemberConfig.mk (MemberConfig.FileName c) (ConfigFile.FileID created)
                    (ConfigFile.FileMD5 created) in
  let newMember :=
    UpdateServiceMemberConfigs member (<[i := newSlot]> (ServiceMember.Configs member)) in
  let uuid := ConfigFile.ServiceUUID cfgfile in
  let oldFileID := ConfigFile.FileID cfgfile in
  GetConfigFileVersion oldFileID = Success version →
  (- 2 ^ 63 ≤ version < 2 ^ 63 - 1)%Z →
  ServiceMember.Configs member !! i = Some c →
  CreateConfigFile newcfgfile w = (Done (Success created), w1) →
  UpdateServiceMember member newMember w1 = (Done (Success tt), w2) →
  (∀ o w3, DeleteConfigFile uuid oldFileID w2 = (Done o, w3) →
     updateMemberConfig member cfgfile (Z.of_nat i) newContent w = (Done (Success tt), w3))
  ∧ (∀ e, nextFault w2 = Some e →
     updateMemberConfig member cfgfile (Z.of_nat i) newContent w
       = (Done (Success tt), called (DBDeleteConfigFile uuid oldFileID) w2))
  ∧ (nextFault w2 = None → is_Some (cfgfiles (db w2) !! (uuid, oldFileID)) →
     updateMemberConfig member cfgfile (Z.of_nat i) newContent w
       = (Done (Success tt),
          set_db (set_cfgfiles (delete (uuid, oldFileID)))
                 (called (DBDeleteConfigFile uuid oldFileID) w2)))
  ∧ (cfgfiles (db w) !! (uuid, newFileID) = None →
     created = newcfgfile
     ∧ ConfigFile.FileID created = newFileID
     ∧ ConfigFile.FileMD5 created = GenMD5 newContent
     ∧ cfgfiles (db w1) !! (uuid, newFileID) = Some newcfgfile)
  (* the member handed to the compare-and-swap *)
  ∧ (ServiceMember.Configs newMember !! i = Some newSlot
     ∧ (∀ j, j ≠ i →
          ServiceMember.Configs newMember !! j = ServiceMember.Configs member !! j)
     ∧ ServiceMember.ServiceUUID newMember = ServiceMember.ServiceUUID member
     ∧ ServiceMember.MemberName newMember = ServiceMember.MemberName member
     ∧ ServiceMember.StaticIP newMember = ServiceMember.StaticIP member)
  ∧ trace w2 = trace w ++ [DBCreateConfigFile newcfgfile;
                           DBUpdateServiceMember member newMember]
  (* the member in the DB *)
  ∧ (∀ pre post,
       listMembers (db w) (ServiceMember.ServiceUUID member) = pre ++ member :: post →
       NoDup (ServiceMember.MemberName <$> (pre ++ member :: post)) →
       listMembers (db w2) (ServiceMember.ServiceUUID member) = pre ++ newMember :: post)
  ∧ (∀ o w3, DeleteConfigFile uuid oldFileID w2 = (Done o, w3) →
       members (db w3) = members (db w2)
       ∧ trace w3 = trace w2 ++ [DBDeleteConfigFile uuid oldFileID]).
Proof.
  intros newFileID newcfgfile newSlot newMember uuid oldFileID Hver Hrange Hi Hcreate Hcas.
  assert (Hrun : ∀ o w3, DeleteConfigFile uuid oldFileID w2 = (Done o, w3) →
     updateMemberConfig member cfgfile (Z.of_nat i) newContent w = (Done (Success tt), w3)).
  { intros o w3 Hdel. unfold updateMemberConfig.
    fold oldFileID. rewrite Hver, (add64_in_range _ Hrange).
    fold newFileID newcfgfile. rewrite (bind_done _ _ _ _ _ Hcreate).
    rewrite CopyMemberConfigs_id.
    rewrite (bind_done _ _ _ _ _ (index_lookup _ _ _ _ Hi)).
    rewrite Nat2Z.id. unfold setFile. fold newSlot newMember.
    rewrite (bind_done _ _ _ _ _ Hcas).
    fold uuid. by rewrite (bind_done _ _ _ _ _ Hdel). }
  pose proof (CreateConfigFile_called _ _ _ _ Hcreate) as [Hm1 Ht1].
  split; [exact Hrun|]. split; [|split; [|split; [|split; [|split; [|split]]]]].
  - intros e He. eapply Hrun. rewrite DeleteConfigFile_run, He. reflexivity.
  - intros Hnone [cf Hcf]. eapply Hrun.
    rewrite DeleteConfigFile_run, Hnone, Hcf. reflexivity.
  - intros Hfree. apply CreateConfigFile_success in Hcreate.
    destruct Hcreate as [(_ & -> & ->)|(Hsome & _)].
    + repeat split; try done. simpl. by rewrite lookup_insert_eq.
    + simpl in Hsome. fold uuid in Hsome. congruence.
  - split; [|split; [|done]].
    + simpl. apply list_lookup_insert_eq. by eapply lookup_lt_Some.
    + intros j Hj. simpl. by apply list_lookup_insert_ne.
  - by rewrite (UpdateServiceMember_called _ _ _ _ Hcas), Ht1, <- app_assoc.
  - intros pre post Hl Hnd.
    apply (UpdateServiceMember_middle _ member newMember pre post w1 w2 Hcas eq_refl);
      [|done].
    unfold listMembers in *. by rewrite Hm1.
  - intros o w3. rewrite DeleteConfigFile_run.
    destruct (nextFault w2); [|destruct (cfgfiles (db w2) !! (uuid, oldFileID))];
      intros [=]; by subst.
Qed.

End ConfigStore.

(** ** The mutators and their probes *)

Section Mutators.
Context `{Catalog}.

Lemma GetConfigFile_frame u f w cf w1 :
  GetConfigFile u f w = (Done (Success cf), w1) →
  db w1 = db w ∧ trace w1 = trace w ++ [DBGetConfigFile u f].
Proof. intros E. by apply GetConfigFile_success in E as [-> _]. Qed.

(** C3, as the code has it.  The three mutators that have a probe leave a
    config file whose content satisfies it alone: [enableMongoDBAuth] and
    [updateRedisConfigs] then only read the file, so no ConfigFile is
    created and the member is unchanged.  [updateRedisConfigs] makes
    exactly one [updateMemberConfig] when either probe fires, with the
    content that has each fired transform applied and the other left out.
    The Consul rewrite has no probe: [updateConsulMemberConfig] always
    hands the rewritten content to [updateMemberConfig], also when the
    rewrite changes nothing. *)
Theorem mutators_and_probes :
  (∀ cfg i member w cfgfile w1,
     GetConfigFile (ServiceMember.ServiceUUID member) (MemberConfig.FileID cfg) w
       = (Done (Success cfgfile), w1) →
     IsAuthEnabled (ConfigFile.Content cfgfile) = true →
     enableMongoDBAuth cfg i member w = (Done (Success tt), w1)
     ∧ db w1 = db w
     ∧ trace w1 = trace w ++ [DBGetConfigFile (ServiceMember.ServiceUUID member)
                                              (MemberConfig.FileID cfg)])
  ∧ (∀ cfg i member w cfgfile w1,
     GetConfigFile (ServiceMember.ServiceUUID member) (MemberConfig.FileID cfg) w
       = (Done (Success cfgfile), w1) →
     let content := ConfigFile.Content cfgfile in
     let enableAuth := NeedToEnableAuth content in
     let setIP := NeedToSetClusterAnnounceIP content in
     let withAuth := if enableAuth then EnableRedisAuth content else content in
     let withIP :=
       if setIP then SetClusterAnnounceIP withAuth (ServiceMember.StaticIP member)
       else withAuth in
     (enableAuth = false → setIP = false →
        updateRedisConfigs cfg i member w = (Done (Success tt), w1)
        ∧ db w1 = db w
        ∧ trace w1 = trace w ++ [DBGetConfigFile (ServiceMember.ServiceUUID member)
                                                 (MemberConfig.FileID cfg)])
     ∧ (enableAuth = true ∨ setIP = true →
        updateRedisConfigs cfg i member w = updateMemberConfig member cfgfile i withIP w1))
  ∧ (∀ member memberips w pre c post cfgfile w1,
     ServiceMember.Configs member = pre ++ c :: post →
     Forall (λ c, IsBasicConfigFile (MemberConfig.FileName c) = false) pre →
     IsBasicConfigFile (MemberConfig.FileName c) = true →
     GetConfigFile (ServiceMember.ServiceUUID member) (MemberConfig.FileID c) w
       = (Done (Success cfgfile), w1) →
     updateConsulMemberConfig member memberips w
       = updateMemberConfig member cfgfile (Z.of_nat (length pre))
           (ReplaceMemberName (ConfigFile.Content cfgfile) memberips) w1).
Proof.
  split; [|split].
  - intros cfg i member w cfgfile w1 Hget Hauth.
    split; [|exact (GetConfigFile_frame _ _ _ _ _ Hget)].
    unfold enableMongoDBAuth. by rewrite (bind_done _ _ _ _ _ Hget), Hauth.
  - intros cfg i member w cfgfile w1 Hget content enableAuth setIP withAuth withIP.
    split.
    + intros Ha Hi. split; [|exact (GetConfigFile_frame _ _ _ _ _ Hget)].
      unfold updateRedisConfigs. rewrite (bind_done _ _ _ _ _ Hget). cbv zeta.
      fold content enableAuth setIP. by rewrite Ha, Hi.
    + intros Hfire. unfold updateRedisConfigs.
      rewrite (bind_done _ _ _ _ _ Hget). cbv zeta.
      fold content enableAuth setIP.
      subst withIP withAuth.
      destruct Hfire as [Hf|Hf]; rewrite Hf; simpl; [done|].
      by rewrite andb_false_r.
  - intros member ips w pre c post cfgfile w1 Hcfgs Hpre Hc Hget.
    unfold updateConsulMemberConfig.
    rewrite Hcfgs, (findBasicConfig_some 0 _ _ _ Hpre Hc). simpl.
    by rewrite bind_ret, (bind_done _ _ _ _ _ Hget).
Qed.

End Mutators.

Section MutatorsDemo.
#[local] Existing Instance Demo.catalog.

(** C3 as stated fails for Consul.  The basic-config file of the demo
    member is at version 1 and its content already names the static IPs,
    so the rewrite changes nothing; [updateConsulMemberConfig] still creates
    the file of version 2 and re-points the member's slot to it. *)
Lemma consul_rewrite_is_not_idempotent :
  let uuid := "uuid-consul1" in
  let member := Demo.consulMember "0" "10.0.0.1" 1 in
  let w := Demo.consulWorld in
  let w' := snd (updateConsulMemberConfig member Demo.consulIPs w) in
  listMembers (db w) uuid !! 0%nat = Some member
  ∧ cfgfiles (db w) !! (uuid, "consul1-0-basic_config.json-1") = Some (Demo.consulFile "0" 1)
  ∧ ReplaceMemberName Demo.consulContent Demo.consulIPs = Demo.consulContent
  ∧ fst (updateConsulMemberConfig member Demo.consulIPs w) = Done (Success tt)
  ∧ cfgfiles (db w) !! (uuid, "consul1-0-basic_config.json-2") = None
  ∧ cfgfiles (db w') !! (uuid, "consul1-0-basic_config.json-2") = Some (Demo.consulFile "0" 2)
  ∧ listMembers (db w') uuid !! 0%nat = Some (Demo.consulMember "0" "10.0.0.1" 2)
  ∧ Demo.consulMember "0" "10.0.0.1" 2 ≠ member.
Proof. vm_compute. repeat split; discriminate. Qed.

End MutatorsDemo.

(** ** The order of a mutator run *)

Section MutatorRun.
Context `{Catalog}.
Variable s : ManageHTTPServer.

Lemma config_enableMongoDBAuth cfg i member :
  emits (λ _, configTrace [ServiceMember.MemberName member])
        (enableMongoDBAuth cfg i member).
Proof.
  apply (emits_config_bind [] [_]); [apply config_GetConfigFile|].
  intros r. apply emits_config_res. intros cf.
  destruct (IsAuthEnabled _); [apply emits_config_ret|apply config_updateMemberConfig].
Qed.

Lemma config_mongoConfigsLoop member i cfgs :
  emits (λ _, configTrace [ServiceMember.MemberName member])
        (mongoConfigsLoop member i cfgs).
Proof.
  revert i. induction cfgs as [|cfg rest IH]; intros i; simpl.
  - apply emits_config_ret.
  - destruct (negb _); [apply IH|apply config_enableMongoDBAuth].
Qed.

Lemma config_mongoMembersLoop members :
  emits (λ _, configTrace (ServiceMember.MemberName <$> members))
        (mongoMembersLoop members).
Proof.
  induction members as [|m rest IH]; simpl; [apply emits_config_ret|].
  apply (emits_config_bind [_] _); [apply config_mongoConfigsLoop|].
  intros r. by apply emits_config_res.
Qed.

Lemma config_createRedisClusterFile member cfg :
  emits (λ o t, configTrace [ServiceMember.MemberName member] t ∧ keepsName member o)
        (createRedisClusterFile member cfg).
Proof.
  assert (Hfail : ∀ e, keepsName member (Done (Failure e))) by (intros e nm [=]).
  unfold createRedisClusterFile. destruct (findClusterInfo _).
  - case_bool_decide; apply emits_ret; (split; [apply configTrace_nil|]);
      intros nm [=]; by subst.
  - eapply (emits_bind (λ _, configTrace [])
              (λ _ o t, configTrace [ServiceMember.MemberName member] t
                        ∧ keepsName member o));
      [apply config_CreateConfigFile| | |].
    + intros r t1 _. destruct r as [cf|e].
      * eapply (emits_bind (λ _, configTrace [ServiceMember.MemberName member])
                  (λ _ o t, configTrace [] t ∧ keepsName member o));
          [apply config_UpdateServiceMember| | |].
        -- intros r' t2 _. destruct r' as [[]|e'].
           ++ apply emits_ret. split; [apply configTrace_nil|]. intros nm [=]. by subst.
           ++ apply emits_ret. split; [apply configTrace_nil|apply Hfail].
        -- intros p t2 Ht2. split; [exact Ht2|]. intros nm [=].
        -- intros a t2 o t3 Ht2 [Ht3 Hnm]. split; [|exact Hnm].
           by apply (configTrace_app [_] []).
      * apply emits_ret. split; [apply configTrace_nil|apply Hfail].
    + intros p t1 Ht1. split; [|intros nm [=]].
      eapply configTrace_weaken; [|exact Ht1]. apply sublist_nil_l.
    + intros a t1 o t2 Ht1 [Ht2 Hnm]. split; [|exact Hnm].
      by apply (configTrace_app [] [_]).
Qed.

Lemma config_updateRedisConfigs cfg i member :
  emits (λ _, configTrace [ServiceMember.MemberName member])
        (updateRedisConfigs cfg i member).
Proof.
  apply (emits_config_bind [] [_]); [apply config_GetConfigFile|].
  intros r. apply emits_config_res. intros cf.
  destruct (_ && _); [apply emits_config_ret|apply config_updateMemberConfig].
Qed.

Lemma config_redisConfigsLoop member i cfgs :
  emits (λ _, configTrace [ServiceMember.MemberName member])
        (redisConfigsLoop member i cfgs).
Proof.
  revert i. induction cfgs as [|cfg rest IH]; intros i; simpl.
  - apply emits_config_ret.
  - destruct (negb _); [apply IH|apply config_updateRedisConfigs].
Qed.

Lemma config_redisMembersLoop cfg members :
  emits (λ _, configTrace (twice (ServiceMember.MemberName <$> members)))
        (redisMembersLoop cfg members).
Proof.
  induction members as [|m rest IH]; simpl; [apply emits_config_ret|].
  eapply (emits_bind _ (λ _ _, configTrace
            (ServiceMember.MemberName m :: twice (ServiceMember.MemberName <$> rest))));
    [apply config_createRedisClusterFile| | |].
  - intros r t1 [_ Hnm]. destruct r as [newMember|e]; [|apply emits_config_ret].
    apply (emits_config_bind [_] _).
    + rewrite <- (Hnm newMember eq_refl). apply config_redisConfigsLoop.
    + intros r'. by apply emits_config_res.
  - intros p t1 [Ht1 _]. eapply configTrace_weaken; [|exact Ht1].
    apply sublist_skip, sublist_nil_l.
  - intros a t1 o t2 [Ht1 _] Ht2. by apply (configTrace_app [_] (_ :: _)).
Qed.

Lemma nextFault_drop (w w0 : World) n :
  faults w = drop n (faults w0) → nextFault w = faultAt w0 n.
Proof.
  intros E. unfold nextFault, faultAt. rewrite E.
  destruct (drop n (faults w0)) as [|f fs] eqn:Ed.
  - apply (f_equal length) in Ed. rewrite length_drop in Ed. simpl in Ed.
    by rewrite lookup_ge_None_2 by lia.
  - pose proof (lookup_drop (faults w0) n 0) as Hl. rewrite Ed in Hl. simpl in Hl.
    by rewrite Nat.add_0_r in Hl; rewrite <- Hl.
Qed.

Lemma ConvertToHTTPError_not_OK e : ConvertToHTTPError e ≠ ("", StatusOK).
Proof. by destruct e. Qed.

Lemma svc_SetServiceInitialized_run c n w :
  ∃ r w', svc_SetServiceInitialized c n w = (Done r, w')
          ∧ trace w' = trace w ++ [SvcSetServiceInitialized c n]
          ∧ resp w' = resp w.
Proof.
  unfold svc_SetServiceInitialized. rewrite extern_eq.
  destruct (nextFault w); [by eauto|].
  unfold bind, gets, ret, modify. simpl.
  destruct (services (db w) !! (c, n)) as [svc|]; [|by eauto].
  destruct (attrs (db w) !! Service.ServiceUUID svc) as [a|]; [|by eauto].
  destruct (ServiceAttr.ServiceStatus a); by eauto.
Qed.

Lemma setServiceInitialized_trace name w :
  trace (snd (setServiceInitialized s name w))
  = trace w ++ [SvcSetServiceInitialized (cluster s) name].
Proof.
  unfold setServiceInitialized.
  destruct (svc_SetServiceInitialized_run (cluster s) name w) as (r & w' & E & Ht & _).
  rewrite (bind_done _ _ _ _ _ E). by destruct r.
Qed.

(** From the members loop on, the two handlers are the same. *)
Lemma mutator_tail (loop : M (res unit)) names uuid msg name replicas w0 w reads o w' :
  emits (λ _, configTrace names) loop →
  trace w = trace w0 ++ reads →
  faults w = drop (length reads) (faults w0) →
  attrs (db w) = attrs (db w0) →
  (_ <-! loop ;;
   UpdateTaskStatusMsg uuid msg ;;;
   _ <-! RestartService (cluster s) name replicas ;;
   setServiceInitialized s name) w = (o, w') →
  ∃ updates tail,
    trace w' = trace w0 ++ reads ++ updates ++ tail
    ∧ configTrace names updates
    ∧ ((tail = [] ∧ o ≠ Done ("", StatusOK) ∧ attrs (db w') = attrs (db w0))
       ∨ (∃ e, tail = [CsRestartService (cluster s) name replicas]
               ∧ faultAt w0 (length (reads ++ updates)) = Some e
               ∧ o = Done (ConvertToHTTPError e)
               ∧ attrs (db w') = attrs (db w0))
       ∨ (tail = [CsRestartService (cluster s) name replicas;
                  SvcSetServiceInitialized (cluster s) name]
          ∧ faultAt w0 (length (reads ++ updates)) = None)).
Proof.
  intros Hloop Ht Hf Ha Hrun.
  destruct (Hloop w) as (t & Ht1 & Hf1 & Hcfg & _ & Ha1).
  exists t. unfold bind at 1 in Hrun.
  destruct (loop w) as [[[[]|e]|p] w1]; simpl in Ht1, Hf1, Ha1.
  - unfold bind at 1 in Hrun. unfold UpdateTaskStatusMsg at 1, modify at 1 in Hrun.
    set (w2 := set_initTasks _ w1) in Hrun.
    assert (Hnext : nextFault w2 = faultAt w0 (length (reads ++ t))).
    { apply nextFault_drop. simpl. rewrite Hf1, Hf, drop_drop, length_app. done. }
    unfold bind at 1 in Hrun. unfold RestartService in Hrun. rewrite extern_eq in Hrun.
    destruct (nextFault w2) as [e|] eqn:En.
    + injection Hrun as <- <-.
      exists [CsRestartService (cluster s) name replicas]. simpl.
      rewrite Ht1, Ht, <- !app_assoc. split; [done|]. split; [done|].
      right. left. exists e. by rewrite <- Hnext, Ha1, Ha.
    + exists [CsRestartService (cluster s) name replicas;
              SvcSetServiceInitialized (cluster s) name].
      unfold ret at 1 in Hrun. apply (f_equal snd) in Hrun. simpl in Hrun.
      rewrite <- Hrun, setServiceInitialized_trace. simpl.
      rewrite Ht1, Ht, <- !app_assoc. split; [done|]. split; [done|].
      right. right. by rewrite <- Hnext.
  - injection Hrun as <- <-.
    exists []. rewrite Ht1, Ht, app_nil_r, <- app_assoc.
    split; [done|]. split; [done|]. left.
    split; [done|]. split; [|by rewrite Ha1, Ha].
    intros [=E]. by apply (ConvertToHTTPError_not_OK e).
  - injection Hrun as <- <-.
    exists []. rewrite Ht1, Ht, app_nil_r, <- app_assoc.
    split; [done|]. split; [done|]. left.
    split; [done|]. split; [done|]. by rewrite Ha1, Ha.
Qed.

Lemma GetService_run c n w :
  ∃ r, GetService c n w = (Done r, called (DBGetService c n) w)
       ∧ ∀ svc, r = Success svc → services (db w) !! (c, n) = Some svc.
Proof.
  unfold GetService. rewrite extern_eq. destruct (nextFault w).
  - eexists. split; [done|]. intros svc [=].
  - unfold bind, gets, ret. simpl. destruct (services (db w) !! (c, n)) eqn:E.
    + eexists. split; [done|]. by intros svc [= <-].
    + eexists. split; [done|]. intros svc [=].
Qed.

Lemma GetServiceAttr_run u w :
  ∃ r, GetServiceAttr u w = (Done r, called (DBGetServiceAttr u) w).
Proof.
  unfold GetServiceAttr. rewrite extern_eq. destruct (nextFault w); [by eauto|].
  unfold bind, gets, ret. simpl. destruct (_ !! _); by eauto.
Qed.

Lemma ListServiceMembers_run u w :
  ∃ r, ListServiceMembers u w = (Done r, called (DBListServiceMembers u) w)
       ∧ ∀ l, r = Success l → l = listMembers (db w) u.
Proof.
  unfold ListServiceMembers. rewrite extern_eq. destruct (nextFault w).
  - eexists. split; [done|]. intros l [=].
  - unfold bind, gets, ret. simpl. eexists. split; [done|]. by intros l [= <-].
Qed.

(** A run that ended at one of the reads. *)
Lemma mutatorRun_reads w name per o reads :
  Forall readEvent reads → o ≠ Done ("", StatusOK) →
  ∀ w', trace w' = trace w ++ reads → attrs (db w') = attrs (db w) →
  mutatorRun s w name per o w'.
Proof.
  intros Hreads Ho w' Ht Ha. exists reads, [], []. rewrite !app_nil_r.
  split; [done|]. split; [done|]. split; [constructor|].
  split; [intros; apply sublist_nil_l|]. by left.
Qed.

(** A run that got to the members loop. *)
Lemma mutatorRun_loop (loop : M (res unit)) per service uuid msg1 msg2 name replicas
  w o w' reads w3 :
  services (db w) !! (cluster s, name) = Some service →
  emits (λ _, configTrace
                (per (ServiceMember.MemberName
                        <$> listMembers (db w) (Service.ServiceUUID service)))) loop →
  Forall readEvent reads →
  trace w3 = trace w ++ reads →
  faults w3 = drop (length reads) (faults w) →
  attrs (db w3) = attrs (db w) →
  (UpdateTaskStatusMsg uuid msg1 ;;;
   _ <-! loop ;;
   UpdateTaskStatusMsg uuid msg2 ;;;
   _ <-! RestartService (cluster s) name replicas ;;
   setServiceInitialized s name) w3 = (o, w') →
  mutatorRun s w name per o w'.
Proof.
  intros Hsvc Hloop Hreads Ht Hf Ha Hrun.
  unfold bind at 1 in Hrun. unfold UpdateTaskStatusMsg at 1, modify at 1 in Hrun.
  eapply (mutator_tail _ _ _ _ _ _ w _ reads) in Hrun; [|exact Hloop|done..].
  destruct Hrun as (updates & tail & Htr & [Hcfg Hsub] & Hend).
  exists reads, updates, tail. split; [done|]. split; [done|]. split; [done|].
  split; [intros service' Hs'; by simplify_eq|].
  destruct Hend as [?|[(e & ?)|?]]; [by left|right; left; by eauto|right; right; by eauto].
Qed.


End MutatorRun.

(** ** Consul create *)

Section ConsulCreate.
Context `{Catalog}.
Variable s : ManageHTTPServer.

Lemma consulMemberIPs_snoc domain members m :
  consulMemberIPs domain (members ++ [m])
  = <[GenDNSName (ServiceMember.MemberName m) domain := ServiceMember.StaticIP m]>
      (consulMemberIPs domain members).
Proof. unfold consulMemberIPs. by rewrite foldl_app. Qed.

Lemma membersNamed_snoc domain dns members m :
  membersNamed domain dns (members ++ [m])
  = membersNamed domain dns members
    ++ (if bool_decide (GenDNSName (ServiceMember.MemberName m) domain = dns)
        then [m] else []).
Proof. unfold membersNamed. by rewrite List.filter_app. Qed.

(** The map holds, under a DNS name, the static IP of the last member of
    that name. *)
Lemma consulMemberIPs_lookup domain members dns :
  consulMemberIPs domain members !! dns
  = ServiceMember.StaticIP <$> last (membersNamed domain dns members).
Proof.
  induction members as [|m ms IH] using rev_ind; [done|].
  rewrite consulMemberIPs_snoc, membersNamed_snoc.
  case_bool_decide as Hn.
  - by rewrite Hn, lookup_insert_eq, last_snoc.
  - by rewrite lookup_insert_ne, app_nil_r.
Qed.

(** Two properties of the one trace a computation makes. *)
Lemma emits_and {A} (P Q : outcome A → list Event → Prop) (m : M A) :
  emits P m → emits Q m → emits (λ o t, P o t ∧ Q o t) m.
Proof.
  intros HP HQ w.
  destruct (HP w) as (t & Ht & Hf & Hp & Hr & Ha).
  destruct (HQ w) as (t' & Ht' & _ & Hq & _ & _).
  rewrite Ht in Ht'. apply app_inv_head in Ht'. subst t'.
  exists t. eauto 10.
Qed.

Lemma emits_forall_bind {A B} (φ : Event → Prop) (m : M A) (k : A → M B) :
  emits (λ _, Forall φ) m → (∀ a, emits (λ _, Forall φ) (k a)) →
  emits (λ _, Forall φ) (bind m k).
Proof.
  intros Hm Hk. apply (emits_bind (λ _, Forall φ) (λ _ _, Forall φ) _ _ _ Hm).
  - intros a _ _. apply Hk.
  - by intros _ t1 Ht1.
  - intros _ t1 _ t2 H1 H2. by apply Forall_app.
Qed.

Lemma emits_forall_ret {A} (φ : Event → Prop) (a : A) : emits (λ _, Forall φ) (ret a).
Proof. apply emits_ret. constructor. Qed.

Lemma emits_forall_res {A B} (φ : Event → Prop) (r : res A) (k : A → M (res B)) :
  (∀ a, emits (λ _, Forall φ) (k a)) →
  emits (λ _, Forall φ) (match r with Success x => k x | Failure e => ret (Failure e) end).
Proof. intros Hk. destruct r; [apply Hk|apply emits_forall_ret]. Qed.

Lemma emits_forall_one {A} (φ : Event → Prop) ev (m : M A) :
  φ ev → emits (λ _ t, t = [ev]) m → emits (λ _, Forall φ) m.
Proof. intros Hev. apply emits_weaken. intros _ t ->. by repeat constructor. Qed.

Lemma rewritten_updateMemberConfig member cfgfile i content memberips :
  emits (λ _, Forall (rewrittenWith memberips))
        (updateMemberConfig member cfgfile i (ReplaceMemberName content memberips)).
Proof.
  unfold updateMemberConfig.
  destruct (GetConfigFileVersion _); [|apply emits_forall_ret].
  apply emits_forall_bind.
  { eapply emits_forall_one; [|apply emits_CreateConfigFile]. simpl. by eexists. }
  intros r. apply emits_forall_res. intros cf.
  apply emits_forall_bind.
  { apply emits_quiet; [intros; constructor|apply quiet_index]. }
  intros c. apply emits_forall_bind.
  { eapply emits_forall_one; [|apply emits_UpdateServiceMember]. done. }
  intros r'. apply emits_forall_res. intros _.
  apply emits_forall_bind.
  { eapply emits_forall_one; [|apply emits_DeleteConfigFile]. done. }
  intros _. apply emits_forall_ret.
Qed.

Lemma rewritten_updateConsulMemberConfig member memberips :
  emits (λ _, Forall (rewrittenWith memberips))
        (updateConsulMemberConfig member memberips).
Proof.
  unfold updateConsulMemberConfig. destruct (findBasicConfig _ _) as [cfg i].
  apply emits_forall_bind.
  { apply emits_quiet; [intros; constructor|]. intros w. by destruct cfg. }
  intros c. apply emits_forall_bind.
  { eapply emits_forall_one; [|apply emits_GetConfigFile]. done. }
  intros r. apply emits_forall_res. intros cf. apply rewritten_updateMemberConfig.
Qed.

Lemma config_updateConsulMemberConfig member memberips :
  emits (λ _, configTrace [ServiceMember.MemberName member])
        (updateConsulMemberConfig member memberips).
Proof.
  unfold updateConsulMemberConfig. destruct (findBasicConfig _ _) as [cfg i].
  apply (emits_config_bind [] [_]).
  { apply emits_quiet; [intros; apply configTrace_nil|]. intros w. by destruct cfg. }
  intros c. apply (emits_config_bind [] [_]); [apply config_GetConfigFile|].
  intros r. apply emits_config_res. intros cf. apply config_updateMemberConfig.
Qed.

Lemma consulMembersLoop_trace memberips members :
  emits (λ _ t, configTrace (ServiceMember.MemberName <$> members) t
                ∧ Forall (rewrittenWith memberips) t)
        (consulMembersLoop memberips members).
Proof.
  apply emits_and.
  - induction members as [|m rest IH]; simpl; [apply emits_config_ret|].
    apply (emits_config_bind [_] _); [apply config_updateConsulMemberConfig|].
    intros r. by apply emits_config_res.
  - induction members as [|m rest IH]; simpl; [apply emits_forall_ret|].
    apply emits_forall_bind; [apply rewritten_updateConsulMemberConfig|].
    intros r. by apply emits_forall_res.
Qed.

Lemma createContainerService_trace req uuid :
  emits (λ _, Forall containerEvent) (createContainerService req uuid).
Proof.
  unfold createContainerService. apply emits_forall_bind.
  { eapply emits_forall_one; [|apply emits_IsServiceExist]. done. }
  intros r. apply emits_forall_res. intros exist.
  destruct (negb exist); [|apply emits_forall_ret].
  apply emits_forall_bind.
  { eapply emits_forall_one; [|apply emits_cs_CreateService]. done. }
  intros r'. apply emits_forall_res. intros _. apply emits_forall_ret.
Qed.

Lemma svc_CreateService_success req domain vpcID w uuid w1 :
  svc_CreateService req domain vpcID w = (Done (Success uuid), w1) →
  trace w1 = trace w ++ [SvcCreateService req domain vpcID] ∧ resp w1 = resp w.
Proof.
  unfold svc_CreateService. rewrite extern_eq. destruct (nextFault w); [intros [=]|].
  unfold bind, gets, ret, modify. simpl.
  destruct (ControlPlaneCreate _ _ _ _) as [[u d]|e]; intros [=]; by subst.
Qed.

(** What [updateConsulConfigs] does from [w1] on. *)
Lemma updateConsulConfigs_run uuid domain w1 :
  let members := listMembers (db w1) uuid in
  ∃ updates,
    trace (snd (updateConsulConfigs uuid domain w1))
      = trace w1 ++ DBListServiceMembers uuid :: updates
    ∧ resp (snd (updateConsulConfigs uuid domain w1)) = resp w1
    ∧ configTrace (ServiceMember.MemberName <$> members) updates
    ∧ Forall (rewrittenWith (consulMemberIPs domain members)) updates
    ∧ ∀ ips, fst (updateConsulConfigs uuid domain w1) = Done (Success ips) →
        ips = ServiceMember.StaticIP <$> members.
Proof.
  intros members. unfold updateConsulConfigs.
  destruct (ListServiceMembers_run uuid w1) as (r & E & Hl).
  rewrite (bind_done _ _ _ _ _ E). destruct r as [l|e].
  - specialize (Hl l eq_refl). subst l. fold members.
    destruct (consulMembersLoop_trace (consulMemberIPs domain members) members
                (called (DBListServiceMembers uuid) w1))
      as (t & Ht & _ & [Hcfg Hrw] & Hr & _).
    exists t. unfold bind.
    destruct (consulMembersLoop _ _ _) as [[[[]|e]|p] w2]; simpl in *;
      rewrite Ht, <- app_assoc;
      (split; [done|split; [done|split; [done|split; [done|]]]]).
    + by intros ips [= <-].
    + intros ips [=].
    + intros ips [=].
  - exists []. simpl.
    split; [done|split; [done|split; [apply configTrace_nil|split; [constructor|]]]].
    intros ips [=].
Qed.


End ConsulCreate.

(** ** The Redis cluster-info file *)

Section ClusterInfo.
Context `{Catalog}.
Variable s : ManageHTTPServer.

Lemma findClusterInfo_none cfgs :
  Forall (λ c, IsClusterInfoFile (MemberConfig.FileName c) = false) cfgs →
  findClusterInfo cfgs = None.
Proof. induction 1 as [|c rest Hc _ IH]; simpl; [done|]. by rewrite Hc. Qed.

Lemma findClusterInfo_some pre c post :
  Forall (λ c, IsClusterInfoFile (MemberConfig.FileName c) = false) pre →
  IsClusterInfoFile (MemberConfig.FileName c) = true →
  findClusterInfo (pre ++ c :: post) = Some c.
Proof.
  intros Hpre Hc. induction Hpre as [|c' rest Hc' _ IH]; simpl.
  - by rewrite Hc.
  - by rewrite Hc'.
Qed.

Lemma findClusterInfo_None_inv cfgs :
  findClusterInfo cfgs = None →
  Forall (λ c, IsClusterInfoFile (MemberConfig.FileName c) = false) cfgs.
Proof.
  induction cfgs as [|c rest IH]; simpl; [constructor|].
  destruct (IsClusterInfoFile _) eqn:E; [done|]. intros Hn. constructor; auto.
Qed.

Lemma findClusterInfo_Some_inv cfgs c :
  findClusterInfo cfgs = Some c → IsClusterInfoFile (MemberConfig.FileName c) = true.
Proof.
  induction cfgs as [|c' rest IH]; simpl; [done|].
  destruct (IsClusterInfoFile (MemberConfig.FileName c')) eqn:E; [|done].
  by intros [= <-].
Qed.

(** Re-pointing a slot that is not a cluster-info slot does not change
    which cluster-info slot a member has. *)
Lemma findClusterInfo_insert cfgs (i : nat) c fileID fileMD5 :
  cfgs !! i = Some c →
  IsClusterInfoFile (MemberConfig.FileName c) = false →
  findClusterInfo (<[i := setFile fileID fileMD5 c]> cfgs) = findClusterInfo cfgs.
Proof.
  revert i. induction cfgs as [|c' rest IH]; intros i Hi Hc; [done|].
  destruct i as [|i]; simpl in *.
  - injection Hi as ->. by rewrite Hc.
  - by rewrite (IH i Hi Hc).
Qed.

Lemma createRedisClusterFile_present member cfg w :
  hasClusterInfo (GenMD5 (ReplicaConfigFile.Content cfg)) member →
  createRedisClusterFile member cfg w = (Done (Success member), w).
Proof.
  intros (c & Hc & Hmd5). unfold createRedisClusterFile. rewrite Hc.
  by rewrite bool_decide_eq_false_2 by (by intros E; apply E).
Qed.

Lemma createRedisClusterFile_mismatch member cfg md5 w :
  hasClusterInfo md5 member →
  md5 ≠ GenMD5 (ReplicaConfigFile.Content cfg) →
  createRedisClusterFile member cfg w = (Done (Failure ErrConfigMismatch), w).
Proof.
  intros (c & Hc & Hmd5) Hne. unfold createRedisClusterFile. rewrite Hc.
  by rewrite bool_decide_eq_true_2 by congruence.
Qed.

Lemma redisMembersLoop_present cfg members w :
  Forall (hasClusterInfo (GenMD5 (ReplicaConfigFile.Content cfg))) members →
  redisMembersLoop cfg members w = redisConfOnlyLoop members w.
Proof.
  intros Hall. revert w. induction Hall as [|m rest Hm _ IH]; intros w; simpl; [done|].
  rewrite (bind_done _ _ _ _ _ (createRedisClusterFile_present _ _ _ Hm)).
  unfold bind. by destruct (redisConfigsLoop _ _ _ _) as [[[[]|e]|p] w1].
Qed.

(** *** What a run does to the stored members *)

Lemma keepsMembers_ret {A} (a : A) : keepsMembers (ret a).
Proof. done. Qed.

Lemma keepsMembers_bind {A B} (m : M A) (k : A → M B) :
  keepsMembers m → (∀ a, keepsMembers (k a)) → keepsMembers (bind m k).
Proof.
  intros Hm Hk w. unfold bind. specialize (Hm w).
  destruct (m w) as [[a|p] w1]; simpl in *; [|done].
  by rewrite Hk.
Qed.

Lemma keepsMembers_extern {A} ev (op : M (res A)) :
  keepsMembers op → keepsMembers (extern ev op).
Proof.
  intros Hop w. rewrite extern_eq. destruct (nextFault w); [done|].
  by rewrite Hop.
Qed.

Ltac keeps_op :=
  apply keepsMembers_extern; intros ?; unfold bind, gets, ret, modify; simpl;
  repeat (case_match; simpl); done.

Lemma keepsMembers_GetConfigFile u f : keepsMembers (GetConfigFile u f).
Proof. keeps_op. Qed.
Lemma keepsMembers_CreateConfigFile cf : keepsMembers (CreateConfigFile cf).
Proof. keeps_op. Qed.
Lemma keepsMembers_DeleteConfigFile u f : keepsMembers (DeleteConfigFile u f).
Proof. keeps_op. Qed.
Lemma keepsMembers_RestartService c n r : keepsMembers (RestartService c n r).
Proof. keeps_op. Qed.
Lemma keepsMembers_svc_SetServiceInitialized c n :
  keepsMembers (svc_SetServiceInitialized c n).
Proof. keeps_op. Qed.

Lemma keepsMembers_setServiceInitialized n : keepsMembers (setServiceInitialized s n).
Proof.
  apply keepsMembers_bind; [apply keepsMembers_svc_SetServiceInitialized|].
  by intros [[]|e].
Qed.

Lemma listMembers_keeps {A} (m : M A) uuid w :
  keepsMembers m → listMembers (db (snd (m w))) uuid = listMembers (db w) uuid.
Proof. intros Hk. unfold listMembers. by rewrite Hk. Qed.

Lemma listMembers_after {A} (m : M A) uuid w o w' :
  m w = (o, w') → keepsMembers m → listMembers (db w') uuid = listMembers (db w) uuid.
Proof.
  intros E Hk. pose proof (listMembers_keeps m uuid w Hk) as Hl. by rewrite E in Hl.
Qed.

(** One step of a run that is known to end normally. *)
Tactic Notation "run_step" hyp(H) ident(r) ident(w') ident(E) :=
  match type of H with
  | bind ?op _ ?w0 = _ =>
      destruct (op w0) as [[r|?] w'] eqn:E;
      [rewrite (bind_done _ _ _ _ _ E) in H
      |rewrite (bind_panicked _ _ _ _ _ E) in H; discriminate H]
  end.

Lemma inHand_keeps {A} (op : M A) uuid pre m post w :
  keepsMembers op → inHand uuid pre m post w → inHand uuid pre m post (snd (op w)).
Proof. intros Hk (Hl & Hnd & Hu). split; [|done]. by rewrite listMembers_keeps. Qed.

Lemma inHand_after {A} (op : M A) uuid pre m post w o w' :
  op w = (o, w') → keepsMembers op →
  inHand uuid pre m post w → inHand uuid pre m post w'.
Proof.
  intros E Hk Hin. pose proof (inHand_keeps op _ _ _ _ w Hk Hin) as Hk'.
  by rewrite E in Hk'.
Qed.

Lemma inHand_update uuid pre m post new w w1 :
  UpdateServiceMember m new w = (Done (Success tt), w1) →
  ServiceMember.MemberName new = ServiceMember.MemberName m →
  ServiceMember.ServiceUUID new = uuid →
  inHand uuid pre m post w → inHand uuid pre new post w1.
Proof.
  intros Hcas Hn Hu' (Hl & Hnd & Hu). split; [|split; [|done]].
  - by eapply UpdateServiceMember_middle.
  - by rewrite fmap_app, fmap_cons, Hn, <- fmap_cons, <- fmap_app.
Qed.

Section Established.
Variable cfg : ReplicaConfigFile.t.
Local Abbreviation md5 := (GenMD5 (ReplicaConfigFile.Content cfg)).
Hypothesis cfg_is_cluster_info :
  IsClusterInfoFile (ReplicaConfigFile.FileName cfg) = true.
Hypothesis redis_conf_is_not_cluster_info :
  ∀ n, IsRedisConfFile n = true → IsClusterInfoFile n = false.

Lemma createRedisClusterFile_step uuid pre m post w nm w1 :
  createRedisClusterFile m cfg w = (Done (Success nm), w1) →
  inHand uuid pre m post w →
  inHand uuid pre nm post w1 ∧ hasClusterInfo md5 nm.
Proof using cfg_is_cluster_info.
  intros Hrun Hin. unfold createRedisClusterFile in Hrun.
  destruct (findClusterInfo (ServiceMember.Configs m)) as [c|] eqn:Hfind.
  - case_bool_decide as Hmd5; [done|]. injection Hrun as <- <-.
    split; [done|]. exists c. split; [done|].
    by destruct (decide (MemberConfig.FileMD5 c = md5)).
  - run_step Hrun r wa Ec. destruct r as [cf|e]; [|done].
    run_step Hrun r wb Eu. destruct r as [[]|e]; [|done].
    injection Hrun as <- <-.
    assert (Hwa : inHand uuid pre m post wa)
      by (eapply inHand_after; [exact Ec|apply keepsMembers_CreateConfigFile|done]).
    split.
    + eapply inHand_update; [exact Eu|done| |exact Hwa]. by destruct Hin as (_ & _ & ?).
    + eexists. split.
      * simpl. rewrite CopyMemberConfigs_id.
        apply findClusterInfo_some; [by apply findClusterInfo_None_inv|done].
      * simpl. apply CreateConfigFile_success in Ec.
        destruct Ec as [(_ & -> & _)|(_ & -> & _)]; done.
Qed.

Lemma updateMemberConfig_step uuid pre m post cfgfile (i : nat) c newContent w w1 :
  updateMemberConfig m cfgfile (Z.of_nat i) newContent w = (Done (Success tt), w1) →
  ServiceMember.Configs m !! i = Some c →
  IsClusterInfoFile (MemberConfig.FileName c) = false →
  inHand uuid pre m post w → hasClusterInfo md5 m →
  ∃ nm, inHand uuid pre nm post w1 ∧ hasClusterInfo md5 nm.
Proof.
  intros Hrun Hi Hc Hin (ci & Hci & Hmd5). unfold updateMemberConfig in Hrun.
  destruct (GetConfigFileVersion _) as [version|e]; [|done].
  run_step Hrun r wa Ec. destruct r as [cf|e]; [|done].
  rewrite CopyMemberConfigs_id in Hrun.
  rewrite (bind_done _ _ _ _ _ (index_lookup _ _ _ _ Hi)), Nat2Z.id in Hrun.
  run_step Hrun r wb Eu. destruct r as [[]|e]; [|done].
  assert (Hwa : inHand uuid pre m post wa)
    by (eapply inHand_after; [exact Ec|apply keepsMembers_CreateConfigFile|done]).
  eexists. split.
  - run_step Hrun r wc Ed. injection Hrun as <-.
    eapply inHand_after; [exact Ed|apply keepsMembers_DeleteConfigFile|].
    eapply inHand_update; [exact Eu|done| |exact Hwa]. by destruct Hin as (_ & _ & ?).
  - exists ci. split; [|done]. simpl. by rewrite findClusterInfo_insert.
Qed.

Lemma updateRedisConfigs_step uuid pre m post rcfg (i : nat) c w w1 :
  updateRedisConfigs rcfg (Z.of_nat i) m w = (Done (Success tt), w1) →
  ServiceMember.Configs m !! i = Some c →
  IsClusterInfoFile (MemberConfig.FileName c) = false →
  inHand uuid pre m post w → hasClusterInfo md5 m →
  ∃ nm, inHand uuid pre nm post w1 ∧ hasClusterInfo md5 nm.
Proof.
  intros Hrun Hi Hc Hin Hci. unfold updateRedisConfigs in Hrun.
  run_step Hrun r wa Eg. destruct r as [cf|e]; [|done]. cbv zeta in Hrun.
  assert (Hwa : inHand uuid pre m post wa)
    by (eapply inHand_after; [exact Eg|apply keepsMembers_GetConfigFile|done]).
  destruct (_ && _).
  - injection Hrun as <-. by exists m.
  - by eapply updateMemberConfig_step.
Qed.

Lemma redisConfigsLoop_step uuid pre m post (i : nat) cfgs w w1 :
  redisConfigsLoop m i cfgs w = (Done (Success tt), w1) →
  (∀ j c, cfgs !! j = Some c → ServiceMember.Configs m !! (i + j)%nat = Some c) →
  inHand uuid pre m post w → hasClusterInfo md5 m →
  ∃ nm, inHand uuid pre nm post w1 ∧ hasClusterInfo md5 nm.
Proof using redis_conf_is_not_cluster_info.
  revert i. induction cfgs as [|c rest IH]; intros i Hrun Hsuf Hin Hci; simpl in Hrun.
  - injection Hrun as <-. by exists m.
  - destruct (IsRedisConfFile (MemberConfig.FileName c)) eqn:Hredis; simpl in Hrun.
    + eapply updateRedisConfigs_step; [exact Hrun| | |done|done].
      * specialize (Hsuf 0%nat c eq_refl). by rewrite Nat.add_0_r in Hsuf.
      * by apply redis_conf_is_not_cluster_info.
    + eapply (IH (S i)); [exact Hrun| |done|done].
      intros j c' Hj. specialize (Hsuf (S j) c' Hj).
      by replace (S i + j)%nat with (i + S j)%nat by lia.
Qed.

(** After a successful run of the members loop every stored member of the
    service carries the cluster-info slot of [cfg]. *)
Lemma redisMembersLoop_establishes uuid pre ms w w1 :
  redisMembersLoop cfg ms w = (Done (Success tt), w1) →
  listMembers (db w) uuid = pre ++ ms →
  NoDup (ServiceMember.MemberName <$> (pre ++ ms)) →
  Forall (λ m, ServiceMember.ServiceUUID m = uuid) ms →
  Forall (hasClusterInfo md5) pre →
  Forall (hasClusterInfo md5) (listMembers (db w1) uuid).
Proof using cfg_is_cluster_info redis_conf_is_not_cluster_info.
  revert pre w. induction ms as [|m rest IH]; intros pre w Hrun Hl Hnd Hu Hpre.
  - injection Hrun as <-. by rewrite Hl, app_nil_r.
  - simpl in Hrun. apply Forall_cons in Hu as [Hum Hu].
    run_step Hrun r wa Ec. destruct r as [nm|e]; [|done].
    destruct (createRedisClusterFile_step uuid pre m rest w nm wa Ec) as [Hin Hci];
      [done|].
    run_step Hrun r wb Er. destruct r as [[]|e]; [|done].
    destruct (redisConfigsLoop_step uuid pre nm rest 0 _ wa wb Er) as (nm' & Hin' & Hci');
      [done|done|done|].
    destruct Hin' as (Hl' & Hnd' & _).
    apply (IH (pre ++ [nm']) wb Hrun).
    + by rewrite <- app_assoc.
    + by rewrite <- app_assoc.
    + done.
    + apply Forall_app. split; [done|]. by constructor.
Qed.

End Established.

Lemma keepsMembers_reads_inv c n w svc w1 :
  GetService c n w = (Done (Success svc), w1) → db w1 = db w.
Proof. intros E. by apply GetService_success in E as [-> _]. Qed.

(** A successful [setRedisInit] leaves the cluster-info slot of its
    NodeIds on every member of the service. *)
Lemma setRedisInit_establishes req w0 w1 service :
  let cfg := CreateClusterInfoFile (CatalogSetRedisInitRequest.NodeIds req) in
  let uuid := Service.ServiceUUID service in
  IsClusterInfoFile (ReplicaConfigFile.FileName cfg) = true →
  (∀ n, IsRedisConfFile n = true → IsClusterInfoFile n = false) →
  services (db w0) !! (cluster s, CatalogSetRedisInitRequest.ServiceName req)
    = Some service →
  NoDup (ServiceMember.MemberName <$> listMembers (db w0) uuid) →
  Forall (λ m, ServiceMember.ServiceUUID m = uuid) (listMembers (db w0) uuid) →
  setRedisInit s (Decoded req) w0 = (Done ("", StatusOK), w1) →
  Forall (hasClusterInfo (GenMD5 (ReplicaConfigFile.Content cfg)))
         (listMembers (db w1) uuid).
Proof.
  intros cfg uuid Hci Hredis Hsvc Hnd Hu Hrun. unfold setRedisInit in Hrun.
  destruct (_ || _); [done|].
  run_step Hrun nid wi Ei.
  pose proof (index_world _ _ _ _ _ Ei) as ->.
  destruct (GetService_run (cluster s) (CatalogSetRedisInitRequest.ServiceName req) w0)
    as (r1 & E1 & Hs).
  rewrite (bind_done _ _ _ _ _ E1) in Hrun. destruct r1 as [service'|e].
  2: { injection Hrun as E _. by destruct e. }
  specialize (Hs _ eq_refl). rewrite Hsvc in Hs. injection Hs as <-.
  match type of Hrun with _ ?w = _ =>
    destruct (GetServiceAttr_run (Service.ServiceUUID service) w) as (r2 & E2) end.
  rewrite (bind_done _ _ _ _ _ E2) in Hrun. destruct r2 as [attr|e].
  2: { injection Hrun as E _. by destruct e. }
  match type of Hrun with _ ?w = _ =>
    destruct (ListServiceMembers_run (Service.ServiceUUID service) w) as (r3 & E3 & Hl) end.
  rewrite (bind_done _ _ _ _ _ E3) in Hrun. destruct r3 as [ms|e].
  2: { injection Hrun as E _. by destruct e. }
  specialize (Hl _ eq_refl). simpl in Hl. fold uuid in Hl.
  unfold bind at 1 in Hrun. unfold UpdateTaskStatusMsg at 1, modify at 1 in Hrun.
  run_step Hrun r4 w4 E4. destruct r4 as [[]|e].
  2: { injection Hrun as E _. by destruct e. }
  fold cfg in E4.
  apply (redisMembersLoop_establishes cfg Hci Hredis uuid []) in E4;
    [|simpl; congruence|simpl; congruence|congruence|constructor].
  unfold bind at 1 in Hrun. unfold UpdateTaskStatusMsg at 1, modify at 1 in Hrun.
  run_step Hrun r5 w5 E5.
  pose proof (listMembers_after _ uuid _ _ _ E5 (keepsMembers_RestartService _ _ _))
    as Hk5.
  simpl in Hk5.
  destruct r5 as [[]|e].
  2: { injection Hrun as E _. by destruct e. }
  pose proof (listMembers_after _ uuid _ _ _ Hrun (keepsMembers_setServiceInitialized _))
    as Hk6.
  by rewrite Hk6, Hk5.
Qed.

(** C2.  [createRedisClusterFile]: a member whose first cluster-info slot
    has the MD5 of the new content is returned as it is, with no call and
    no change; a different MD5 fails with ConfigMismatch, again with no
    call; a member with no cluster-info slot gets the file created at
    version 0 and a slot for it appended through the compare-and-swap
    update, the slot carrying the MD5 of the content.

    Consequently, after a [setRedisInit] that succeeded every member of
    the service carries the cluster-info slot of its NodeIds.  In a second
    run over these members the cluster-info step does nothing: with the
    same NodeIds the members loop is the loop with that step left out; with
    NodeIds whose cluster-info content has another MD5 the loop fails at the
    first member, and the request is answered with ConfigMismatch after its
    three reads. *)
Theorem cluster_info_file_is_written_once :
  (∀ member cfg w pre c post,
     ServiceMember.Configs member = pre ++ c :: post →
     Forall (λ c, IsClusterInfoFile (MemberConfig.FileName c) = false) pre →
     IsClusterInfoFile (MemberConfig.FileName c) = true →
     (MemberConfig.FileMD5 c = GenMD5 (ReplicaConfigFile.Content cfg) →
        createRedisClusterFile member cfg w = (Done (Success member), w))
     ∧ (MemberConfig.FileMD5 c ≠ GenMD5 (ReplicaConfigFile.Content cfg) →
        createRedisClusterFile member cfg w = (Done (Failure ErrConfigMismatch), w)))
  ∧ (∀ member cfg w created w1 w2,
     let fileID :=
       GenMemberConfigFileID (ServiceMember.MemberName member)
                             (ReplicaConfigFile.FileName cfg) 0 in
     let initcfgfile :=
       CreateInitialConfigFile (ServiceMember.ServiceUUID member) fileID
         (ReplicaConfigFile.FileName cfg) (ReplicaConfigFile.FileMode cfg)
         (ReplicaConfigFile.Content cfg) in
     let newMember :=
       UpdateServiceMemberConfigs member
         (ServiceMember.Configs member
            ++ [MemberConfig.mk (ReplicaConfigFile.FileName cfg) fileID
                                (ConfigFile.FileMD5 created)]) in
     Forall (λ c, IsClusterInfoFile (MemberConfig.FileName c) = false)
            (ServiceMember.Configs member) →
     CreateConfigFile initcfgfile w = (Done (Success created), w1) →
     UpdateServiceMember member newMember w1 = (Done (Success tt), w2) →
     createRedisClusterFile member cfg w = (Done (Success newMember), w2)
     ∧ ConfigFile.FileMD5 created = GenMD5 (ReplicaConfigFile.Content cfg))
  ∧ (∀ req w0 w1 service,
     let name := CatalogSetRedisInitRequest.ServiceName req in
     let cfg := CreateClusterInfoFile (CatalogSetRedisInitRequest.NodeIds req) in
     let md5 := GenMD5 (ReplicaConfigFile.Content cfg) in
     let uuid := Service.ServiceUUID service in
     let members := listMembers (db w1) uuid in
     IsClusterInfoFile (ReplicaConfigFile.FileName cfg) = true →
     (∀ n, IsRedisConfFile n = true → IsClusterInfoFile n = false) →
     services (db w0) !! (cluster s, name) = Some service →
     NoDup (ServiceMember.MemberName <$> listMembers (db w0) uuid) →
     Forall (λ m, ServiceMember.ServiceUUID m = uuid) (listMembers (db w0) uuid) →
     setRedisInit s (Decoded req) w0 = (Done ("", StatusOK), w1) →
     Forall (hasClusterInfo md5) members
     ∧ (∀ w, redisMembersLoop cfg members w = redisConfOnlyLoop members w)
     ∧ (∀ req' w wa attr wb wc,
          let cfg' := CreateClusterInfoFile (CatalogSetRedisInitRequest.NodeIds req') in
          CatalogSetRedisInitRequest.Cluster req' = cluster s →
          CatalogSetRedisInitRequest.Region req' = region s →
          CatalogSetRedisInitRequest.ServiceName req' = name →
          CatalogSetRedisInitRequest.NodeIds req' ≠ [] →
          GenMD5 (ReplicaConfigFile.Content cfg') ≠ md5 →
          members ≠ [] →
          GetService (cluster s) name w = (Done (Success service), wa) →
          GetServiceAttr uuid wa = (Done (Success attr), wb) →
          ListServiceMembers uuid wb = (Done (Success members), wc) →
          (∀ w', redisMembersLoop cfg' members w' = (Done (Failure ErrConfigMismatch), w'))
          ∧ setRedisInit s (Decoded req') w
            = (Done (ConvertToHTTPError ErrConfigMismatch),
               set_initTasks
                 (alter (setStatusMessage
                    "create the member to Redis nodeID mapping for the Redis cluster")
                    uuid) wc))).
Proof.
  split; [|split].
  - intros member cfg w pre c post Hcfgs Hpre Hc.
    assert (Hfind : findClusterInfo (ServiceMember.Configs member) = Some c)
      by (rewrite Hcfgs; by apply findClusterInfo_some).
    split; intros Hmd5.
    + apply createRedisClusterFile_present. by exists c.
    + eapply createRedisClusterFile_mismatch; [by exists c|done].
  - intros member cfg w created w1 w2 fileID initcfgfile newMember Hnone Hc Hu.
    split.
    + unfold createRedisClusterFile. rewrite (findClusterInfo_none _ Hnone).
      fold fileID initcfgfile. rewrite (bind_done _ _ _ _ _ Hc).
      rewrite CopyMemberConfigs_id. fold newMember.
      by rewrite (bind_done _ _ _ _ _ Hu).
    + apply CreateConfigFile_success in Hc.
      by destruct Hc as [(_ & -> & _)|(_ & -> & _)].
  - intros req w0 w1 service name cfg md5 uuid members Hci Hredis Hsvc Hnd Hu Hrun.
    assert (Hall : Forall (hasClusterInfo md5) members)
      by (by eapply setRedisInit_establishes).
    split; [done|]. split; [intros w; by apply redisMembersLoop_present|].
    intros req' w wa attr wb wc cfg' Hc Hr Hn Hids Hmd5 Hne Hgs Hga Hlm.
    assert (Hloop : ∀ w', redisMembersLoop cfg' members w'
                          = (Done (Failure ErrConfigMismatch), w')).
    { intros w'. destruct members as [|m rest]; [done|].
      apply Forall_cons in Hall as [Hm _]. simpl.
      by rewrite (bind_done _ _ _ _ _
                    (createRedisClusterFile_mismatch _ _ _ _ Hm (not_eq_sym Hmd5))). }
    split; [done|].
    unfold setRedisInit. rewrite (matching_check _ _ _ Hc Hr).
    destruct (CatalogSetRedisInitRequest.NodeIds req') as [|id ids] eqn:Eids; [done|].
    rewrite (bind_done _ _ _ _ _ (index_head _ _ _)), Hn.
    rewrite (bind_done _ _ _ _ _ Hgs), (bind_done _ _ _ _ _ Hga).
    rewrite (bind_done _ _ _ _ _ Hlm).
    unfold bind at 1. unfold UpdateTaskStatusMsg at 1, modify at 1.
    subst cfg'. by rewrite (bind_done _ _ _ _ _ (Hloop _)).
Qed.

End ClusterInfo.

(** ** What a computation leaves alone *)

Section Keeps.
Context `{Catalog} {X : Type} (proj : World → X).

Lemma keeps_ret {A} (a : A) : keeps proj (ret a).
Proof. by intros w. Qed.

Lemma keeps_raise {A} p : keeps proj (@raise A p).
Proof. by intros w. Qed.

Lemma keeps_gets {A} (f : World → A) : keeps proj (gets f).
Proof. by intros w. Qed.

Lemma keeps_modify f : (∀ w, proj (f w) = proj w) → keeps proj (modify f).
Proof. intros Hf w. apply Hf. Qed.

Lemma keeps_bind {A B} (m : M A) (k : A → M B) :
  keeps proj m → (∀ a, keeps proj (k a)) → keeps proj (bind m k).
Proof.
  intros Hm Hk w. unfold bind. specialize (Hm w).
  destruct (m w) as [[a|p] w1]; simpl in *; [|done].
  by rewrite Hk.
Qed.

Lemma keeps_extern {A} ev (op : M (res A)) :
  framed proj → keeps proj op → keeps proj (extern ev op).
Proof.
  intros Hc Hop w. rewrite extern_eq. destruct (nextFault w); simpl; [apply Hc|].
  by rewrite Hop.
Qed.

Lemma keeps_index {A} (l : list A) i : keeps proj (index l i).
Proof. intros w. unfold index. case_bool_decide; [|done]. by destruct (_ !! _). Qed.

Lemma keeps_deref {A} (p : option A) : keeps proj (deref p).
Proof. intros w. by destruct p. Qed.

End Keeps.

Lemma framed_resp : framed resp.
Proof. by intros ev w. Qed.

Lemma framed_stored : framed stored.
Proof. by intros ev w. Qed.

Create HintDb keeps discriminated.
#[export] Hint Resolve framed_resp framed_stored : keeps.
#[export] Hint Resolve keeps_ret keeps_raise keeps_gets keeps_index keeps_deref : keeps.

(** One step through the body of a computation. *)
Ltac keeps_step :=
  first
  [ solve [auto 2 with keeps]
  | apply keeps_modify; intros ?; reflexivity
  | apply keeps_extern; [solve [auto with keeps]|]
  | apply keeps_bind; [|intros ?]
  | match goal with |- keeps _ (match ?x with _ => _ end) => destruct x end
  | match goal with |- keeps _ (let '(_, _) := ?x in _) => destruct x end
  | progress cbv beta zeta ].
Ltac keeps_auto := repeat keeps_step.

Section KeepsReads.
Context `{Catalog} {X : Type} (proj : World → X).
Hypothesis proj_called : framed proj.

Lemma keeps_GetService c n : keeps proj (GetService c n).
Proof using proj_called. unfold GetService. keeps_auto. Qed.

Lemma keeps_GetServiceAttr u : keeps proj (GetServiceAttr u).
Proof using proj_called. unfold GetServiceAttr. keeps_auto. Qed.

Lemma keeps_ListServices c : keeps proj (ListServices c).
Proof using proj_called. unfold ListServices. keeps_auto. Qed.

Lemma keeps_ListServiceMembers u : keeps proj (ListServiceMembers u).
Proof using proj_called. unfold ListServiceMembers. keeps_auto. Qed.

Lemma keeps_ListVolumes u : keeps proj (ListVolumes u).
Proof using proj_called. unfold ListVolumes. keeps_auto. Qed.

Lemma keeps_GetConfigFile u f : keeps proj (GetConfigFile u f).
Proof using proj_called. unfold GetConfigFile. keeps_auto. Qed.

Lemma keeps_IsServiceExist c n : keeps proj (IsServiceExist c n).
Proof using proj_called. unfold IsServiceExist. keeps_auto. Qed.

Lemma keeps_RestartService c n r : keeps proj (RestartService c n r).
Proof using proj_called. unfold RestartService. keeps_auto. Qed.

Lemma keeps_GetServiceStatus c n : keeps proj (GetServiceStatus c n).
Proof using proj_called. unfold GetServiceStatus. keeps_auto. Qed.

Lemma keeps_GetTaskStatus c t : keeps proj (GetTaskStatus c t).
Proof using proj_called. unfold GetTaskStatus. keeps_auto. Qed.

Lemma keeps_DeleteTask c n t : keeps proj (DeleteTask c n t).
Proof using proj_called. unfold DeleteTask. keeps_auto. Qed.

Lemma keeps_listAttrsLoop prefix svcs acc :
  keeps proj (Server.listAttrsLoop prefix svcs acc).
Proof using proj_called.
  revert acc. induction svcs as [|svc rest IH]; intros acc; simpl; [keeps_auto|].
  destruct (_ || _); [|apply IH].
  apply keeps_bind; [apply keeps_GetServiceAttr|].
  intros [attr|e]; [apply IH|keeps_auto].
Qed.

End KeepsReads.

#[export] Hint Resolve keeps_GetService keeps_GetServiceAttr keeps_ListServices
  keeps_ListServiceMembers keeps_ListVolumes keeps_GetConfigFile keeps_IsServiceExist
  keeps_RestartService keeps_GetServiceStatus keeps_GetTaskStatus keeps_DeleteTask
  keeps_listAttrsLoop : keeps.

(** *** The response writer

    Nothing but the handlers themselves writes to the response. *)

Section KeepsResp.
Context `{Catalog}.
Variable s : ManageHTTPServer.

Lemma resp_CreateConfigFile cf : keeps resp (CreateConfigFile cf).
Proof. unfold CreateConfigFile. keeps_auto. Qed.

Lemma resp_DeleteConfigFile u f : keeps resp (DeleteConfigFile u f).
Proof. unfold DeleteConfigFile. keeps_auto. Qed.

Lemma resp_UpdateServiceMember old new : keeps resp (UpdateServiceMember old new).
Proof. unfold UpdateServiceMember. keeps_auto. Qed.

Lemma resp_DeleteService c n : keeps resp (DeleteService c n).
Proof. unfold DeleteService. keeps_auto. Qed.

Lemma resp_svc_CreateService req domain vpcID :
  keeps resp (svc_CreateService req domain vpcID).
Proof. unfold svc_CreateService. keeps_auto. Qed.

Lemma resp_svc_SetServiceInitialized c n : keeps resp (svc_SetServiceInitialized c n).
Proof. unfold svc_SetServiceInitialized. keeps_auto. Qed.

Lemma resp_cs_CreateService opts : keeps resp (cs_CreateService opts).
Proof. unfold cs_CreateService. keeps_auto. Qed.

Lemma resp_RunTask opts : keeps resp (RunTask opts).
Proof. unfold RunTask. keeps_auto. Qed.

Lemma resp_hasInitTask u : keeps resp (hasInitTask u).
Proof. unfold hasInitTask. keeps_auto. Qed.

Lemma resp_addInitTask task : keeps resp (addInitTask task).
Proof. unfold addInitTask. keeps_auto. Qed.

Lemma resp_UpdateTaskStatusMsg u msg : keeps resp (UpdateTaskStatusMsg u msg).
Proof. unfold UpdateTaskStatusMsg. keeps_auto. Qed.

#[local] Hint Resolve resp_CreateConfigFile resp_DeleteConfigFile resp_UpdateServiceMember
  resp_DeleteService resp_svc_CreateService resp_svc_SetServiceInitialized
  resp_cs_CreateService resp_RunTask resp_hasInitTask resp_addInitTask
  resp_UpdateTaskStatusMsg : keeps.

Lemma resp_setServiceInitialized name : keeps resp (setServiceInitialized s name).
Proof. unfold setServiceInitialized. keeps_auto. Qed.

Lemma resp_createContainerService req uuid : keeps resp (createContainerService req uuid).
Proof. unfold createContainerService. keeps_auto. Qed.

#[local] Hint Resolve resp_setServiceInitialized resp_createContainerService : keeps.

Lemma resp_createCommonService req : keeps resp (createCommonService s req).
Proof. unfold createCommonService. keeps_auto. Qed.

Lemma resp_updateMemberConfig member cfgfile i newContent :
  keeps resp (updateMemberConfig member cfgfile i newContent).
Proof. unfold updateMemberConfig. keeps_auto. Qed.

#[local] Hint Resolve resp_createCommonService resp_updateMemberConfig : keeps.

Lemma resp_enableMongoDBAuth cfg i member : keeps resp (enableMongoDBAuth cfg i member).
Proof. unfold enableMongoDBAuth. keeps_auto. Qed.

Lemma resp_mongoConfigsLoop member i cfgs : keeps resp (mongoConfigsLoop member i cfgs).
Proof.
  revert i. induction cfgs as [|cfg rest IH]; intros i; simpl; [keeps_auto|].
  destruct (negb _); [apply IH|apply resp_enableMongoDBAuth].
Qed.

Lemma resp_mongoMembersLoop members : keeps resp (mongoMembersLoop members).
Proof.
  induction members as [|m rest IH]; simpl; [keeps_auto|].
  apply keeps_bind; [apply resp_mongoConfigsLoop|]. intros [[]|e]; [apply IH|keeps_auto].
Qed.

Lemma resp_createRedisClusterFile member cfg :
  keeps resp (createRedisClusterFile member cfg).
Proof. unfold createRedisClusterFile. keeps_auto. Qed.

Lemma resp_updateRedisConfigs cfg i member : keeps resp (updateRedisConfigs cfg i member).
Proof. unfold updateRedisConfigs. keeps_auto. Qed.

Lemma resp_redisConfigsLoop member i cfgs : keeps resp (redisConfigsLoop member i cfgs).
Proof.
  revert i. induction cfgs as [|cfg rest IH]; intros i; simpl; [keeps_auto|].
  destruct (negb _); [apply IH|apply resp_updateRedisConfigs].
Qed.

Lemma resp_redisMembersLoop cfg members : keeps resp (redisMembersLoop cfg members).
Proof.
  induction members as [|m rest IH]; simpl; [keeps_auto|].
  apply keeps_bind; [apply resp_createRedisClusterFile|]. intros [nm|e]; [|keeps_auto].
  apply keeps_bind; [apply resp_redisConfigsLoop|]. intros [[]|e]; [apply IH|keeps_auto].
Qed.

Lemma resp_updateConsulMemberConfig member ips :
  keeps resp (updateConsulMemberConfig member ips).
Proof. unfold updateConsulMemberConfig. keeps_auto. Qed.

Lemma resp_consulMembersLoop ips members : keeps resp (consulMembersLoop ips members).
Proof.
  induction members as [|m rest IH]; simpl; [keeps_auto|].
  apply keeps_bind; [apply resp_updateConsulMemberConfig|].
  intros [[]|e]; [apply IH|keeps_auto].
Qed.

#[local] Hint Resolve resp_mongoMembersLoop resp_redisMembersLoop resp_consulMembersLoop
  : keeps.

Lemma resp_updateConsulConfigs uuid domain : keeps resp (updateConsulConfigs uuid domain).
Proof. unfold updateConsulConfigs. keeps_auto. Qed.

Lemma resp_addRedisInitTask req uuid shards replicas :
  keeps resp (addRedisInitTask s req uuid shards replicas).
Proof. unfold addRedisInitTask. keeps_auto. Qed.

#[local] Hint Resolve resp_updateConsulConfigs resp_addRedisInitTask : keeps.

Lemma resp_resumeInit req attr : keeps resp (resumeInit s req attr).
Proof.
  unfold resumeInit, addMongoDBInitTask, addCasInitTask, addCouchDBInitTask. keeps_auto.
Qed.

Lemma resp_checkInitialized req service : keeps resp (checkInitialized s req service).
Proof.
  unfold checkInitialized. keeps_auto; apply resp_resumeInit.
Qed.

End KeepsResp.

#[export] Hint Resolve resp_CreateConfigFile resp_DeleteConfigFile resp_UpdateServiceMember
  resp_DeleteService resp_svc_CreateService resp_svc_SetServiceInitialized
  resp_cs_CreateService resp_RunTask resp_hasInitTask resp_addInitTask
  resp_UpdateTaskStatusMsg resp_setServiceInitialized resp_createContainerService
  resp_createCommonService resp_updateMemberConfig resp_mongoMembersLoop
  resp_redisMembersLoop resp_consulMembersLoop resp_updateConsulConfigs
  resp_addRedisInitTask resp_resumeInit resp_checkInitialized : keeps.

Section Replies.
Context `{Catalog}.
Variable s : ManageHTTPServer.

Lemma replies_ret r : replies (ret r).
Proof.
  intros w. exists []. rewrite app_nil_r. split; [done|]. simpl.
  case_bool_decide; [by left|done].
Qed.

Lemma replies_raise p : replies (raise p).
Proof. intros w. exists []. by rewrite app_nil_r. Qed.

Lemma replies_bind {A} (m : M A) (k : A → M (string * Z)) :
  keeps resp m → (∀ a, replies (k a)) → replies (bind m k).
Proof.
  intros Hm Hk w. unfold bind. specialize (Hm w).
  destruct (m w) as [[a|p] w1]; simpl in *.
  - rewrite <- Hm. apply Hk.
  - exists []. by rewrite app_nil_r.
Qed.

Lemma replies_http {A} (r : res A) (k : A → M (string * Z)) :
  (∀ a, replies (k a)) →
  replies (match r with Success x => k x | Failure e => ret (ConvertToHTTPError e) end).
Proof. intros Hk. destruct r; [apply Hk|apply replies_ret]. Qed.

Lemma replies_header : replies (w_WriteHeader StatusOK ;;; ret ("", StatusOK)).
Proof. intros w. exists [WriteHeader StatusOK]. split; [done|]. right. by left. Qed.

Lemma replies_body b :
  replies (w_WriteHeader StatusOK ;;; w_Write b ;;; ret ("", StatusOK)).
Proof.
  intros w. exists [WriteHeader StatusOK; Write b]. rewrite write_response.
  split; [done|]. right. right. by exists b.
Qed.

End Replies.

(** One step through the body of a handler. *)
Ltac replies_step :=
  first
  [ apply replies_ret
  | apply replies_raise
  | apply replies_body
  | apply replies_header
  | apply replies_http; intros ?
  | apply replies_bind; [solve [keeps_auto]|intros ?]
  | match goal with |- replies (match ?x with _ => _ end) => destruct x end
  | match goal with |- replies (let '(_, _) := ?x in _) => destruct x end
  | progress cbv beta zeta ].
Ltac replies_auto := repeat replies_step.

Section Responses.
Context `{Catalog}.
Variable s : ManageHTTPServer.

Lemma replies_Server_setServiceInitialized body : replies (Server.setServiceInitialized s body).
Proof. unfold Server.setServiceInitialized. replies_auto. Qed.

Lemma replies_Server_createService body name : replies (Server.createService s body name).
Proof. unfold Server.createService. replies_auto. Qed.

Lemma replies_Server_deleteService body name : replies (Server.deleteService s body name).
Proof. unfold Server.deleteService. replies_auto. Qed.

Lemma replies_Server_listServices body : replies (Server.listServices s body).
Proof. unfold Server.listServices. replies_auto. Qed.

Lemma replies_Server_listVolumes body : replies (Server.listVolumes s body).
Proof. unfold Server.listVolumes. replies_auto. Qed.

Lemma replies_Server_getServiceAttr body name : replies (Server.getServiceAttr s body name).
Proof. unfold Server.getServiceAttr. replies_auto. Qed.

Lemma replies_Server_getServiceStatus body : replies (Server.getServiceStatus s body).
Proof. unfold Server.getServiceStatus. replies_auto. Qed.

Lemma replies_Server_runTask body : replies (Server.runTask s body).
Proof. unfold Server.runTask. replies_auto. Qed.

Lemma replies_Server_getTaskStatus body : replies (Server.getTaskStatus s body).
Proof. unfold Server.getTaskStatus. replies_auto. Qed.

Lemma replies_Server_deleteTask body : replies (Server.deleteTask s body).
Proof. unfold Server.deleteTask. replies_auto. Qed.

Lemma replies_getCatalogServiceOp body : replies (getCatalogServiceOp s body).
Proof. unfold getCatalogServiceOp. replies_auto. Qed.

Lemma replies_catalogSetServiceInit body : replies (catalogSetServiceInit s body).
Proof. unfold catalogSetServiceInit, setMongoDBInit. replies_auto. Qed.

Lemma replies_setRedisInit body : replies (setRedisInit s body).
Proof. unfold setRedisInit. replies_auto. Qed.

Lemma replies_createMongoDBService body : replies (createMongoDBService s body).
Proof. unfold createMongoDBService, addMongoDBInitTask. replies_auto. Qed.

Lemma replies_createPGService body : replies (createPGService s body).
Proof. unfold createPGService, createValidated. replies_auto. Qed.

Lemma replies_createCasService body : replies (createCasService s body).
Proof. unfold createCasService, addCasInitTask. replies_auto. Qed.

Lemma replies_createZkService body : replies (createZkService s body).
Proof. unfold createZkService. replies_auto. Qed.

Lemma replies_createKafkaService body : replies (createKafkaService s body).
Proof. unfold createKafkaService. replies_auto. Qed.

Lemma replies_createRedisService body : replies (createRedisService s body).
Proof. unfold createRedisService. replies_auto. Qed.

Lemma replies_createCouchDBService body : replies (createCouchDBService s body).
Proof. unfold createCouchDBService, addCouchDBInitTask. replies_auto. Qed.

Lemma replies_createConsulService body : replies (createConsulService s body).
Proof. unfold createConsulService. replies_auto. Qed.

Lemma replies_createElasticSearchService body : replies (createElasticSearchService s body).
Proof. unfold createElasticSearchService, createValidated. replies_auto. Qed.

Lemma replies_createKibanaService body : replies (createKibanaService s body).
Proof. unfold createKibanaService. replies_auto. Qed.

Lemma replies_createLogstashService body : replies (createLogstashService s body).
Proof. unfold createLogstashService, createValidated. replies_auto. Qed.

End Responses.

(** ** The calls a computation makes *)

Section CallsOf.
Context `{Catalog} (φ : Event → Prop).

Lemma calls_ret {A} (a : A) : calls φ (ret a).
Proof. intros w. exists []. by rewrite app_nil_r. Qed.

Lemma calls_raise {A} p : calls φ (@raise A p).
Proof. intros w. exists []. by rewrite app_nil_r. Qed.

Lemma calls_gets {A} (f : World → A) : calls φ (gets f).
Proof. intros w. exists []. by rewrite app_nil_r. Qed.

Lemma calls_modify f : (∀ w, trace (f w) = trace w) → calls φ (modify f).
Proof. intros Hf w. exists []. simpl. by rewrite Hf, app_nil_r. Qed.

Lemma calls_bind {A B} (m : M A) (k : A → M B) :
  calls φ m → (∀ a, calls φ (k a)) → calls φ (bind m k).
Proof.
  intros Hm Hk w. unfold bind. destruct (Hm w) as (t1 & Ht1 & Hφ1).
  destruct (m w) as [[a|p] w1]; simpl in *; [|by exists t1].
  destruct (Hk a w1) as (t2 & Ht2 & Hφ2).
  exists (t1 ++ t2). rewrite Ht2, Ht1, app_assoc. split; [done|]. by apply Forall_app.
Qed.

Lemma calls_extern {A} ev (op : M (res A)) :
  φ ev → calls φ op → calls φ (extern ev op).
Proof.
  intros Hev Hop w. rewrite extern_eq. destruct (nextFault w); simpl.
  - exists [ev]. split; [done|]. by repeat constructor.
  - destruct (Hop (called ev w)) as (t & Ht & Hφ).
    exists (ev :: t). rewrite Ht. simpl. rewrite <- app_assoc. split; [done|].
    by constructor.
Qed.

Lemma calls_index {A} (l : list A) i : calls φ (index l i).
Proof.
  intros w. exists []. rewrite app_nil_r. split; [|done].
  unfold index. case_bool_decide; [|done]. by destruct (_ !! _).
Qed.

Lemma calls_deref {A} (p : option A) : calls φ (deref p).
Proof. intros w. exists []. rewrite app_nil_r. by destruct p. Qed.

End CallsOf.

Lemma calls_weaken `{Catalog} {A} (φ ψ : Event → Prop) (m : M A) :
  (∀ ev, φ ev → ψ ev) → calls φ m → calls ψ m.
Proof.
  intros Hφψ Hm w. destruct (Hm w) as (t & Ht & Hφ). exists t. split; [done|].
  eapply Forall_impl; [exact Hφ|done].
Qed.

(** The calls of a computation of the config store. *)
Lemma calls_config `{Catalog} {A} names (m : M A) :
  emits (λ _, configTrace names) m → calls configEvent m.
Proof.
  intros Hm w. destruct (Hm w) as (t & Ht & _ & [Hc _] & _). by exists t.
Qed.

Create HintDb calls discriminated.
#[export] Hint Resolve calls_ret calls_raise calls_gets calls_index calls_deref : calls.

(** One step through the body of a computation. *)
Ltac calls_step :=
  first
  [ solve [auto 2 with calls]
  | apply calls_modify; intros ?; reflexivity
  | apply calls_extern; [exact I|]
  | apply calls_bind; [|intros ?]
  | match goal with |- calls _ (match ?x with _ => _ end) => destruct x end
  | match goal with |- calls _ (let '(_, _) := ?x in _) => destruct x end
  | progress cbv beta zeta ].
Ltac calls_auto := repeat calls_step.

Section ReadHandlers.
Context `{Catalog}.
Variable s : ManageHTTPServer.

Lemma calls_listAttrsLoop prefix svcs acc :
  calls readCall (Server.listAttrsLoop prefix svcs acc).
Proof.
  revert acc. induction svcs as [|svc rest IH]; intros acc; simpl; [calls_auto|].
  destruct (_ || _); [|apply IH].
  apply calls_bind; [unfold GetServiceAttr; calls_auto|].
  intros [attr|e]; [apply IH|calls_auto].
Qed.

Lemma reads_Server_listServices body :
  calls readCall (Server.listServices s body) ∧ keeps stored (Server.listServices s body).
Proof.
  unfold Server.listServices, w_WriteHeader, w_Write. split; [|keeps_auto].
  unfold GetService, GetServiceAttr, ListServices, ListVolumes, GetServiceStatus,
    GetTaskStatus.
  calls_auto; apply calls_listAttrsLoop.
Qed.

Lemma reads_Server_listVolumes body :
  calls readCall (Server.listVolumes s body) ∧ keeps stored (Server.listVolumes s body).
Proof.
  unfold Server.listVolumes, w_WriteHeader, w_Write. split; [|keeps_auto].
  unfold GetService, GetServiceAttr, ListServices, ListVolumes, GetServiceStatus,
    GetTaskStatus.
  calls_auto; apply calls_listAttrsLoop.
Qed.

Lemma reads_Server_getServiceAttr body name :
  calls readCall (Server.getServiceAttr s body name) ∧ keeps stored (Server.getServiceAttr s body name).
Proof.
  unfold Server.getServiceAttr, w_WriteHeader, w_Write. split; [|keeps_auto].
  unfold GetService, GetServiceAttr, ListServices, ListVolumes, GetServiceStatus,
    GetTaskStatus.
  calls_auto; apply calls_listAttrsLoop.
Qed.

Lemma reads_Server_getServiceStatus body :
  calls readCall (Server.getServiceStatus s body) ∧ keeps stored (Server.getServiceStatus s body).
Proof.
  unfold Server.getServiceStatus, w_WriteHeader, w_Write. split; [|keeps_auto].
  unfold GetService, GetServiceAttr, ListServices, ListVolumes, GetServiceStatus,
    GetTaskStatus.
  calls_auto; apply calls_listAttrsLoop.
Qed.

Lemma reads_Server_getTaskStatus body :
  calls readCall (Server.getTaskStatus s body) ∧ keeps stored (Server.getTaskStatus s body).
Proof.
  unfold Server.getTaskStatus, w_WriteHeader, w_Write. split; [|keeps_auto].
  unfold GetService, GetServiceAttr, ListServices, ListVolumes, GetServiceStatus,
    GetTaskStatus.
  calls_auto; apply calls_listAttrsLoop.
Qed.

End ReadHandlers.

(** ** Requests that are rejected before any call *)

Section Validation.
Context `{Catalog} `{Ops}.
Variable s : ManageHTTPServer.

Lemma orb_decide_r (b : bool) (P : Prop) `{Decision P} : P → b || bool_decide P = true.
Proof. intros HP. rewrite (bool_decide_eq_true_2 _ HP). apply orb_true_r. Qed.

(** X3.  [server.go] checks more than the cluster and the region of a
    request it decoded: the service name in the body of a create, a delete
    and a get must be the name in the URL, a GetTaskStatus needs a task id,
    and a DeleteTask a service name and a task type.  The dispatchers
    refuse a URL that has the prefix of the special operations and is none
    of those the method serves, and [putCatalogServiceOp] every URL that is
    no catalog operation.  A body that does not decode is refused on every
    route.  All of these are answered with BadRequest, and the world is as
    it was.  The checks of the name, the task id and the task type stand in
    one condition with the cluster and region check and after it: on the
    body null, and for the create, GetTaskStatus and DeleteTask on a body
    without [Service], that condition is a nil dereference, and the
    handler panics instead, the world as it was. *)
Theorem server_rejects_malformed_requests (w : World) :
  (∀ req name,
     ServiceCommonRequest.ServiceName (CreateServiceRequest.Service req) ≠ name →
     Server.createService s (DecodedS req) name w = (Done BadRequest, w))
  ∧ (∀ req name,
     ServiceCommonRequest.ServiceName req ≠ name →
     Server.deleteService s (Decoded req) name w = (Done BadRequest, w))
  ∧ (∀ req name,
     ServiceCommonRequest.ServiceName req ≠ name →
     Server.getServiceAttr s (Decoded req) name w = (Done BadRequest, w))
  ∧ (∀ req,
     GetTaskStatusRequest.TaskID req = "" →
     Server.getTaskStatus s (DecodedS req) w = (Done BadRequest, w))
  ∧ (∀ req,
     ServiceCommonRequest.ServiceName (DeleteTaskRequest.Service req) = ""
     ∨ DeleteTaskRequest.TaskType req = "" →
     Server.deleteTask s (DecodedS req) w = (Done BadRequest, w))
  ∧ (∀ r trimURL,
     String.prefix SpecialOpPrefix trimURL = true →
     (trimURL ∉ putOps → putOp s r trimURL w = (Done BadRequest, w))
     ∧ (trimURL ∉ getOps → getOp s r trimURL w = (Done BadRequest, w))
     ∧ (trimURL ∉ delOps → delOp s r trimURL w = (Done BadRequest, w)))
  ∧ (∀ r trimURL,
     trimURL ∉ catalogOps → putCatalogServiceOp s r trimURL w = (Done BadRequest, w))
  ∧ (∀ trimURL,
     putOp s undecodable trimURL w = (Done BadRequest, w)
     ∧ getOp s undecodable trimURL w = (Done BadRequest, w)
     ∧ delOp s undecodable trimURL w = (Done BadRequest, w)
     ∧ putCatalogServiceOp s undecodable trimURL w = (Done BadRequest, w))
  ∧ (∀ name,
     Server.createService s NilRequestS name w = (Panicked NilDereference, w)
     ∧ Server.createService s NilServiceS name w = (Panicked NilDereference, w)
     ∧ Server.deleteService s NilRequest name w = (Panicked NilDereference, w)
     ∧ Server.getServiceAttr s NilRequest name w = (Panicked NilDereference, w))
  ∧ Server.getTaskStatus s NilRequestS w = (Panicked NilDereference, w)
  ∧ Server.getTaskStatus s NilServiceS w = (Panicked NilDereference, w)
  ∧ Server.deleteTask s NilRequestS w = (Panicked NilDereference, w)
  ∧ Server.deleteTask s NilServiceS w = (Panicked NilDereference, w).
Proof.
  split; [|split; [|split; [|split; [|split; [|split; [|split; [|split]]]]]]].
  9: by split; [intros name|]; repeat split.
  - intros req name Hn. unfold Server.createService. cbv zeta.
    by rewrite (orb_decide_r _ _ Hn).
  - intros req name Hn. unfold Server.deleteService.
    by rewrite (orb_decide_r _ _ Hn).
  - intros req name Hn. unfold Server.getServiceAttr.
    by rewrite (orb_decide_r _ _ Hn).
  - intros req Hid. unfold Server.getTaskStatus. cbv zeta.
    rewrite Hid. simpl. by rewrite orb_true_r.
  - intros req [Hn|Ht]; unfold Server.deleteTask; cbv zeta.
    + rewrite Hn. simpl. by rewrite orb_true_r.
    + rewrite Ht. simpl. by rewrite orb_true_r.
  - intros r trimURL Hp. unfold putOp, getOp, delOp, putOps, getOps, delOps. rewrite Hp.
    split; [|split]; intros Hnot; rewrite !bool_decide_eq_false_2; try done.
    all: intros ->; apply Hnot; set_solver.
  - intros r trimURL Hnot. unfold putCatalogServiceOp, catalogOps in *.
    rewrite !bool_decide_eq_false_2; try done.
    all: intros ->; apply Hnot; set_solver.
  - intros trimURL. unfold putOp, getOp, delOp, putCatalogServiceOp.
    destruct (String.prefix _ _); repeat split; repeat case_bool_decide; reflexivity.
Qed.

(** X4.  The nine create handlers that validate their request answer a
    request of the server's cluster and region that the catalog's
    validator refuses with the validator's message and the code 400, and
    the world is as it was: nothing was created. *)
Theorem create_rejects_invalid_requests (w : World) (err : error) :
  let local {O} (req : CatalogCreateRequest.t O) :=
    ServiceCommonRequest.Cluster (CatalogCreateRequest.Service req) = cluster s
    ∧ ServiceCommonRequest.Region (CatalogCreateRequest.Service req) = region s in
  let refused : outcome (string * Z) * World := (Done (Error err, StatusBadRequest), w) in
  (∀ req, local req → mongodbcatalog_ValidateRequest req = Some err →
     createMongoDBService s (DecodedS req) w = refused)
  ∧ (∀ req, local req → pgcatalog_ValidateRequest req = Some err →
     createPGService s (DecodedS req) w = refused)
  ∧ (∀ req, local req → cascatalog_ValidateRequest req = Some err →
     createCasService s (DecodedS req) w = refused)
  ∧ (∀ req, local req → rediscatalog_ValidateRequest req = Some err →
     createRedisService s (DecodedS req) w = refused)
  ∧ (∀ req, local req → couchdbcatalog_ValidateRequest req = Some err →
     createCouchDBService s (DecodedS req) w = refused)
  ∧ (∀ req, local req → consulcatalog_ValidateRequest req = Some err →
     createConsulService s (DecodedS req) w = refused)
  ∧ (∀ req, local req → escatalog_ValidateRequest req = Some err →
     createElasticSearchService s (DecodedS req) w = refused)
  ∧ (∀ req, local req → kibanacatalog_ValidateRequest req = Some err →
     createKibanaService s (DecodedS req) w = refused)
  ∧ (∀ req, local req → logstashcatalog_ValidateRequest req = Some err →
     createLogstashService s (DecodedS req) w = refused).
Proof.
  intros local refused. subst local refused.
  repeat split; intros req [Hc Hr] Hv.
  all: unfold createMongoDBService, createPGService, createCasService, createRedisService,
         createCouchDBService, createConsulService, createElasticSearchService,
         createKibanaService, createLogstashService, createValidated, foreign; cbv zeta.
  all: by rewrite (matching_check _ _ _ Hc Hr), Hv.
Qed.

End Validation.

(** ** Creating a service *)

Section Create.
Context `{Catalog}.
Variable s : ManageHTTPServer.

Lemma IsServiceExist_run c n w :
  IsServiceExist c n w =
  match nextFault w with
  | Some e => (Done (Failure e), called (CsIsServiceExist c n) w)
  | None => (Done (Success (bool_decide (is_Some (containers w !! (c, n))))),
             called (CsIsServiceExist c n) w)
  end.
Proof. unfold IsServiceExist. rewrite extern_eq. by destruct (nextFault w). Qed.

Lemma cs_CreateService_run opts w :
  cs_CreateService opts w =
  match nextFault w with
  | Some e => (Done (Failure e), called (CsCreateService opts) w)
  | None =>
      (Done (Success tt),
       set_containers
         <[(CommonOptions.Cluster (CreateServiceOptions.Common opts),
            CommonOptions.ServiceName (CreateServiceOptions.Common opts)) := opts]>
         (called (CsCreateService opts) w))
  end.
Proof. unfold cs_CreateService. rewrite extern_eq. by destruct (nextFault w). Qed.

Lemma GetService_eq c n w :
  GetService c n w =
  (Done match nextFault w with
        | Some e => Failure e
        | None => match services (db w) !! (c, n) with
                  | Some svc => Success svc
                  | None => Failure ErrDBRecordNotFound
                  end
        end, called (DBGetService c n) w).
Proof.
  unfold GetService. rewrite extern_eq. destruct (nextFault w); [done|].
  unfold bind, gets, ret. simpl. by destruct (_ !! _).
Qed.

Lemma GetServiceAttr_eq u w :
  GetServiceAttr u w =
  (Done match nextFault w with
        | Some e => Failure e
        | None => match attrs (db w) !! u with
                  | Some a => Success a
                  | None => Failure ErrDBRecordNotFound
                  end
        end, called (DBGetServiceAttr u) w).
Proof.
  unfold GetServiceAttr. rewrite extern_eq. destruct (nextFault w); [done|].
  unfold bind, gets, ret. simpl. by destruct (_ !! _).
Qed.

Lemma bind_GetService {B} c n (k : res Service.t → M B) w :
  bind (GetService c n) k w
  = k match nextFault w with
      | Some e => Failure e
      | None => match services (db w) !! (c, n) with
                | Some svc => Success svc
                | None => Failure ErrDBRecordNotFound
                end
      end (called (DBGetService c n) w).
Proof. unfold bind. by rewrite GetService_eq. Qed.

Lemma bind_GetServiceAttr {B} u (k : res ServiceAttr.t → M B) w :
  bind (GetServiceAttr u) k w
  = k match nextFault w with
      | Some e => Failure e
      | None => match attrs (db w) !! u with
                | Some a => Success a
                | None => Failure ErrDBRecordNotFound
                end
      end (called (DBGetServiceAttr u) w).
Proof. unfold bind. by rewrite GetServiceAttr_eq. Qed.

(** X5.  [createService] of [server.go], for a request of the server's
    cluster and region whose name is the one in the URL.  When the
    control-plane create fails its error is the answer and the container
    platform is not called.  When it succeeds the platform is asked whether
    the service exists: if it does, nothing is created and the answer is
    200; if it does not, the service is created with the options of the
    request and the serviceUUID the control plane returned.  An error of
    the platform is the answer, and what the control plane created stays. *)
Theorem createService_creates_container_once req w :
  let svc := CreateServiceRequest.Service req in
  let cl := ServiceCommonRequest.Cluster svc in
  let name := ServiceCommonRequest.ServiceName svc in
  let create := svc_CreateService req (GenDefaultDomainName (cluster s)) GetLocalVpcID in
  let run := Server.createService s (DecodedS req) name w in
  cl = cluster s →
  ServiceCommonRequest.Region svc = region s →
  (∀ e w1, create w = (Done (Failure e), w1) → run = (Done (ConvertToHTTPError e), w1))
  ∧ (∀ uuid w1, create w = (Done (Success uuid), w1) →
     let opts := genCreateServiceOptions req uuid in
     let w2 := called (CsIsServiceExist cl name) w1 in
     let w3 := called (CsCreateService opts) w2 in
     (∀ e, nextFault w1 = Some e → run = (Done (ConvertToHTTPError e), w2))
     ∧ (nextFault w1 = None → is_Some (containers w1 !! (cl, name)) →
        run = (Done ("", StatusOK), w2))
     ∧ (nextFault w1 = None → containers w1 !! (cl, name) = None →
        (∀ e, nextFault w2 = Some e → run = (Done (ConvertToHTTPError e), w3))
        ∧ (nextFault w2 = None →
           run = (Done ("", StatusOK), set_containers <[(cl, name) := opts]> w3)))).
Proof.
  intros svc cl name create run Hc Hr. subst run create cl.
  assert (Hcheck :
    bool_decide (ServiceCommonRequest.Cluster svc ≠ cluster s)
    || bool_decide (ServiceCommonRequest.Region svc ≠ region s)
    || bool_decide (ServiceCommonRequest.ServiceName svc ≠ name) = false).
  { rewrite (matching_check _ _ _ Hc Hr). simpl.
    apply bool_decide_eq_false_2. by intros E. }
  split.
  - intros e w1 Hcr. unfold Server.createService. cbv zeta. fold svc.
    by rewrite Hcheck, (bind_done _ _ _ _ _ Hcr).
  - intros uuid w1 Hcr opts w2 w3.
    assert (Hrun : Server.createService s (DecodedS req) name w
      = (exist <-! IsServiceExist (ServiceCommonRequest.Cluster svc) name ;;
         if negb exist then _ <-! cs_CreateService opts ;; ret ("", StatusOK)
         else ret ("", StatusOK)) w1).
    { unfold Server.createService. cbv zeta. fold svc.
      by rewrite Hcheck, (bind_done _ _ _ _ _ Hcr). }
    rewrite Hrun. clear Hrun. split; [|split].
    + intros e He. unfold bind at 1. by rewrite IsServiceExist_run, He.
    + intros Hf Hex. unfold bind at 1.
      by rewrite IsServiceExist_run, Hf, (bool_decide_eq_true_2 _ Hex).
    + intros Hf Hno.
      assert (Hex : (exist <-! IsServiceExist (ServiceCommonRequest.Cluster svc) name ;;
                     if negb exist then _ <-! cs_CreateService opts ;; ret ("", StatusOK)
                     else ret ("", StatusOK)) w1
                    = (_ <-! cs_CreateService opts ;; ret ("", StatusOK)) w2).
      { unfold bind at 1. rewrite IsServiceExist_run, Hf.
        by rewrite bool_decide_eq_false_2 by (rewrite Hno; by intros [? ?]). }
      rewrite Hex. clear Hex.
      split; [intros e He|intros He]; unfold bind at 1;
        by rewrite cs_CreateService_run, He.
Qed.

(** X6.  A Kafka create reads the ZooKeeper service its options name
    before it creates anything, and a Kibana create the Elasticsearch
    service.  When the service or its attributes cannot be read the error
    is the answer, after that one call or those two; in particular a
    service that is not in the DB gives 404 and nothing is created. *)
Theorem kafka_and_kibana_read_their_service_first w :
  let needs {O} (h : decodedS (CatalogCreateRequest.t O) → M (string * Z))
        (req : CatalogCreateRequest.t O) (dep : string) :=
    ServiceCommonRequest.Cluster (CatalogCreateRequest.Service req) = cluster s →
    ServiceCommonRequest.Region (CatalogCreateRequest.Service req) = region s →
    let w1 := called (DBGetService (cluster s) dep) w in
    (∀ e, nextFault w = Some e → h (DecodedS req) w = (Done (ConvertToHTTPError e), w1))
    ∧ (nextFault w = None → services (db w) !! (cluster s, dep) = None →
       h (DecodedS req) w = (Done ("DB record not found", StatusNotFound), w1))
    ∧ (∀ svc, nextFault w = None → services (db w) !! (cluster s, dep) = Some svc →
       let w2 := called (DBGetServiceAttr (Service.ServiceUUID svc)) w1 in
       (∀ e, nextFault w1 = Some e → h (DecodedS req) w = (Done (ConvertToHTTPError e), w2))
       ∧ (nextFault w1 = None → attrs (db w) !! Service.ServiceUUID svc = None →
          h (DecodedS req) w = (Done ("DB record not found", StatusNotFound), w2))) in
  (∀ req, needs (createKafkaService s) req
            (KafkaOptions.ZkServiceName (CatalogCreateRequest.Options req)))
  ∧ (∀ req, kibanacatalog_ValidateRequest req = None →
       needs (createKibanaService s) req
         (KibanaOptions.ESServiceName (CatalogCreateRequest.Options req))).
Proof.
  intros needs. subst needs. cbv beta zeta.
  split.
  - intros req Hc Hr.
    unfold createKafkaService, foreign. cbv zeta. rewrite (matching_check _ _ _ Hc Hr).
    rewrite bind_GetService.
    split; [by intros e ->|]. split; [by intros -> ->|].
    intros svc -> ->. rewrite bind_GetServiceAttr.
    split; [by intros e ->|]. intros ->. simpl. by intros ->.
  - intros req Hv Hc Hr.
    unfold createKibanaService, foreign. cbv zeta.
    rewrite (matching_check _ _ _ Hc Hr), Hv.
    rewrite bind_GetService.
    split; [by intros e ->|]. split; [by intros -> ->|].
    intros svc -> ->. rewrite bind_GetServiceAttr.
    split; [by intros e ->|]. intros ->. simpl. by intros ->.
Qed.

End Create.

(** ** Listing the services *)

Section ListServices.
Context `{Catalog}.
Variable s : ManageHTTPServer.

Lemma faultAt_called ev w i : faultAt (called ev w) i = faultAt w (S i).
Proof. unfold faultAt. simpl. by rewrite lookup_drop. Qed.

(** The empty prefix is a prefix: the length test of the loop is subsumed
    by [strings.HasPrefix]. *)
Lemma selected_named prefix svc :
  bool_decide (String.length prefix = 0) || String.prefix prefix (Service.ServiceName svc)
  = named prefix svc.
Proof.
  unfold named. case_bool_decide as Hl; [|done].
  destruct prefix; [by destruct (Service.ServiceName svc)|done].
Qed.

(** A run of the loop of [listServices] from [w]: it reads the attributes
    of the selected services in order and stops at the first read that
    fails. *)
Lemma listAttrsLoop_run prefix svcs acc w :
  let sel := List.filter (named prefix) svcs in
  let r := Server.listAttrsLoop prefix svcs acc w in
  ∃ n, n ≤ length sel
    ∧ trace (snd r) = trace w ++ attrReads (take n sel)
    ∧ resp (snd r) = resp w
    ∧ match fst r with
      | Done (Success l) =>
          n = length sel
          ∧ (∀ i, i < length sel → faultAt w i = None)
          ∧ ∃ l', l = acc ++ l' ∧ Forall2 (attrOf (db w)) sel l'
      | Done (Failure e) =>
          ¬ ((∀ i, i < length sel → faultAt w i = None)
             ∧ Forall (λ svc, is_Some (attrs (db w) !! Service.ServiceUUID svc)) sel)
      | Panicked _ => False
      end.
Proof.
  revert acc w. induction svcs as [|svc rest IH]; intros acc w; simpl.
  { exists 0. simpl. rewrite app_nil_r. repeat split; [lia|intros; lia|].
    exists []. by rewrite app_nil_r. }
  rewrite selected_named. destruct (named prefix svc) eqn:Hsel; [|apply IH].
  rewrite bind_GetServiceAttr. simpl.
  destruct (nextFault w) as [e|] eqn:Hf.
  { exists 1. simpl. repeat split; [lia|].
    intros [Hno _]. specialize (Hno 0 ltac:(lia)).
    rewrite <- nextFault_faultAt in Hno. congruence. }
  destruct (attrs (db w) !! Service.ServiceUUID svc) as [a|] eqn:Ha.
  2: { exists 1. simpl. repeat split; [lia|].
       intros [_ Hall]. apply Forall_cons in Hall as [[? Hs] _]. congruence. }
  destruct (IH (acc ++ [a]) (called (DBGetServiceAttr (Service.ServiceUUID svc)) w))
    as (n & Hn & Ht & Hr & Hres).
  exists (S n). simpl. split; [lia|].
  split; [by rewrite Ht; simpl; rewrite <- app_assoc|]. split; [done|].
  destruct (fst _) as [[l|e]|p]; [| |done].
  - destruct Hres as (-> & Hno & l' & -> & Hall).
    split; [done|]. split.
    + intros [|i] Hi; [by rewrite <- nextFault_faultAt|].
      specialize (Hno i ltac:(simpl in Hi; lia)). by rewrite faultAt_called in Hno.
    + exists (a :: l'). split; [by rewrite <- app_assoc|]. by constructor.
  - intros [Hno Hall]. apply Hres. split.
    + intros i Hi. rewrite faultAt_called. apply Hno. lia.
    + by apply Forall_cons in Hall as [_ ?].
Qed.

Lemma ListServices_success c w svcs w1 :
  ListServices c w = (Done (Success svcs), w1) → w1 = called (DBListServices c) w.
Proof.
  unfold ListServices. rewrite extern_eq. destruct (nextFault w); [intros [=]|].
  unfold bind, gets, ret. simpl. by intros [=].
Qed.


End ListServices.

(** ** SetServiceInit *)

Section SetServiceInit.
Context `{Catalog}.
Variable s : ManageHTTPServer.

Lemma safe_enableMongoDBAuth cfg (i : nat) c member :
  ServiceMember.Configs member !! i = Some c →
  safe (enableMongoDBAuth cfg (Z.of_nat i) member).
Proof.
  intros Hi. apply safe_bind; [apply safe_GetConfigFile|].
  intros r. apply safe_match_res. intros cf.
  destruct (IsAuthEnabled _); [apply safe_ret|].
  by eapply safe_updateMemberConfig.
Qed.

(** The loop over the slots hands [enableMongoDBAuth] the index of the
    slot it is at. *)
Lemma safe_mongoConfigsLoop member (i : nat) cfgs :
  (∀ j c, cfgs !! j = Some c → ServiceMember.Configs member !! (i + j)%nat = Some c) →
  safe (mongoConfigsLoop member i cfgs).
Proof.
  revert i. induction cfgs as [|cfg rest IH]; intros i Hsuf; simpl.
  - apply safe_ret.
  - destruct (negb _).
    + apply IH. intros j c Hj. specialize (Hsuf (S j) c Hj).
      by replace (S i + j)%nat with (i + S j)%nat by lia.
    + apply (safe_enableMongoDBAuth _ _ cfg).
      specialize (Hsuf 0%nat cfg eq_refl). by rewrite Nat.add_0_r in Hsuf.
Qed.

Lemma safe_mongoMembersLoop members : safe (mongoMembersLoop members).
Proof.
  induction members as [|m rest IH]; simpl; [apply safe_ret|].
  apply safe_bind; [by apply safe_mongoConfigsLoop|].
  intros r. apply safe_match_res. intros _. apply IH.
Qed.

Lemma safe_setMongoDBInit req : safe (setMongoDBInit s req).
Proof.
  apply safe_bind; [apply safe_GetService|].
  intros r1. apply safe_match_http. intros service.
  apply safe_bind; [apply safe_GetServiceAttr|].
  intros r2. apply safe_match_http. intros attr.
  apply safe_bind; [apply safe_ListServiceMembers|].
  intros r3. apply safe_match_http. intros members.
  apply safe_bind; [apply safe_UpdateTaskStatusMsg|]. intros _.
  apply safe_bind; [apply safe_mongoMembersLoop|].
  intros r4. apply safe_match_http. intros _.
  apply safe_bind; [apply safe_UpdateTaskStatusMsg|]. intros _.
  apply safe_bind; [apply safe_RestartService|].
  intros r5. apply safe_match_http. intros _.
  apply safe_setServiceInitialized.
Qed.

(** A 200 of the set-initialized operation: the manage service did set
    the status. *)
Lemma setServiceInitialized_OK name w w' :
  setServiceInitialized s name w = (Done ("", StatusOK), w') →
  svc_SetServiceInitialized (cluster s) name w = (Done (Success tt), w').
Proof.
  unfold setServiceInitialized, bind.
  destruct (svc_SetServiceInitialized _ _ w) as [[[[]|e]|p] w1]; [by intros [= ->]| |done].
  intros [=E]. by destruct (ConvertToHTTPError_not_OK e).
Qed.

Lemma setServiceInitialized_active name w w' :
  setServiceInitialized s name w = (Done ("", StatusOK), w') → active w' (cluster s) name.
Proof.
  intros Hok. apply setServiceInitialized_OK, svc_SetServiceInitialized_success in Hok.
  destruct Hok as (svc & a & Hs & Ha & ->). exists svc, (setStatus ServiceStatusActive a).
  split; [done|]. split; [|done]. simpl. by rewrite lookup_insert_eq.
Qed.

Lemma configStore_svc_SetServiceInitialized c n :
  keeps configStore (svc_SetServiceInitialized c n).
Proof.
  unfold svc_SetServiceInitialized. apply keeps_extern; [by intros ? ?|]. keeps_auto.
Qed.

(** X8.  [catalogSetServiceInit] panics on one body, the body null: the
    request is nil and reading its cluster is a nil dereference, before any
    call.  On every other body it returns: the slot index [setMongoDBInit]
    passes on is the position of the slot in the member.  A service type
    other than MongoDB, Cassandra and CouchDB is answered with BadRequest
    with no call made, Redis included.  For Cassandra and CouchDB the one
    call is the set-initialized call of the manage service: the config
    store is not touched, and after a 200 the service is ACTIVE. *)
Theorem catalogSetServiceInit_by_type :
  (∀ w, catalogSetServiceInit s NilRequest w = (Panicked NilDereference, w))
  ∧ (∀ body, body ≠ NilRequest → safe (catalogSetServiceInit s body))
  ∧ (∀ req w,
     let ty := CatalogSetServiceInitRequest.ServiceType req in
     ty ≠ CatalogService_MongoDB → ty ≠ CatalogService_Cassandra →
     ty ≠ CatalogService_CouchDB →
     catalogSetServiceInit s (Decoded req) w = (Done BadRequest, w))
  ∧ (∀ req w,
     let ty := CatalogSetServiceInitRequest.ServiceType req in
     let name := CatalogSetServiceInitRequest.ServiceName req in
     let r := catalogSetServiceInit s (Decoded req) w in
     CatalogSetServiceInitRequest.Cluster req = cluster s →
     CatalogSetServiceInitRequest.Region req = region s →
     ty = CatalogService_Cassandra ∨ ty = CatalogService_CouchDB →
     trace (snd r) = trace w ++ [SvcSetServiceInitialized (cluster s) name]
     ∧ configStore (snd r) = configStore w
     ∧ (fst r = Done ("", StatusOK) → active (snd r) (cluster s) name)).
Proof.
  split; [done|]. split; [|split].
  - intros [| |req] Hnil; [apply safe_ret|done|]. unfold catalogSetServiceInit.
    destruct (_ || _); [apply safe_ret|]. cbv zeta.
    repeat case_bool_decide;
      first [apply safe_setMongoDBInit|apply safe_setServiceInitialized|apply safe_ret].
  - intros req w ty Hm Hc Hd. unfold catalogSetServiceInit. fold ty.
    destruct (_ || _); [done|].
    by rewrite !bool_decide_eq_false_2.
  - intros req w ty name r Hc Hr Hty. subst r.
    assert (Hrun : catalogSetServiceInit s (Decoded req) w = setServiceInitialized s name w).
    { unfold catalogSetServiceInit. rewrite (matching_check _ _ _ Hc Hr). fold ty.
      destruct Hty as [-> | ->]; reflexivity. }
    rewrite Hrun. split; [apply setServiceInitialized_trace|]. split.
    + unfold setServiceInitialized.
      apply (keeps_bind configStore); [apply configStore_svc_SetServiceInitialized|].
      intros [[]|e]; apply keeps_ret.
    + intros Hok. apply (setServiceInitialized_active name w).
      by destruct (setServiceInitialized s name w) as [o w']; simpl in *; subst.
Qed.

(** X9.  The loops over the slots of a member stop at the first slot
    that is a mongod.conf (a redis.conf): the mutator is called on that
    slot with its position as the index, and the slots after it are not
    looked at.  A member with no such slot is passed over: no call is
    made and the loop succeeds. *)
Theorem config_loops_take_the_first_slot :
  (∀ member (i : nat) cfgs w,
     Forall (λ c, IsMongoDBConfFile (MemberConfig.FileName c) = false) cfgs →
     mongoConfigsLoop member i cfgs w = (Done (Success tt), w))
  ∧ (∀ member (i : nat) pre c post w,
     Forall (λ c, IsMongoDBConfFile (MemberConfig.FileName c) = false) pre →
     IsMongoDBConfFile (MemberConfig.FileName c) = true →
     mongoConfigsLoop member i (pre ++ c :: post) w
     = enableMongoDBAuth c (Z.of_nat (i + length pre)) member w)
  ∧ (∀ member (i : nat) cfgs w,
     Forall (λ c, IsRedisConfFile (MemberConfig.FileName c) = false) cfgs →
     redisConfigsLoop member i cfgs w = (Done (Success tt), w))
  ∧ (∀ member (i : nat) pre c post w,
     Forall (λ c, IsRedisConfFile (MemberConfig.FileName c) = false) pre →
     IsRedisConfFile (MemberConfig.FileName c) = true →
     redisConfigsLoop member i (pre ++ c :: post) w
     = updateRedisConfigs c (Z.of_nat (i + length pre)) member w).
Proof.
  split; [|split; [|split]].
  - intros member i cfgs w Hall. revert i.
    induction Hall as [|c rest Hc _ IH]; intros i; simpl; [done|].
    rewrite Hc. simpl. apply IH.
  - intros member i pre c post w Hpre Hc. revert i.
    induction Hpre as [|c' rest Hc' _ IH]; intros i; simpl.
    + by rewrite Hc, Nat.add_0_r.
    + rewrite Hc'. simpl. rewrite IH. do 2 f_equal. lia.
  - intros member i cfgs w Hall. revert i.
    induction Hall as [|c rest Hc _ IH]; intros i; simpl; [done|].
    rewrite Hc. simpl. apply IH.
  - intros member i pre c post w Hpre Hc. revert i.
    induction Hpre as [|c' rest Hc' _ IH]; intros i; simpl.
    + by rewrite Hc, Nat.add_0_r.
    + rewrite Hc'. simpl. rewrite IH. do 2 f_equal. lia.
Qed.

End SetServiceInit.

(** ** The config store under failures and re-runs *)

Section ConfigWrites.
Context `{Catalog}.
Variable s : ManageHTTPServer.

Lemma CreateConfigFile_frame cf w :
  let r := CreateConfigFile cf w in
  (∃ o, fst r = Done o)
  ∧ trace (snd r) = trace w ++ [DBCreateConfigFile cf]
  ∧ members (db (snd r)) = members (db w)
  ∧ cfgfiles (db w) ⊆ cfgfiles (db (snd r)).
Proof.
  unfold CreateConfigFile. rewrite extern_eq. destruct (nextFault w); simpl; [by eauto|].
  unfold bind, gets, ret, modify. simpl.
  destruct (cfgfiles (db w) !! _) as [curr|] eqn:E.
  - case_bool_decide; simpl; eauto.
  - simpl. repeat split; [by eauto|]. by apply insert_subseteq.
Qed.

Lemma UpdateServiceMember_failure old new w e w1 :
  UpdateServiceMember old new w = (Done (Failure e), w1) →
  w1 = called (DBUpdateServiceMember old new) w.
Proof.
  unfold UpdateServiceMember. rewrite extern_eq. destruct (nextFault w); [by intros [= _ <-]|].
  unfold bind, gets, ret, modify. simpl. destruct (casMember _ _ _); by intros [=].
Qed.

Lemma UpdateServiceMember_done old new w :
  ∃ r, fst (UpdateServiceMember old new w) = Done r.
Proof. apply safe_UpdateServiceMember. Qed.

(** X10.  [updateMemberConfig] changes the member last but one: whenever
    it does not return success, by an error of the version parser, of the
    create or of the compare-and-swap, or by a panic, the members are what
    they were, every config file the DB held is still there, and no delete
    was requested.  The slot index is used after the new file has been
    created: with an index outside the slots the function panics and leaves
    the new file behind. *)
Theorem updateMemberConfig_fails_before_the_swap :
  (∀ member cfgfile i newContent w,
     let r := updateMemberConfig member cfgfile i newContent w in
     fst r ≠ Done (Success tt) →
     members (db (snd r)) = members (db w)
     ∧ cfgfiles (db w) ⊆ cfgfiles (db (snd r))
     ∧ ∃ t, trace (snd r) = trace w ++ t
            ∧ Forall (λ ev, ∀ u f, ev ≠ DBDeleteConfigFile u f) t)
  ∧ (∀ member cfgfile i newContent w version created w1,
     let newFileID :=
       GenMemberConfigFileID (ServiceMember.MemberName member)
                             (ConfigFile.FileName cfgfile) (add64 version 1) in
     GetConfigFileVersion (ConfigFile.FileID cfgfile) = Success version →
     CreateConfigFile (UpdateConfigFile cfgfile newFileID newContent) w
       = (Done (Success created), w1) →
     ¬ (0 ≤ i < Z.of_nat (length (ServiceMember.Configs member)))%Z →
     updateMemberConfig member cfgfile i newContent w = (Panicked IndexOutOfRange, w1)).
Proof.
  split.
  - intros member cfgfile i newContent w r Hne. subst r.
    destruct (updateMemberConfig member cfgfile i newContent w) as [o w'] eqn:Hrun.
    simpl in *. unfold updateMemberConfig in Hrun.
    destruct (GetConfigFileVersion _) as [version|e].
    2: { injection Hrun as <- <-. split; [done|]. split; [done|].
         exists []. by rewrite app_nil_r. }
    apply bind_inv in Hrun as [(r1 & w1 & Ecr & Hrun)|(p & Ecr & ->)].
    2: { match type of Ecr with CreateConfigFile ?cf _ = _ =>
           destruct (CreateConfigFile_frame cf w) as ([? Ho] & _) end.
         rewrite Ecr in Ho. done. }
    match type of Ecr with CreateConfigFile ?cf _ = _ =>
      destruct (CreateConfigFile_frame cf w) as (_ & Ht & Hm & Hc);
      assert (Hone : Forall (λ ev, ∀ u f, ev ≠ DBDeleteConfigFile u f)
                            [DBCreateConfigFile cf]) by (by repeat constructor)
    end.
    rewrite Ecr in Ht, Hm, Hc. simpl in Ht, Hm, Hc.
    destruct r1 as [created|e]; [|injection Hrun as <- <-; by eauto].
    apply bind_inv in Hrun as [(c & wi & Ei & Hrun)|(p & Ei & ->)];
      apply index_world in Ei as ->; [|by eauto].
    apply bind_inv in Hrun as [(ru & w2 & Eu & Hrun)|(p & Eu & ->)].
    2: { match type of Eu with UpdateServiceMember ?o ?n _ = _ =>
           destruct (UpdateServiceMember_done o n w1) as [? Ho] end.
         rewrite Eu in Ho. done. }
    destruct ru as [[]|e].
    + apply bind_inv in Hrun as [(rd & w3 & Ed & Hrun)|(p & Ed & ->)].
      * injection Hrun as <- <-. done.
      * destruct (safe_DeleteConfigFile (ConfigFile.ServiceUUID cfgfile)
                    (ConfigFile.FileID cfgfile) w2) as [? Ho].
        rewrite Ed in Ho. done.
    + injection Hrun as <- <-. apply UpdateServiceMember_failure in Eu as ->. simpl.
      split; [done|]. split; [done|]. eexists [_; _]. rewrite Ht, <- app_assoc.
      split; [done|]. by repeat constructor.
  - intros member cfgfile i newContent w version created w1 newFileID Hv Hcr Hi.
    unfold updateMemberConfig. rewrite Hv. fold newFileID.
    rewrite (bind_done _ _ _ _ _ Hcr), CopyMemberConfigs_id.
    unfold bind, index. case_bool_decide as Hpos; [|done].
    rewrite (lookup_ge_None_2 _ (Z.to_nat i)) by lia. done.
Qed.

End ConfigWrites.

(** ** A second SetServiceInit of a MongoDB service *)

Section MongoRerun.
Context `{Catalog}.
Variable s : ManageHTTPServer.

Lemma calledAll_app a b w : calledAll (a ++ b) w = calledAll b (calledAll a w).
Proof. apply foldl_app. Qed.

Lemma db_calledAll evs w : db (calledAll evs w) = db w.
Proof. revert w. induction evs as [|ev evs IH]; intros w; [done|]. simpl. by rewrite IH. Qed.

Lemma trace_calledAll evs w : trace (calledAll evs w) = trace w ++ evs.
Proof.
  revert w. induction evs as [|ev evs IH]; intros w; simpl; [by rewrite app_nil_r|].
  rewrite IH. simpl. by rewrite <- app_assoc.
Qed.

Lemma GetConfigFile_eq u f w :
  GetConfigFile u f w =
  (Done match nextFault w with
        | Some e => Failure e
        | None => match cfgfiles (db w) !! (u, f) with
                  | Some cf => Success cf
                  | None => Failure ErrDBRecordNotFound
                  end
        end, called (DBGetConfigFile u f) w).
Proof.
  unfold GetConfigFile. rewrite extern_eq. destruct (nextFault w); [done|].
  unfold bind, gets, ret. simpl. by destruct (_ !! _).
Qed.

(** With auth enabled in the file, [enableMongoDBAuth] is the one read. *)
Lemma enableMongoDBAuth_enabled c i m w :
  (∀ cf, cfgfiles (db w) !! (ServiceMember.ServiceUUID m, MemberConfig.FileID c) = Some cf →
         IsAuthEnabled (ConfigFile.Content cf) = true) →
  ∃ r, enableMongoDBAuth c i m w
       = (Done r, called (DBGetConfigFile (ServiceMember.ServiceUUID m)
                                          (MemberConfig.FileID c)) w).
Proof.
  intros Hen. unfold enableMongoDBAuth, bind. rewrite GetConfigFile_eq.
  destruct (nextFault w); [by eexists|].
  destruct (cfgfiles (db w) !! _) as [cf|] eqn:E; [|by eexists].
  rewrite (Hen cf eq_refl). by eexists.
Qed.

Lemma mongoConfigsLoop_enabled m (i : nat) cfgs w :
  (∀ c cf,
     List.find (λ c, IsMongoDBConfFile (MemberConfig.FileName c)) cfgs = Some c →
     cfgfiles (db w) !! (ServiceMember.ServiceUUID m, MemberConfig.FileID c) = Some cf →
     IsAuthEnabled (ConfigFile.Content cf) = true) →
  ∃ r evs, mongoConfigsLoop m i cfgs w = (Done r, calledAll evs w)
           ∧ Forall noConfigWrite evs.
Proof.
  revert i. induction cfgs as [|cfg rest IH]; intros i Hen; simpl.
  { by exists (Success tt), []. }
  simpl in Hen. destruct (IsMongoDBConfFile (MemberConfig.FileName cfg)); simpl.
  - destruct (enableMongoDBAuth_enabled cfg (Z.of_nat i) m w) as [r Hr].
    { intros cf. by apply Hen. }
    exists r, [DBGetConfigFile (ServiceMember.ServiceUUID m) (MemberConfig.FileID cfg)].
    split; [done|]. by repeat constructor.
  - by apply IH.
Qed.

Lemma mongoMembersLoop_enabled members w :
  Forall (authEnabled (db w)) members →
  ∃ r evs, mongoMembersLoop members w = (Done r, calledAll evs w)
           ∧ Forall noConfigWrite evs.
Proof.
  revert w. induction members as [|m rest IH]; intros w Hall; simpl.
  { by exists (Success tt), []. }
  apply Forall_cons in Hall as [Hm Hrest].
  destruct (mongoConfigsLoop_enabled m 0 (ServiceMember.Configs m) w) as (r & evs & Hr & Hev).
  { exact Hm. }
  rewrite (bind_done _ _ _ _ _ Hr). destruct r as [[]|e].
  - destruct (IH (calledAll evs w)) as (r' & evs' & Hr' & Hev').
    { by rewrite db_calledAll. }
    exists r', (evs ++ evs'). rewrite calledAll_app. split; [done|]. by apply Forall_app.
  - by exists (Failure e), evs.
Qed.

Lemma mongo_tail uuid msg name replicas :
  let tail := (UpdateTaskStatusMsg uuid msg ;;;
               _ <-! RestartService (cluster s) name replicas ;;
               setServiceInitialized s name) in
  keeps configStore tail ∧ calls noConfigWrite tail.
Proof.
  split.
  - unfold UpdateTaskStatusMsg, RestartService, setServiceInitialized.
    apply keeps_bind; [by apply keeps_modify|]. intros _.
    apply keeps_bind; [apply keeps_extern; [by intros ? ?|apply keeps_ret]|].
    intros [[]|e]; [|apply keeps_ret].
    apply keeps_bind; [apply configStore_svc_SetServiceInitialized|].
    intros [[]|e]; apply keeps_ret.
  - unfold UpdateTaskStatusMsg, RestartService, setServiceInitialized,
      svc_SetServiceInitialized.
    calls_auto.
Qed.

(** X11.  A SetServiceInit of a MongoDB service whose members all have
    auth enabled in their mongod.conf file, as after an earlier run, writes
    nothing to the config store: no file is created or deleted, no member
    is updated, and the members and the files of the DB are what they
    were, whatever the collaborators answer. *)
Theorem setMongoDBInit_again_writes_nothing req w :
  let name := CatalogSetServiceInitRequest.ServiceName req in
  let r := setMongoDBInit s req w in
  (∀ service, services (db w) !! (cluster s, name) = Some service →
     Forall (authEnabled (db w)) (listMembers (db w) (Service.ServiceUUID service))) →
  configStore (snd r) = configStore w
  ∧ ∃ t, trace (snd r) = trace w ++ t ∧ Forall noConfigWrite t.
Proof.
  intros name r Hen. subst r.
  destruct (setMongoDBInit s req w) as [o w'] eqn:Hrun. simpl.
  unfold setMongoDBInit in Hrun. fold name in Hrun.
  rewrite bind_GetService in Hrun.
  set (w1 := called (DBGetService (cluster s) name) w) in *.
  assert (Hreads1 : configStore w1 = configStore w
                    ∧ trace w1 = trace w ++ [DBGetService (cluster s) name]) by done.
  assert (Hno1 : Forall noConfigWrite [DBGetService (cluster s) name])
    by (by repeat constructor).
  destruct Hreads1 as [Hcs1 Htr1].
  destruct (nextFault w) as [e|] eqn:Hf1.
  { injection Hrun as <- <-. eauto. }
  destruct (services (db w) !! (cluster s, name)) as [service|] eqn:Hs.
  2: { injection Hrun as <- <-. eauto. }
  specialize (Hen service eq_refl).
  set (uuid := Service.ServiceUUID service) in *.
  rewrite bind_GetServiceAttr in Hrun.
  set (w2 := called (DBGetServiceAttr uuid) w1) in *.
  assert (Hreads2 : configStore w2 = configStore w ∧ trace w2
            = trace w ++ [DBGetService (cluster s) name; DBGetServiceAttr uuid]).
  { split; [done|]. simpl. by rewrite <- app_assoc. }
  assert (Hno2 : Forall noConfigWrite [DBGetService (cluster s) name; DBGetServiceAttr uuid])
    by (by repeat constructor).
  destruct Hreads2 as [Hcs2 Htr2].
  destruct (match nextFault w1 with Some e => _ | None => _ end) as [attr|e].
  2: { injection Hrun as <- <-. eauto. }
  destruct (ListServiceMembers_run uuid w2) as (r3 & E3 & Hl).
  rewrite (bind_done _ _ _ _ _ E3) in Hrun.
  set (w3 := called (DBListServiceMembers uuid) w2) in *.
  assert (Hreads3 : configStore w3 = configStore w ∧ trace w3
            = trace w ++ [DBGetService (cluster s) name; DBGetServiceAttr uuid;
                          DBListServiceMembers uuid]).
  { split; [done|]. simpl. by rewrite <- !app_assoc. }
  assert (Hno3 : Forall noConfigWrite [DBGetService (cluster s) name; DBGetServiceAttr uuid;
                                       DBListServiceMembers uuid])
    by (by repeat constructor).
  destruct Hreads3 as [Hcs3 Htr3].
  destruct r3 as [members|e].
  2: { injection Hrun as <- <-. eauto. }
  specialize (Hl _ eq_refl). change (db w2) with (db w) in Hl. subst members.
  unfold bind at 1 in Hrun. unfold UpdateTaskStatusMsg at 1, modify at 1 in Hrun.
  match type of Hrun with bind (mongoMembersLoop ?ms) _ ?w4 = _ =>
    destruct (mongoMembersLoop_enabled ms w4) as (r4 & evs & E4 & Hev); [exact Hen|];
    rewrite (bind_done _ _ _ _ _ E4) in Hrun;
    set (w5 := calledAll evs w4) in *
  end.
  assert (Hreads5 : configStore w5 = configStore w ∧ trace w5
            = trace w ++ [DBGetService (cluster s) name; DBGetServiceAttr uuid;
                          DBListServiceMembers uuid] ++ evs).
  { subst w5. unfold configStore. rewrite db_calledAll, trace_calledAll. simpl.
    split; [done|]. by rewrite <- !app_assoc. }
  destruct Hreads5 as [Hcs5 Htr5].
  destruct r4 as [[]|e].
  2: { injection Hrun as <- <-. split; [exact Hcs5|].
       eexists. split; [exact Htr5|]. by apply Forall_app. }
  destruct (mongo_tail uuid "restarting all MongoDB containers" name
              (ServiceAttr.Replicas attr)) as [Hk Hc].
  cbv zeta in Hk, Hc. destruct (Hc w5) as (t & Ht & Hno). specialize (Hk w5).
  rewrite Hrun in Hk, Ht. simpl in Hk, Ht.
  split; [by rewrite Hk|].
  eexists. rewrite Ht, Htr5, <- app_assoc.
  split; [done|]. apply Forall_app. split; [by apply Forall_app|done].
Qed.

End MongoRerun.

(** ** What a 200 of a create means *)

Section CreateOutcomes.
Context `{Catalog}.
Variable s : ManageHTTPServer.

Lemma endsActive_ret name r : r ≠ ("", StatusOK) → endsActive s name (ret r).
Proof. intros Hr w w' [=E]. by subst. Qed.

Lemma endsActive_http {A} name (m : M (res A)) (k : A → M (string * Z)) :
  (∀ a, endsActive s name (k a)) →
  endsActive s name (x <-! m ;; k x).
Proof.
  intros Hk w w' Hrun.
  apply bind_inv in Hrun as [([a|e] & w1 & _ & Hrun)|(p & _ & [=])].
  - by apply (Hk a w1).
  - injection Hrun as E _. by destruct (ConvertToHTTPError_not_OK e).
Qed.

Lemma endsActive_set name : endsActive s name (setServiceInitialized s name).
Proof.
  intros w w' Hrun. split; [by apply (setServiceInitialized_active s name w)|].
  pose proof (setServiceInitialized_trace s name w) as Ht. rewrite Hrun in Ht.
  simpl in Ht. rewrite Ht. apply last_snoc.
Qed.

Lemma BadRequest_not_OK : BadRequest ≠ ("", StatusOK).
Proof. done. Qed.

Lemma invalid_not_OK err : (Error err, StatusBadRequest) ≠ ("", StatusOK).
Proof. by intros [=]. Qed.

Ltac ends_step :=
  first
  [ apply endsActive_set
  | apply endsActive_ret; first [apply BadRequest_not_OK | apply invalid_not_OK
                                | apply ConvertToHTTPError_not_OK]
  | apply endsActive_http; intros ?
  | match goal with |- endsActive _ _ (match ?x with _ => _ end) => destruct x end
  | progress cbv beta zeta ].

Lemma endsActive_createValidated validate gen req :
  endsActive s (ServiceCommonRequest.ServiceName (CatalogCreateRequest.Service req))
             (createValidated s validate gen (DecodedS req)).
Proof. unfold createValidated. repeat ends_step. Qed.


Lemma calls_createCommonService req : calls createCall (createCommonService s req).
Proof.
  unfold createCommonService, svc_CreateService, createContainerService, IsServiceExist,
    cs_CreateService.
  calls_auto.
Qed.

Lemma addInitTask_registers task w :
  is_Some (initTasks (snd (addInitTask task w)) !! serviceTask.serviceUUID task)
  ∧ db (snd (addInitTask task w)) = db w
  ∧ trace (snd (addInitTask task w)) = trace w
  ∧ resp (snd (addInitTask task w)) = resp w.
Proof.
  unfold addInitTask, modify. simpl. split; [|done].
  destruct (initTasks w !! serviceTask.serviceUUID task) eqn:E; [by rewrite E|].
  by rewrite lookup_insert_eq.
Qed.

Lemma registersTask_ret crReq r : r ≠ ("", StatusOK) → registersTask s crReq (ret r).
Proof. intros Hr w w' [=E]. by subst. Qed.

Lemma registersTask_add crReq (add : string → M unit) :
  (∀ uuid w, is_Some (initTasks (snd (add uuid w)) !! uuid)
             ∧ db (snd (add uuid w)) = db w
             ∧ trace (snd (add uuid w)) = trace w
             ∧ resp (snd (add uuid w)) = resp w
             ∧ ∃ u, fst (add uuid w) = Done u) →
  registersTask s crReq
    (serviceUUID <-! createCommonService s crReq ;; add serviceUUID ;;; ret ("", StatusOK)).
Proof.
  intros Hadd w w' Hrun.
  apply bind_inv in Hrun as [([uuid|e] & w1 & Ecr & Hrun)|(p & _ & [=])].
  2: { injection Hrun as E _. by destruct (ConvertToHTTPError_not_OK e). }
  exists uuid, w1. split; [done|].
  destruct (Hadd uuid w1) as (Hsome & Hdb & Htr & Hrs & [u Hu]).
  unfold bind in Hrun. destruct (add uuid w1) as [[[]|p] w2]; [|done].
  injection Hrun as <-. done.
Qed.

(** X13.  The create handlers of the catalogs that are initialized by a
    task (MongoDB, Cassandra, CouchDB, and Redis in cluster mode) make the
    calls of the create and no other: they never make the set-initialized
    call, and never touch the config store.  Their 200 means that the
    service was created in the control plane and on the container platform
    and that an init task is registered for its serviceUUID; the DB is as
    the create left it. *)
Theorem create_with_init_registers_a_task :
  (∀ body, calls createCall (createMongoDBService s body))
  ∧ (∀ body, calls createCall (createCasService s body))
  ∧ (∀ body, calls createCall (createCouchDBService s body))
  ∧ (∀ req,
       IsClusterMode (RedisOptions.Shards (CatalogCreateRequest.Options req)) = true →
       calls createCall (createRedisService s (DecodedS req)))
  ∧ (∀ req crReq,
       mongodbcatalog_GenDefaultCreateServiceRequest (platform s) (region s) (azs s)
         (cluster s) (ServiceCommonRequest.ServiceName (CatalogCreateRequest.Service req))
         (CatalogCreateRequest.Options req) (CatalogCreateRequest.Resource req)
       = Success crReq →
       registersTask s crReq (createMongoDBService s (DecodedS req)))
  ∧ (∀ req,
       registersTask s
         (cascatalog_GenDefaultCreateServiceRequest (platform s) (region s) (azs s)
            (cluster s) (ServiceCommonRequest.ServiceName (CatalogCreateRequest.Service req))
            (CatalogCreateRequest.Options req) (CatalogCreateRequest.Resource req))
         (createCasService s (DecodedS req)))
  ∧ (∀ req,
       registersTask s
         (couchdbcatalog_GenDefaultCreateServiceRequest (platform s) (region s) (azs s)
            (cluster s) (ServiceCommonRequest.ServiceName (CatalogCreateRequest.Service req))
            (CatalogCreateRequest.Resource req) (CatalogCreateRequest.Options req))
         (createCouchDBService s (DecodedS req)))
  ∧ (∀ req,
       IsClusterMode (RedisOptions.Shards (CatalogCreateRequest.Options req)) = true →
       registersTask s
         (rediscatalog_GenDefaultCreateServiceRequest (platform s) (region s) (azs s)
            (cluster s) (ServiceCommonRequest.ServiceName (CatalogCreateRequest.Service req))
            (CatalogCreateRequest.Resource req) (CatalogCreateRequest.Options req))
         (createRedisService s (DecodedS req))).
Proof.
  split; [|split; [|split; [|split; [|split; [|split; [|split]]]]]].
  - intros body. unfold createMongoDBService, addMongoDBInitTask, addInitTask.
    calls_auto; apply calls_createCommonService.
  - intros body. unfold createCasService, addCasInitTask, addInitTask.
    calls_auto; apply calls_createCommonService.
  - intros body. unfold createCouchDBService, addCouchDBInitTask, addInitTask.
    calls_auto; apply calls_createCommonService.
  - intros req Hmode. unfold createRedisService. cbv zeta. rewrite Hmode.
    unfold addRedisInitTask, addInitTask.
    calls_auto; apply calls_createCommonService.
  - intros req crReq Hgen. unfold createMongoDBService. cbv zeta. rewrite Hgen.
    destruct (foreign _ _); [apply registersTask_ret, BadRequest_not_OK|].
    destruct (mongodbcatalog_ValidateRequest _);
      [apply registersTask_ret, invalid_not_OK|].
    apply (registersTask_add crReq (λ uuid, addMongoDBInitTask s _ uuid _ _ _)).
    intros uuid w. unfold addMongoDBInitTask. cbv zeta.
    match goal with |- context [addInitTask ?t] =>
      destruct (addInitTask_registers t w) as (? & ? & ? & ?) end.
    repeat split; try done. by eexists.
  - intros req. unfold createCasService. cbv zeta.
    destruct (foreign _ _); [apply registersTask_ret, BadRequest_not_OK|].
    destruct (cascatalog_ValidateRequest _);
      [apply registersTask_ret, invalid_not_OK|].
    apply (registersTask_add _ (λ uuid, addCasInitTask s _ uuid)).
    intros uuid w. unfold addCasInitTask. cbv zeta.
    match goal with |- context [addInitTask ?t] =>
      destruct (addInitTask_registers t w) as (? & ? & ? & ?) end.
    repeat split; try done. by eexists.
  - intros req. unfold createCouchDBService. cbv zeta.
    destruct (foreign _ _); [apply registersTask_ret, BadRequest_not_OK|].
    destruct (couchdbcatalog_ValidateRequest _);
      [apply registersTask_ret, invalid_not_OK|].
    apply (registersTask_add _ (λ uuid, addCouchDBInitTask s _ uuid _ _ _)).
    intros uuid w. unfold addCouchDBInitTask. cbv zeta.
    match goal with |- context [addInitTask ?t] =>
      destruct (addInitTask_registers t w) as (? & ? & ? & ?) end.
    repeat split; try done. by eexists.
  - intros req Hmode. unfold createRedisService. cbv zeta. rewrite Hmode.
    destruct (foreign _ _); [apply registersTask_ret, BadRequest_not_OK|].
    destruct (rediscatalog_ValidateRequest _);
      [apply registersTask_ret, invalid_not_OK|].
    intros w w' Hrun.
    apply bind_inv in Hrun as [([uuid|e] & w1 & Ecr & Hrun)|(p & _ & [=])].
    2: { injection Hrun as E _. by destruct (ConvertToHTTPError_not_OK e). }
    exists uuid, w1. split; [done|].
    unfold addRedisInitTask in Hrun. cbv zeta in Hrun.
    destruct (rediscatalog_GenDefaultInitTaskRequest _ _ _ _ _ _) as [opts|e].
    2: { injection Hrun as E _. by destruct (ConvertToHTTPError_not_OK e). }
    rewrite bind_assoc in Hrun. unfold bind in Hrun.
    match type of Hrun with context [addInitTask ?t] =>
      destruct (addInitTask_registers t w1) as (? & ? & ? & ?);
      destruct (addInitTask t w1) as [[[]|p] w2] eqn:Ea; [|done]
    end.
    injection Hrun as <-. done.
Qed.

End CreateOutcomes.

(** ** The name-to-IP map of the Consul rewrite *)

Section ConsulNames.
Context `{Catalog}.

(** X14.  The map [updateConsulConfigs] builds from the members sends a
    DNS name to the static IP of the last member of that name, and holds
    nothing else.  When the names of the members are distinct every member
    finds its own IP under its name; the map of no members is empty. *)
Theorem consulMemberIPs_holds_the_last_ip domain members :
  (∀ dns, consulMemberIPs domain members !! dns
          = ServiceMember.StaticIP <$> last (membersNamed domain dns members))
  ∧ (NoDup ((λ m, GenDNSName (ServiceMember.MemberName m) domain) <$> members) →
     ∀ m, m ∈ members →
       consulMemberIPs domain members !! GenDNSName (ServiceMember.MemberName m) domain
       = Some (ServiceMember.StaticIP m))
  ∧ (members = [] → consulMemberIPs domain members = ∅).
Proof.
  assert (Hlast : ∀ ms dns, consulMemberIPs domain ms !! dns
                    = ServiceMember.StaticIP <$> last (membersNamed domain dns ms)).
  { intros ms dns. induction ms as [|m ms IH] using rev_ind; [done|].
    rewrite consulMemberIPs_snoc, membersNamed_snoc.
    case_bool_decide as Hn.
    - by rewrite Hn, lookup_insert_eq, last_snoc.
    - by rewrite lookup_insert_ne, app_nil_r. }
  split; [apply Hlast|]. split; [|by intros ->].
  clear Hlast. induction members as [|x ms IH] using rev_ind; intros Hnd m Hm.
  { by apply elem_of_nil in Hm. }
  rewrite fmap_app in Hnd. apply NoDup_app in Hnd as (Hms & Hx & _).
  rewrite consulMemberIPs_snoc. apply elem_of_app in Hm as [Hm|Hm].
  - rewrite lookup_insert_ne; [by apply IH|].
    intros E. apply (Hx (GenDNSName (ServiceMember.MemberName m) domain)).
    + by apply (list_elem_of_fmap_2 (λ m, GenDNSName (ServiceMember.MemberName m) domain)).
    + rewrite <- E. simpl. by apply list_elem_of_singleton.
  - apply list_elem_of_singleton in Hm as ->. by rewrite lookup_insert_eq.
Qed.

End ConsulNames.

(** ** Running a task *)

Section RunTask.
Context `{Catalog}.
Variable s : ManageHTTPServer.

Lemma RunTask_run opts w :
  RunTask opts w =
  match nextFault w with
  | Some e => (Done (Failure e), called (CsRunTask opts) w)
  | None =>
      (Done (Success (PlatformTaskID opts)),
       set_platformTasks <[PlatformTaskID opts := "RUNNING"]> (called (CsRunTask opts) w))
  end.
Proof. unfold RunTask. rewrite extern_eq. by destruct (nextFault w). Qed.

(** X15.  [runTask], for a request of the server's cluster and region:
    the service is looked up first, and when the DB does not have it the
    answer is its error (404 for a service that is not there) and the
    platform is not called.  The task is run with the cluster, name, image,
    resources, type and environment of the request and the serviceUUID the
    DB holds; an error of the platform is the answer, and otherwise the
    answer is 200 with the id of the task the platform returned. *)
Theorem runTask_runs_on_the_stored_service req w :
  let rs := RunTaskRequest.Service req in
  let cl := ServiceCommonRequest.Cluster rs in
  let name := ServiceCommonRequest.ServiceName rs in
  let run := Server.runTask s (DecodedS req) w in
  let w1 := called (DBGetService cl name) w in
  cl = cluster s →
  ServiceCommonRequest.Region rs = region s →
  (∀ e, nextFault w = Some e → run = (Done (ConvertToHTTPError e), w1))
  ∧ (nextFault w = None → services (db w) !! (cl, name) = None →
     run = (Done ("DB record not found", StatusNotFound), w1))
  ∧ (∀ svc, nextFault w = None → services (db w) !! (cl, name) = Some svc →
     let opts :=
       RunTaskOptions.mk
         (CommonOptions.mk cl name (Service.ServiceUUID svc)
            (RunTaskRequest.ContainerImage req) (RunTaskRequest.Resource req))
         (RunTaskRequest.TaskType req) (RunTaskRequest.Envkvs req) in
     (∀ e, nextFault w1 = Some e →
        run = (Done (ConvertToHTTPError e), called (CsRunTask opts) w1))
     ∧ (∀ taskID w2, RunTask opts w1 = (Done (Success taskID), w2) →
        run = (Done ("", StatusOK),
               respond [WriteHeader StatusOK; Write (RunTaskResponse taskID)] w2))).
Proof.
  intros rs cl name run w1 Hc Hr. subst run cl.
  unfold Server.runTask. cbv zeta. fold rs.
  rewrite (matching_check _ _ _ Hc Hr). fold name.
  rewrite bind_GetService. fold w1.
  split; [by intros e ->|]. split; [by intros -> ->|].
  intros svc -> ->. split.
  - intros e He. unfold bind. by rewrite RunTask_run, He.
  - intros taskID w2 Hrun. rewrite (bind_done _ _ _ _ _ Hrun). apply write_response.
Qed.

End RunTask.

(** ** The dispatchers *)

Section Dispatch.
Context `{Catalog} `{Ops}.
Variable s : ManageHTTPServer.

(** X1.  No handler, and no dispatcher, writes to the response unless it
    returns 200: with any other code, and on a panic, the response is as
    it was; with 200 what was written is nothing, the header 200, or the
    header 200 and one body.  The error reply that ServeHTTP sends for a
    code other than 200 is therefore the first thing written. *)
Theorem responses_are_written_only_with_200 :
  (* server.go *)
  (∀ body, replies (Server.setServiceInitialized s body))
  ∧ (∀ body name, replies (Server.createService s body name))
  ∧ (∀ body name, replies (Server.deleteService s body name))
  ∧ (∀ body, replies (Server.listServices s body))
  ∧ (∀ body, replies (Server.listVolumes s body))
  ∧ (∀ body name, replies (Server.getServiceAttr s body name))
  ∧ (∀ body, replies (Server.getServiceStatus s body))
  ∧ (∀ body, replies (Server.runTask s body))
  ∧ (∀ body, replies (Server.getTaskStatus s body))
  ∧ (∀ body, replies (Server.deleteTask s body))
  ∧ (∀ body, replies (getCatalogServiceOp s body))
  ∧ (∀ body, replies (catalogSetServiceInit s body))
  ∧ (∀ body, replies (setRedisInit s body))
  ∧ (∀ body, replies (createMongoDBService s body))
  ∧ (∀ body, replies (createPGService s body))
  ∧ (∀ body, replies (createCasService s body))
  ∧ (∀ body, replies (createZkService s body))
  ∧ (∀ body, replies (createKafkaService s body))
  ∧ (∀ body, replies (createRedisService s body))
  ∧ (∀ body, replies (createCouchDBService s body))
  ∧ (∀ body, replies (createConsulService s body))
  ∧ (∀ body, replies (createElasticSearchService s body))
  ∧ (∀ body, replies (createKibanaService s body))
  ∧ (∀ body, replies (createLogstashService s body))
  ∧ (∀ r trimURL, replies (putOp s r trimURL))
  ∧ (∀ r trimURL, replies (getOp s r trimURL))
  ∧ (∀ r trimURL, replies (delOp s r trimURL))
  ∧ (∀ r trimURL, replies (putCatalogServiceOp s r trimURL)).
Proof.
  repeat lazymatch goal with |- _ ∧ _ => split end.
  all: intros.
  1-24: first
    [ apply replies_Server_setServiceInitialized | apply replies_Server_createService
    | apply replies_Server_deleteService | apply replies_Server_listServices
    | apply replies_Server_listVolumes | apply replies_Server_getServiceAttr
    | apply replies_Server_getServiceStatus | apply replies_Server_runTask
    | apply replies_Server_getTaskStatus | apply replies_Server_deleteTask
    | apply replies_getCatalogServiceOp | apply replies_catalogSetServiceInit
    | apply replies_setRedisInit | apply replies_createMongoDBService
    | apply replies_createPGService | apply replies_createCasService
    | apply replies_createZkService | apply replies_createKafkaService
    | apply replies_createRedisService | apply replies_createCouchDBService
    | apply replies_createConsulService | apply replies_createElasticSearchService
    | apply replies_createKibanaService | apply replies_createLogstashService ].
  - unfold putOp. destruct (String.prefix _ _); [|apply replies_Server_createService].
    repeat case_bool_decide;
      first [apply replies_Server_setServiceInitialized|apply replies_Server_runTask
            |apply replies_ret].
  - unfold getOp. destruct (String.prefix _ _); [|apply replies_Server_getServiceAttr].
    repeat case_bool_decide;
      first [apply replies_Server_listServices|apply replies_Server_listVolumes
            |apply replies_Server_getServiceStatus|apply replies_Server_getTaskStatus
            |apply replies_ret].
  - unfold delOp. destruct (String.prefix _ _); [|apply replies_Server_deleteService].
    repeat case_bool_decide; first [apply replies_Server_deleteTask|apply replies_ret].
  - unfold putCatalogServiceOp.
    repeat case_bool_decide;
      first [ apply replies_catalogSetServiceInit
            | apply replies_setRedisInit | apply replies_createMongoDBService
            | apply replies_createPGService | apply replies_createCasService
            | apply replies_createZkService | apply replies_createKafkaService
            | apply replies_createRedisService | apply replies_createCouchDBService
            | apply replies_createConsulService | apply replies_createElasticSearchService
            | apply replies_createKibanaService | apply replies_createLogstashService
            | apply replies_ret ].
Qed.

(** X2.  A GET of [server.go] only reads, whatever the URL and the body:
    every call [getOp] and the five handlers it chooses from make is a read
    of the DB or of the container platform, and whatever they answer, what
    the control plane and the platform hold is what it was. *)
Theorem get_only_reads :
  (∀ r trimURL, calls readCall (getOp s r trimURL) ∧ keeps stored (getOp s r trimURL))
  ∧ (∀ body, calls readCall (Server.listServices s body)
             ∧ keeps stored (Server.listServices s body))
  ∧ (∀ body, calls readCall (Server.listVolumes s body)
             ∧ keeps stored (Server.listVolumes s body))
  ∧ (∀ body name, calls readCall (Server.getServiceAttr s body name)
                  ∧ keeps stored (Server.getServiceAttr s body name))
  ∧ (∀ body, calls readCall (Server.getServiceStatus s body)
             ∧ keeps stored (Server.getServiceStatus s body))
  ∧ (∀ body, calls readCall (Server.getTaskStatus s body)
             ∧ keeps stored (Server.getTaskStatus s body)).
Proof.
  split; [|split; [|split; [|split; [|split]]]].
  - intros r trimURL. unfold getOp.
    destruct (String.prefix _ _); [|apply reads_Server_getServiceAttr].
    repeat case_bool_decide;
      first [apply reads_Server_listServices|apply reads_Server_listVolumes
            |apply reads_Server_getServiceStatus|apply reads_Server_getTaskStatus|idtac].
    split; [apply calls_ret|apply keeps_ret].
  - apply reads_Server_listServices.
  - apply reads_Server_listVolumes.
  - apply reads_Server_getServiceAttr.
  - apply reads_Server_getServiceStatus.
  - apply reads_Server_getTaskStatus.
Qed.

End Dispatch.

(** ** What a 200 of a set-initialized request means *)

Section SetInitOutcome.
Context `{Catalog}.
Variable s : ManageHTTPServer.

Lemma endsActive_bind {A} name (m : M A) (k : A → M (string * Z)) :
  (∀ a, endsActive s name (k a)) → endsActive s name (bind m k).
Proof.
  intros Hk w w' Hrun.
  apply bind_inv in Hrun as [(a & w1 & _ & Hrun)|(p & _ & [=])].
  by apply (Hk a w1).
Qed.

Lemma endsActive_setMongoDBInit req :
  endsActive s (CatalogSetServiceInitRequest.ServiceName req) (setMongoDBInit s req).
Proof.
  unfold setMongoDBInit.
  repeat first
    [ apply endsActive_set
    | apply endsActive_http; intros ?
    | apply endsActive_bind; intros ? ].
Qed.


End SetInitOutcome.

(** ** What the GET handlers report *)

Section Reports.
Context `{Catalog}.
Variable s : ManageHTTPServer.

Lemma nextFault_none w : faults w = [] → nextFault w = None.
Proof. unfold nextFault. by intros ->. Qed.

Lemma faults_called ev w : faults w = [] → faults (called ev w) = [].
Proof. simpl. by intros ->. Qed.

Lemma ListVolumes_eq u w :
  ListVolumes u w =
  (Done match nextFault w with
        | Some e => Failure e
        | None => Success (listMembers (db w) u)
        end, called (DBListVolumes u) w).
Proof. unfold ListVolumes. rewrite extern_eq. by destruct (nextFault w). Qed.

Lemma GetServiceStatus_eq c n w :
  GetServiceStatus c n w =
  (Done match nextFault w with
        | Some e => Failure e
        | None => match platformStatus w !! (c, n) with
                  | Some st => Success st
                  | None => Failure ErrInternal
                  end
        end, called (CsGetServiceStatus c n) w).
Proof.
  unfold GetServiceStatus. rewrite extern_eq. destruct (nextFault w); [done|].
  unfold bind, gets, ret. simpl. by destruct (_ !! _).
Qed.

Lemma GetTaskStatus_eq c t w :
  GetTaskStatus c t w =
  (Done match nextFault w with
        | Some e => Failure e
        | None => match platformTasks w !! t with
                  | Some st => Success st
                  | None => Failure ErrInternal
                  end
        end, called (CsGetTaskStatus c t) w).
Proof.
  unfold GetTaskStatus. rewrite extern_eq. destruct (nextFault w); [done|].
  unfold bind, gets, ret. simpl. by destruct (_ !! _).
Qed.

(** X17.  What the GET handlers of [server.go] answer to a well-formed
    request when no call fails for an outside reason.  The attributes and
    the volumes are those the DB holds under the serviceUUID of the service
    the DB resolves the name to, the counts and the task status those the
    container platform holds.  A service that is not in the DB, or that has
    no attributes, gives 404 and no body; so the answer is 200 exactly when
    the DB has what is asked for. *)
Theorem get_handlers_report_the_store (w : World) :
  faults w = [] →
  let got (name : string) := called (DBGetService (cluster s) name) w in
  let notFound : string * Z := ("DB record not found", StatusNotFound) in
  (∀ req,
     let name := ServiceCommonRequest.ServiceName req in
     ServiceCommonRequest.Cluster req = cluster s →
     ServiceCommonRequest.Region req = region s →
     Server.getServiceAttr s (Decoded req) name w
     = match services (db w) !! (cluster s, name) with
       | None => (Done notFound, got name)
       | Some svc =>
           let w2 := called (DBGetServiceAttr (Service.ServiceUUID svc)) (got name) in
           match attrs (db w) !! Service.ServiceUUID svc with
           | None => (Done notFound, w2)
           | Some attr =>
               (Done ("", StatusOK),
                respond [WriteHeader StatusOK; Write (GetServiceAttributesResponse attr)] w2)
           end
       end)
  ∧ (∀ req,
     let rs := ListVolumeRequest.Service req in
     let name := ServiceCommonRequest.ServiceName rs in
     ServiceCommonRequest.Cluster rs = cluster s →
     ServiceCommonRequest.Region rs = region s →
     Server.listVolumes s (DecodedS req) w
     = match services (db w) !! (cluster s, name) with
       | None => (Done notFound, got name)
       | Some svc =>
           (Done ("", StatusOK),
            respond [WriteHeader StatusOK;
                     Write (ListVolumeResponse (listMembers (db w) (Service.ServiceUUID svc)))]
                    (called (DBListVolumes (Service.ServiceUUID svc)) (got name)))
       end)
  ∧ (∀ req st,
     let name := ServiceCommonRequest.ServiceName req in
     ServiceCommonRequest.Cluster req = cluster s →
     ServiceCommonRequest.Region req = region s →
     platformStatus w !! (cluster s, name) = Some st →
     Server.getServiceStatus s (Decoded req) w
     = (Done ("", StatusOK),
        respond [WriteHeader StatusOK;
                 Write (ServiceStatusResponse (PlatformStatus.RunningCount st)
                                              (PlatformStatus.DesiredCount st))]
                (called (CsGetServiceStatus (cluster s) name) w)))
  ∧ (∀ req st,
     let rs := GetTaskStatusRequest.Service req in
     let id := GetTaskStatusRequest.TaskID req in
     ServiceCommonRequest.Cluster rs = cluster s →
     ServiceCommonRequest.Region rs = region s →
     id ≠ "" →
     platformTasks w !! id = Some st →
     Server.getTaskStatus s (DecodedS req) w
     = (Done ("", StatusOK),
        respond [WriteHeader StatusOK; Write (GetTaskStatusResponse st)]
                (called (CsGetTaskStatus (cluster s) id) w))).
Proof.
  intros Hf got notFound. subst got notFound.
  pose proof (nextFault_none w Hf) as Hn.
  split; [|split; [|split]].
  - intros req name Hc Hr. unfold Server.getServiceAttr.
    rewrite (matching_check _ _ _ Hc Hr). simpl.
    rewrite bool_decide_eq_false_2 by (by intros E; apply E).
    rewrite bind_GetService, Hn.
    destruct (services (db w) !! (cluster s, name)) as [svc|]; [|done].
    rewrite bind_GetServiceAttr, (nextFault_none _ (faults_called _ _ Hf)).
    change (db (called _ w)) with (db w).
    destruct (attrs (db w) !! Service.ServiceUUID svc) as [attr|]; [|done].
    apply write_response.
  - intros req rs name Hc Hr. unfold Server.listVolumes. cbv zeta. fold rs.
    rewrite (matching_check _ _ _ Hc Hr). fold name.
    rewrite bind_GetService, Hn.
    destruct (services (db w) !! (cluster s, name)) as [svc|]; [|done].
    unfold bind at 1. rewrite ListVolumes_eq, (nextFault_none _ (faults_called _ _ Hf)).
    change (db (called _ w)) with (db w). apply write_response.
  - intros req st name Hc Hr Hst. unfold Server.getServiceStatus.
    rewrite (matching_check _ _ _ Hc Hr). fold name. rewrite Hc.
    unfold bind at 1. rewrite GetServiceStatus_eq, Hn, Hst. apply write_response.
  - intros req st rs id Hc Hr Hid Hst. unfold Server.getTaskStatus. cbv zeta. fold rs id.
    rewrite (matching_check _ _ _ Hc Hr). simpl.
    rewrite bool_decide_eq_false_2.
    2: { intros E. apply Hid. by destruct id. }
    unfold bind at 1. rewrite GetTaskStatus_eq, Hn, Hst. apply write_response.
Qed.

End Reports.

(** ** The properties on the demo catalog *)

Section DemoRuns.
#[local] Existing Instance Demo.catalog.
#[local] Existing Instance Demo.ops.

Local Ltac run := vm_compute; reflexivity.

(** C1 on the demo: the MongoDB service has a live init task, and the
    answer carries its status message. *)
Lemma check_service_init_tristate_witness :
  let w := Demo.mongoWorld {[ "uuid-mongo1" := Demo.mongoTask ]} [] in
  getCatalogServiceOp Demo.server (DecodedS (Demo.mongoCheck "mongodb")) w
  = (Done ("", StatusOK),
     respond (checkInitResponse false "enable auth for MongoDB")
             (called (DBGetService "c1" "mongo1") w)).
Proof.
  intros w.
  set (w1 := called (DBGetService "c1" "mongo1") w).
  assert (Hget : GetService "c1" "mongo1" w = (Done (Success Demo.mongoService), w1)) by run.
  assert (Htask : initTasks w1 !! "uuid-mongo1" = Some Demo.mongoTask) by run.
  destruct (@check_service_init_tristate Demo.catalog Demo.server
              (Demo.mongoCheck "mongodb") w w1 Demo.mongoService
              eq_refl eq_refl Hget) as [Hlive _].
  exact (Hlive Demo.mongoTask Htask).
Defined.


(** C5 on the demo: the delete of the old file is made to fail, and
    [updateMemberConfig] still succeeds, the old file left behind.  The
    first member of the service is the one with its slot re-pointed to the
    file of version 1 and the MD5 of the new content; the second member is
    as it was. *)
Lemma updateMemberConfig_writes_next_version_witness :
  let w := Demo.mongoWorld ∅ [None; None; Some ErrDBInternal] in
  let member := Demo.mongoMember "0" "10.0.1.1" in
  let newContent := "net: port: 27017 authorization: enabled" in
  let newMember :=
    ServiceMember.mk "uuid-mongo1" "mongo1-0" "10.0.1.1"
      [MemberConfig.mk "mongod.conf" "mongo1-0-mongod.conf-1"
         "md5(net: port: 27017 authorization: enabled)"] in
  let newFile :=
    ConfigFile.mk "uuid-mongo1" "mongo1-0-mongod.conf-1"
      "md5(net: port: 27017 authorization: enabled)" "mongod.conf" 384 newContent in
  let r := updateMemberConfig member (Demo.mongoFile "0") 0 newContent w in
  fst r = Done (Success tt)
  ∧ cfgfiles (db (snd r)) !! ("uuid-mongo1", "mongo1-0-mongod.conf-0")
    = Some (Demo.mongoFile "0")
  ∧ cfgfiles (db (snd r)) !! ("uuid-mongo1", "mongo1-0-mongod.conf-1") = Some newFile
  ∧ listMembers (db (snd r)) "uuid-mongo1" = [newMember; Demo.mongoMember "1" "10.0.1.2"]
  ∧ trace (snd r)
    = [DBCreateConfigFile newFile; DBUpdateServiceMember member newMember;
       DBDeleteConfigFile "uuid-mongo1" "mongo1-0-mongod.conf-0"].
Proof.
  intros w member newContent newMember newFile r.
  set (c := MemberConfig.mk "mongod.conf" "mongo1-0-mongod.conf-0" "md5(net: port: 27017)").
  set (w1 := snd (CreateConfigFile newFile w)).
  set (w2 := snd (UpdateServiceMember member newMember w1)).
  assert (Hver : GetConfigFileVersion (ConfigFile.FileID (Demo.mongoFile "0")) = Success 0%Z)
    by run.
  assert (Hrange : (- 2 ^ 63 ≤ 0 < 2 ^ 63 - 1)%Z) by lia.
  assert (Hslot : ServiceMember.Configs member !! 0%nat = Some c) by run.
  assert (Hcreate :
    CreateConfigFile
      (UpdateConfigFile (Demo.mongoFile "0")
         (GenMemberConfigFileID (ServiceMember.MemberName member)
            (ConfigFile.FileName (Demo.mongoFile "0")) (0 + 1)) newContent) w
    = (Done (Success newFile), w1)) by run.
  assert (Hcas :
    UpdateServiceMember member
      (UpdateServiceMemberConfigs member
         (<[0%nat := MemberConfig.mk (MemberConfig.FileName c) (ConfigFile.FileID newFile)
                       (ConfigFile.FileMD5 newFile)]> (ServiceMember.Configs member))) w1
    = (Done (Success tt), w2)) by run.
  assert (Hfault : nextFault w2 = Some ErrDBInternal) by run.
  destruct (@updateMemberConfig_writes_next_version Demo.catalog member (Demo.mongoFile "0")
              0%nat c newContent 0%Z w newFile w1 w2 Hver Hrange Hslot Hcreate Hcas)
    as (_ & Hfail & _ & _ & _ & Htrace & Hstored & _).
  specialize (Hfail ErrDBInternal Hfault).
  specialize (Hstored [] [Demo.mongoMember "1" "10.0.1.2"] eq_refl).
  change (updateMemberConfig _ _ _ _ _) with r in Hfail.
  rewrite Hfail.
  split; [reflexivity|]. split; [run|]. split; [run|]. split.
  - etransitivity; [|apply Hstored; apply (bool_decide_unpack _); run]. run.
  - simpl. rewrite Htrace. reflexivity.
Defined.


(** C2 on the demo: after the first SetRedisInit both members carry the
    cluster-info slot; a second one with other node ids is answered with
    ConfigMismatch. *)
Lemma cluster_info_file_is_written_once_witness :
  Forall (hasClusterInfo "md5(n0 n1)") (listMembers (db Demo.redisInitialized) "uuid-redis1")
  ∧ fst (setRedisInit Demo.server (Decoded (Demo.redisInit ["x0"; "x1"])) Demo.redisInitialized)
    = Done ("config mismatch", StatusInternalServerError).
Proof.
  destruct (@cluster_info_file_is_written_once Demo.catalog Demo.server) as (_ & _ & Htwice).
  assert (Hinfo : IsClusterInfoFile
            (ReplicaConfigFile.FileName (CreateClusterInfoFile ["n0"; "n1"])) = true) by run.
  assert (Hredis : ∀ n, IsRedisConfFile n = true → IsClusterInfoFile n = false).
  { intros n Hn. apply bool_decide_eq_true in Hn. by subst n. }
  assert (Hsvc : services (db Demo.redisWorld) !! ("c1", "redis1") = Some Demo.redisService)
    by run.
  assert (Hnd : NoDup (ServiceMember.MemberName
                         <$> listMembers (db Demo.redisWorld) "uuid-redis1")).
  { apply (bool_decide_unpack _). run. }
  assert (Hu : Forall (λ m, ServiceMember.ServiceUUID m = "uuid-redis1")
                      (listMembers (db Demo.redisWorld) "uuid-redis1")).
  { apply (bool_decide_unpack _). run. }
  assert (Hfirst : setRedisInit Demo.server (Decoded (Demo.redisInit ["n0"; "n1"])) Demo.redisWorld
                   = (Done ("", StatusOK), Demo.redisInitialized)) by run.
  destruct (Htwice (Demo.redisInit ["n0"; "n1"]) Demo.redisWorld Demo.redisInitialized
              Demo.redisService Hinfo Hredis Hsvc Hnd Hu Hfirst)
    as (Hall & _ & Hother).
  split; [exact Hall|].
  set (w := Demo.redisInitialized).
  set (members := listMembers (db w) "uuid-redis1").
  set (attr := ServiceAttr.mk "uuid-redis1" ServiceStatusActive 2 "c1" "redis1"
                              "c1-firecamp.com").
  set (wa := called (DBGetService "c1" "redis1") w).
  set (wb := called (DBGetServiceAttr "uuid-redis1") wa).
  set (wc := called (DBListServiceMembers "uuid-redis1") wb).
  assert (Hids : CatalogSetRedisInitRequest.NodeIds (Demo.redisInit ["x0"; "x1"]) ≠ [])
    by discriminate.
  assert (Hmd5 : GenMD5 (ReplicaConfigFile.Content (CreateClusterInfoFile ["x0"; "x1"]))
                 ≠ GenMD5 (ReplicaConfigFile.Content (CreateClusterInfoFile ["n0"; "n1"])))
    by (vm_compute; discriminate).
  assert (Hmem : members ≠ []) by (vm_compute; discriminate).
  assert (Hget : GetService "c1" "redis1" w = (Done (Success Demo.redisService), wa)) by run.
  assert (Hattr : GetServiceAttr "uuid-redis1" wa = (Done (Success attr), wb)) by run.
  assert (Hlist : ListServiceMembers "uuid-redis1" wb = (Done (Success members), wc)) by run.
  destruct (Hother (Demo.redisInit ["x0"; "x1"]) w wa attr wb wc
              eq_refl eq_refl eq_refl Hids Hmd5 Hmem Hget Hattr Hlist) as [_ Hrun].
  rewrite Hrun. reflexivity.
Defined.

(** C7 on the demo: a create for another cluster and a SetRedisInit for
    another region are answered with BadRequest, the world untouched. *)
Lemma foreign_request_rejected_witness :
  Server.createService Demo.server (DecodedS (Demo.request "c2" "mongo1" 2)) "mongo1"
    (Demo.mongoWorld ∅ [])
    = (Done BadRequest, Demo.mongoWorld ∅ [])
  ∧ setRedisInit Demo.server
      (Decoded (CatalogSetRedisInitRequest.mk "r2" "c1" "redis1" ["n0"; "n1"])) Demo.redisWorld
    = (Done BadRequest, Demo.redisWorld).
Proof.
  split.
  - destruct (@foreign_request_rejected Demo.catalog Demo.server (Demo.mongoWorld ∅ []))
      as (Hcreate & _).
    apply Hcreate. left. discriminate.
  - destruct (@foreign_request_rejected Demo.catalog Demo.server Demo.redisWorld)
      as (_ & _ & _ & _ & _ & _ & _ & _ & _ & _ & _ & _ & Hredis & _).
    apply Hredis. right. discriminate.
Defined.

(** C9 on the demo: a SetRedisInit with no node ids panics before its
    first call. *)
Lemma setRedisInit_reads_first_node_id_witness :
  setRedisInit Demo.server (Decoded (Demo.redisInit [])) Demo.redisWorld
  = (Panicked IndexOutOfRange, Demo.redisWorld).
Proof.
  destruct (@setRedisInit_reads_first_node_id Demo.catalog Demo.server) as [Hempty _].
  destruct (Hempty (Demo.redisInit []) Demo.redisWorld eq_refl eq_refl eq_refl) as [Hrun _].
  exact Hrun.
Defined.

(** C10 on the demo: a Redis member has no basic-config slot, and the
    Consul rewrite of it panics. *)
Lemma updateConsulMemberConfig_needs_basic_config_witness :
  updateConsulMemberConfig (Demo.redisMember "0" "10.0.2.1") Demo.consulIPs Demo.redisWorld
  = (Panicked NilDereference, Demo.redisWorld).
Proof.
  destruct (@updateConsulMemberConfig_needs_basic_config Demo.catalog) as [Hnone _].
  apply Hnone. repeat constructor.
Defined.

(** X5 on the demo: a create of a service the platform does not have. *)
Lemma createService_creates_container_once_witness :
  let req := Demo.request "c1" "svc1" 2 in
  let r := Server.createService Demo.server (DecodedS req) "svc1" Demo.emptyWorld in
  fst r = Done ("", StatusOK)
  ∧ containers (snd r) !! ("c1", "svc1") = Some (genCreateServiceOptions req "uuid-svc1")
  ∧ trace (snd r) = [SvcCreateService req "c1-firecamp.com" "vpc-1";
                     CsIsServiceExist "c1" "svc1";
                     CsCreateService (genCreateServiceOptions req "uuid-svc1")].
Proof.
  intros req r.
  set (w1 := snd (svc_CreateService req "c1-firecamp.com" "vpc-1" Demo.emptyWorld)).
  assert (Hcr : svc_CreateService req (GenDefaultDomainName (cluster Demo.server))
                  GetLocalVpcID Demo.emptyWorld = (Done (Success "uuid-svc1"), w1)) by run.
  assert (Hf1 : nextFault w1 = None) by run.
  assert (Hno : containers w1 !! ("c1", "svc1") = None) by run.
  assert (Hf2 : nextFault (called (CsIsServiceExist "c1" "svc1") w1) = None) by run.
  destruct (@createService_creates_container_once Demo.catalog Demo.server req
              Demo.emptyWorld eq_refl eq_refl) as [_ Hok].
  destruct (Hok "uuid-svc1" w1 Hcr) as (_ & _ & Hnew).
  destruct (Hnew Hf1 Hno) as [_ Hrun]. specialize (Hrun Hf2).
  change (Server.createService _ _ _ _) with r in Hrun. rewrite Hrun.
  split; [reflexivity|]. split; run.
Defined.


(** X11 on the demo: a second SetServiceInit of the MongoDB service. *)
Lemma setMongoDBInit_again_writes_nothing_witness :
  let r := setMongoDBInit Demo.server Demo.mongoInit Demo.mongoInitialized in
  fst r = Done ("", StatusOK)
  ∧ configStore (snd r) = configStore Demo.mongoInitialized
  ∧ ∃ t, trace (snd r) = trace Demo.mongoInitialized ++ t ∧ Forall noConfigWrite t.
Proof.
  intros r. split; [run|].
  apply (@setMongoDBInit_again_writes_nothing Demo.catalog Demo.server Demo.mongoInit
           Demo.mongoInitialized).
  intros service Hs. vm_compute in Hs. injection Hs as <-.
  set (l := listMembers _ _). vm_compute in l. subst l.
  repeat constructor; intros c cf Hc Hcf;
    vm_compute in Hc; injection Hc as <-;
    vm_compute in Hcf; injection Hcf as <-; run.
Defined.

(** X15 on the demo: an init task on the MongoDB service. *)
Lemma runTask_runs_on_the_stored_service_witness :
  let r := Server.runTask Demo.server (DecodedS Demo.initTaskRequest) (Demo.mongoWorld ∅ []) in
  fst r = Done ("", StatusOK)
  ∧ resp (snd r) = [WriteHeader StatusOK; Write (RunTaskResponse "task-init")]
  ∧ trace (snd r)
    = [DBGetService "c1" "mongo1";
       CsRunTask (RunTaskOptions.mk
                    (CommonOptions.mk "c1" "mongo1" "uuid-mongo1" "image" "") "init" [])].
Proof.
  intros r.
  set (w := Demo.mongoWorld ∅ []).
  set (opts := RunTaskOptions.mk (CommonOptions.mk "c1" "mongo1" "uuid-mongo1" "image" "")
                 "init" []).
  set (w2 := snd (RunTask opts (called (DBGetService "c1" "mongo1") w))).
  destruct (runTask_runs_on_the_stored_service Demo.server Demo.initTaskRequest w
              eq_refl eq_refl) as (_ & _ & Hfound).
  assert (Hf : nextFault w = None) by run.
  assert (Hs : services (db w) !! ("c1", "mongo1") = Some Demo.mongoService) by run.
  destruct (Hfound Demo.mongoService Hf Hs) as [_ Hrun].
  assert (Hr : RunTask opts (called (DBGetService "c1" "mongo1") w)
               = (Done (Success "task-init"), w2)) by run.
  specialize (Hrun "task-init" w2 Hr).
  change (Server.runTask _ _ _) with r in Hrun. rewrite Hrun.
  split; [reflexivity|]. split; run.
Defined.

(** X6 on the demo: a Kafka create that names a ZooKeeper service the DB
    does not have. *)
Lemma kafka_and_kibana_read_their_service_first_witness :
  createKafkaService Demo.server (DecodedS Demo.kafkaRequest) Demo.emptyWorld
  = (Done ("DB record not found", StatusNotFound),
     called (DBGetService "c1" "zk1") Demo.emptyWorld).
Proof.
  destruct (@kafka_and_kibana_read_their_service_first Demo.catalog Demo.server
              Demo.emptyWorld) as [Hkafka _].
  destruct (Hkafka Demo.kafkaRequest eq_refl eq_refl) as (_ & Hnone & _).
  apply Hnone; run.
Defined.

(** X10 on the demo: the compare-and-swap of the member is made to fail. *)
Lemma updateMemberConfig_fails_before_the_swap_witness :
  let w := Demo.mongoWorld ∅ [None; Some ErrDBConditionalCheckFailed] in
  let r := updateMemberConfig (Demo.mongoMember "0" "10.0.1.1") (Demo.mongoFile "0") 0
             "net: port: 27017 authorization: enabled" w in
  fst r = Done (Failure ErrDBConditionalCheckFailed)
  ∧ members (db (snd r)) = members (db w)
  ∧ cfgfiles (db w) ⊆ cfgfiles (db (snd r))
  ∧ is_Some (cfgfiles (db (snd r)) !! ("uuid-mongo1", "mongo1-0-mongod.conf-1")).
Proof.
  intros w r.
  assert (Hfst : fst r = Done (Failure ErrDBConditionalCheckFailed)) by run.
  destruct (@updateMemberConfig_fails_before_the_swap Demo.catalog) as [Hfail _].
  destruct (Hfail (Demo.mongoMember "0" "10.0.1.1") (Demo.mongoFile "0") 0%Z
              "net: port: 27017 authorization: enabled" w) as (Hm & Hc & _).
  { fold r. rewrite Hfst. discriminate. }
  split; [exact Hfst|]. split; [exact Hm|]. split; [exact Hc|].
  eexists. run.
Defined.


(** X13 on the demo: a MongoDB create. *)
Lemma create_with_init_registers_a_task_witness :
  let r := createMongoDBService Demo.server (DecodedS Demo.mongoRequest) Demo.emptyWorld in
  is_Some (initTasks (snd r) !! "uuid-mongo2")
  ∧ ∃ t, trace (snd r) = t ∧ Forall createCall t.
Proof.
  intros r.
  destruct (@create_with_init_registers_a_task Demo.catalog Demo.server)
    as (Hcalls & _ & _ & _ & Htask & _).
  split.
  - destruct (Htask Demo.mongoRequest (Demo.request "c1" "mongo2" 3) eq_refl
                Demo.emptyWorld (snd r)) as (uuid & w1 & Hcr & Hsome & _).
    { run. }
    assert (Hu : uuid = "uuid-mongo2").
    { assert (E : fst (createCommonService Demo.server (Demo.request "c1" "mongo2" 3)
                         Demo.emptyWorld) = Done (Success "uuid-mongo2")) by run.
      rewrite Hcr in E. by injection E. }
    by rewrite <- Hu.
  - destruct (Hcalls (DecodedS Demo.mongoRequest) Demo.emptyWorld) as (t & Ht & Hall).
    exists t. split; [exact Ht|exact Hall].
Defined.

(** X3 on the demo: a GET of the RunTask operation, and a body that names
    another service than the URL. *)
Lemma server_rejects_malformed_requests_witness :
  getOp Demo.server undecodable "?RunTask" Demo.emptyWorld = (Done BadRequest, Demo.emptyWorld)
  ∧ Server.getServiceAttr Demo.server (Decoded (ServiceCommonRequest.mk "r" "c1" "mongo1"))
      "redis1" (Demo.mongoWorld ∅ [])
    = (Done BadRequest, Demo.mongoWorld ∅ []).
Proof.
  split.
  - destruct (@server_rejects_malformed_requests Demo.catalog Demo.ops Demo.server
                Demo.emptyWorld) as (_ & _ & _ & _ & _ & Hops & _).
    destruct (Hops undecodable "?RunTask" eq_refl) as (_ & Hget & _).
    apply Hget. apply (bool_decide_unpack _). run.
  - destruct (@server_rejects_malformed_requests Demo.catalog Demo.ops Demo.server
                (Demo.mongoWorld ∅ [])) as (_ & _ & Hname & _).
    apply Hname. discriminate.
Defined.

(** X14 on the demo: the map of the two Consul members. *)
Lemma consulMemberIPs_holds_the_last_ip_witness :
  Demo.consulIPs !! "consul1-1.c1-firecamp.com" = Some "10.0.0.2".
Proof.
  destruct (@consulMemberIPs_holds_the_last_ip Demo.catalog "c1-firecamp.com"
              [Demo.consulMember "0" "10.0.0.1" 1; Demo.consulMember "1" "10.0.0.2" 1])
    as (_ & Hnd & _).
  apply (Hnd ltac:(apply (bool_decide_unpack _); run)
             (Demo.consulMember "1" "10.0.0.2" 1)).
  apply list_elem_of_further, list_elem_of_here.
Defined.

(** X17 on the demo: the attributes of the MongoDB service, and those of a
    service the DB does not have. *)
Lemma get_handlers_report_the_store_witness :
  let w := Demo.mongoWorld ∅ [] in
  Server.getServiceAttr Demo.server (Decoded (ServiceCommonRequest.mk "r" "c1" "mongo1")) "mongo1" w
  = (Done ("", StatusOK),
     respond [WriteHeader StatusOK; Write (GetServiceAttributesResponse Demo.mongoAttr)]
       (called (DBGetServiceAttr "uuid-mongo1") (called (DBGetService "c1" "mongo1") w)))
  ∧ Server.getServiceAttr Demo.server (Decoded (ServiceCommonRequest.mk "r" "c1" "pg1")) "pg1" w
    = (Done ("DB record not found", StatusNotFound), called (DBGetService "c1" "pg1") w).
Proof.
  intros w.
  assert (Hf : faults w = []) by run.
  destruct (get_handlers_report_the_store Demo.server w Hf) as [Hattr _].
  split.
  - etransitivity;
      [exact (Hattr (ServiceCommonRequest.mk "r" "c1" "mongo1") eq_refl eq_refl)|run].
  - etransitivity;
      [exact (Hattr (ServiceCommonRequest.mk "r" "c1" "pg1") eq_refl eq_refl)|run].
Defined.

End DemoRuns.
